(** * gitter: session store and intent-resolution engine

    A shallow embedding of the Go backend
    ([backend/internal/store], [backend/internal/server]) and the
    properties of its session store, slot-filling merge, PR-number
    resolver and per-turn state machine.

    Conventions of the embedding.
    - Go [string]s are byte strings ([string]); Go [int] and
      [time.Duration]/[time.Time] (nanoseconds) are [Z].
    - Go maps are [gmap]s; reading a missing key yields the zero value,
      written [default z (m !! k)].
    - [map[string]any] values are the inductive [any]; a JSON number is
      a [float64], represented by the rational it denotes.
    - Slices and maps are values here, so the defensive copies of the
      store and of [handleWithArgs] ([append([]T(nil), xs...)], the
      [for k, v := range] copy loops) are the identity; the loops that
      do more than copy are folds.
    - Lengths and PR numbers of type [int] stay far from the bounds of
      64 bits, so no wrap-around is written out for them; the sums of
      the REST client wrap around.  The conversion [int(n)] of a JSON
      number truncates within the 64-bit range and gives the least
      [int] outside it, as on amd64 (Go leaves the result
      implementation-defined there).
    - The store is threaded explicitly: a method that writes returns
      the new store, a method that reads and may purge returns both.
      The mutex of the store makes each method atomic; one turn is
      modelled without interleaving.
    - Every reading of the wall clock is an explicit argument.
    - The classifier, the action provider, the database, the token file
      and the OAuth exchange are collaborators: their outcomes are
      fields of the server. *)

From Stdlib Require Import Ascii QArith.
From stdpp Require Import gmap strings list fin_maps pretty.

Set Warnings "-register-all".

Open Scope Z_scope.
Open Scope string_scope.
Open Scope list_scope.

(** ** Go runtime: [strings], [fmt] and dynamic values *)

Module strings.

(** [asciiSpace] table of package [strings]. *)
Definition asciiSpace (c : ascii) : bool :=
  let n := N_of_ascii c in
  ((n =? 9) || (n =? 10) || (n =? 11) || (n =? 12) || (n =? 13) || (n =? 32))%N.

(** UTF-8 encodings of the non-ASCII runes for which [unicode.IsSpace]
    holds: U+0085, U+00A0 (two bytes) and U+1680, U+2000..U+200A,
    U+2028, U+2029, U+202F, U+205F, U+3000 (three bytes). *)
Definition space2 (a b : ascii) : bool :=
  let '(x, y) := (N_of_ascii a, N_of_ascii b) in
  ((x =? 194) && ((y =? 133) || (y =? 160)))%N.

Definition space3 (a b c : ascii) : bool :=
  let '(x, y, z) := (N_of_ascii a, N_of_ascii b, N_of_ascii c) in
  (((x =? 225) && (y =? 154) && (z =? 128))
   || ((x =? 226) && (y =? 128)
       && (((128 <=? z) && (z <=? 138)) || (z =? 168) || (z =? 169) || (z =? 175)))
   || ((x =? 226) && (y =? 129) && (z =? 159))
   || ((x =? 227) && (y =? 128) && (z =? 128)))%N.

(** Drop leading runes while they are white space, for a byte-level
    description of the white-space runes of one, two and three
    bytes.  An ill-formed byte decodes to U+FFFD, which is not a
    space, so the scan stops there. *)
Fixpoint trimRunes (p1 : ascii -> bool) (p2 : ascii -> ascii -> bool)
    (p3 : ascii -> ascii -> ascii -> bool) (l : list ascii) : list ascii :=
  match l with
  | [] => []
  | a :: l1 =>
      if p1 a then trimRunes p1 p2 p3 l1 else
      match l1 with
      | [] => l
      | b :: l2 =>
          if p2 a b then trimRunes p1 p2 p3 l2 else
          match l2 with
          | [] => l
          | c :: l3 => if p3 a b c then trimRunes p1 p2 p3 l3 else l
          end
      end
  end.

(** [TrimLeftFunc(s, unicode.IsSpace)] *)
Definition TrimLeftSpace (l : list ascii) : list ascii :=
  trimRunes asciiSpace space2 space3 l.

(** [TrimRightFunc(s, unicode.IsSpace)]: the same scan from the end, on
    the reversed bytes ([DecodeLastRuneInString] walks back to the
    first byte of the last rune). *)
Definition TrimRightSpace (l : list ascii) : list ascii :=
  reverse (trimRunes asciiSpace (fun a b => space2 b a) (fun a b c => space3 c b a)
             (reverse l)).

(** [strings.TrimSpace] *)
Definition TrimSpace (s : string) : string :=
  String.string_of_list_ascii
    (TrimRightSpace (TrimLeftSpace (String.list_ascii_of_string s))).

Fixpoint HasPrefix (s prefix : string) : bool :=
  match prefix, s with
  | EmptyString, _ => true
  | String _ _, EmptyString => false
  | String a p, String b s' => bool_decide (a = b) && HasPrefix s' p
  end.

(** [strings.Contains]. *)
Fixpoint Contains (s substr : string) : bool :=
  HasPrefix s substr
  || match s with
     | EmptyString => false
     | String _ s' => Contains s' substr
     end.

(** [strings.Join]. *)
Definition Join (elems : list string) (sep : string) : string :=
  String.concat sep elems.

End strings.

(** [%d] of package [fmt]. *)
Definition fmt_d (n : Z) : string := pretty n.

(** A value of static type [any], as [encoding/json] or the handlers
    produce it. *)
Inductive any : Type :=
| AString (s : string)
| AFloat64 (q : Q)
| AInt (n : Z)
| ABool (b : bool)
| AArray (xs : list any)
| AObject (kvs : list (string * any))
| ANil.

(** The conversion [int(n)] of a [float64] to the 64-bit [int]:
    truncation toward zero while the truncated value fits.  When it
    does not fit, the language leaves the result to the implementation;
    this is the one of amd64, whose conversion instruction then gives
    the least [int]. *)
Definition int_of_float64 (q : Q) : Z :=
  let t := Z.quot (Qnum q) (Z.pos (Qden q)) in
  if decide (- 2 ^ 63 <= t < 2 ^ 63) then t else - 2 ^ 63.

(** [v, _ := m[k].(string)] *)
Definition assertString (v : option any) : string :=
  match v with Some (AString s) => s | _ => "" end.

(** ** Package [store] *)

Module store.

Record Message := mkMessage { Role : string; Content : string }.

(** [PRRef] holds just enough to resolve a repo from a PR number. *)
Record PRRef := mkPRRef { Number : Z; Repository : string }.

Record LastPRsCache := mkLastPRsCache { PRs : list PRRef; PRsUpdatedAt : Z }.

Record PendingIntent :=
  mkPendingIntent { PType : string; PArgs : gmap string any; PUpdatedAt : Z }.

Record MemoryStore := mkMemoryStore {
  sessions : gmap string (list Message);
  maxMessages : Z;
  oauthStateBySession : gmap string string;
  usernameBySession : gmap string string;
  sessionByOAuthState : gmap string string;
  lastPRsBySession : gmap string LastPRsCache;
  pendingBySession : gmap string PendingIntent
}.

Definition setSessions (f : gmap string (list Message)) (m : MemoryStore) :=
  mkMemoryStore f (maxMessages m) (oauthStateBySession m) (usernameBySession m)
    (sessionByOAuthState m) (lastPRsBySession m) (pendingBySession m).

Definition setOAuth (byS byO : gmap string string) (m : MemoryStore) :=
  mkMemoryStore (sessions m) (maxMessages m) byS (usernameBySession m)
    byO (lastPRsBySession m) (pendingBySession m).

Definition setUsernames (f : gmap string string) (m : MemoryStore) :=
  mkMemoryStore (sessions m) (maxMessages m) (oauthStateBySession m) f
    (sessionByOAuthState m) (lastPRsBySession m) (pendingBySession m).

Definition setLastPRsMap (f : gmap string LastPRsCache) (m : MemoryStore) :=
  mkMemoryStore (sessions m) (maxMessages m) (oauthStateBySession m)
    (usernameBySession m) (sessionByOAuthState m) f (pendingBySession m).

Definition setPendingMap (f : gmap string PendingIntent) (m : MemoryStore) :=
  mkMemoryStore (sessions m) (maxMessages m) (oauthStateBySession m)
    (usernameBySession m) (sessionByOAuthState m) (lastPRsBySession m) f.

Definition NewMemoryStore (maxMessages : Z) : MemoryStore :=
  mkMemoryStore ∅ maxMessages ∅ ∅ ∅ ∅ ∅.

(** [msgs[len(msgs)-m.maxMessages:]] when the history is over the bound. *)
Definition trimLocked (sessionID : string) (m : MemoryStore) : MemoryStore :=
  if decide (maxMessages m <= 0) then m else
  let msgs := default [] (sessions m !! sessionID) in
  if decide (Z.of_nat (length msgs) > maxMessages m)
  then setSessions
         (<[sessionID := drop (Z.to_nat (Z.of_nat (length msgs) - maxMessages m)) msgs]>
            (sessions m)) m
  else m.

Definition Append (sessionID : string) (msg : Message) (m : MemoryStore) : MemoryStore :=
  trimLocked sessionID
    (setSessions
       (<[sessionID := default [] (sessions m !! sessionID) ++ [msg]]> (sessions m)) m).

Definition Get (sessionID : string) (m : MemoryStore) : list Message :=
  default [] (sessions m !! sessionID).

Definition Set_ (sessionID : string) (msgs : list Message) (m : MemoryStore) : MemoryStore :=
  trimLocked sessionID (setSessions (<[sessionID := msgs]> (sessions m)) m).

(** OAuth helpers *)

Definition SetOAuthState (sessionID state : string) (m : MemoryStore) : MemoryStore :=
  setOAuth (<[sessionID := state]> (oauthStateBySession m))
           (<[state := sessionID]> (sessionByOAuthState m)) m.

Definition GetOAuthState (sessionID : string) (m : MemoryStore) : string :=
  default "" (oauthStateBySession m !! sessionID).

Definition ClearOAuthState (sessionID : string) (m : MemoryStore) : MemoryStore :=
  match oauthStateBySession m !! sessionID with
  | Some st =>
      setOAuth (delete sessionID (oauthStateBySession m))
               (delete st (sessionByOAuthState m)) m
  | None => m
  end.

Definition SetUsername (sessionID username : string) (m : MemoryStore) : MemoryStore :=
  setUsernames (<[sessionID := username]> (usernameBySession m)) m.

Definition GetUsername (sessionID : string) (m : MemoryStore) : string :=
  default "" (usernameBySession m !! sessionID).

Definition ClearUsername (sessionID : string) (m : MemoryStore) : MemoryStore :=
  setUsernames (delete sessionID (usernameBySession m)) m.

Definition GetSessionByOAuthState (state : string) (m : MemoryStore) : string :=
  default "" (sessionByOAuthState m !! state).

(** Slot/PR cache TTLs: [7 * time.Minute], in nanoseconds. *)
Definition lastPRsTTL : Z := 7 * 60 * 1000000000.
Definition pendingTTL : Z := 7 * 60 * 1000000000.

(** [time.Since(t)] when the clock reads [now]. *)
Definition Since (now t : Z) : Z := now - t.

Definition SetLastPRs (now : Z) (sessionID : string) (prs : list PRRef)
    (m : MemoryStore) : MemoryStore :=
  setLastPRsMap (<[sessionID := mkLastPRsCache prs now]> (lastPRsBySession m)) m.

(** Returns the cached PRs if within TTL; an expired entry is deleted. *)
Definition GetLastPRs (now : Z) (sessionID : string) (m : MemoryStore)
    : option (list PRRef) * MemoryStore :=
  match lastPRsBySession m !! sessionID with
  | None => (None, m)
  | Some cache =>
      if decide (Since now (PRsUpdatedAt cache) > lastPRsTTL)
      then (None, setLastPRsMap (delete sessionID (lastPRsBySession m)) m)
      else (Some (PRs cache), m)
  end.

Definition SetPendingIntent (now : Z) (sessionID typ : string) (args : gmap string any)
    (m : MemoryStore) : MemoryStore :=
  setPendingMap (<[sessionID := mkPendingIntent typ args now]> (pendingBySession m)) m.

(** Returns the pending intent if within TTL; an expired entry is deleted. *)
Definition GetPendingIntent (now : Z) (sessionID : string) (m : MemoryStore)
    : option (string * gmap string any) * MemoryStore :=
  match pendingBySession m !! sessionID with
  | None => (None, m)
  | Some p =>
      if decide (Since now (PUpdatedAt p) > pendingTTL)
      then (None, setPendingMap (delete sessionID (pendingBySession m)) m)
      else (Some (PType p, PArgs p), m)
  end.

Definition ClearPendingIntent (sessionID : string) (m : MemoryStore) : MemoryStore :=
  setPendingMap (delete sessionID (pendingBySession m)) m.

(** *** Persistent collaborators of the store package

    The PostgreSQL table and the token file live outside the process;
    the outcome of each statement or file operation is part of the
    environment. *)

Definition error := string.

Inductive result (A : Type) : Type :=
| Ok (a : A)
| Err (e : error).
Arguments Ok {A} a.
Arguments Err {A} e.

Record GitHubAuth := mkGitHubAuth {
  AuthSessionID : string;
  AuthGitHubToken : string;
  AuthGitHubOwner : string
}.

Record DatabaseStore := mkDatabaseStore {
  (** outcome of the [SELECT ... WHERE session_id = $1]:
      a row, [sql.ErrNoRows] ([Ok None]) or another error *)
  queryRow : string -> result (option GitHubAuth);
  (** outcome of the [INSERT ... ON CONFLICT DO UPDATE] *)
  execUpsert : string -> string -> string -> option error
}.

Definition SaveGitHubAuth (ds : DatabaseStore) (sessionID githubToken githubOwner : string)
    : option error :=
  if decide (sessionID = "" ∨ githubToken = "" ∨ githubOwner = "")
  then Some "session_id, github_token, and github_owner are required"
  else match execUpsert ds sessionID githubToken githubOwner with
       | Some e => Some ("failed to save GitHub auth: " +:+ e)
       | None => None
       end.

Definition GetGitHubAuth (ds : DatabaseStore) (sessionID : string)
    : result (option GitHubAuth) :=
  if decide (sessionID = "") then Err "session_id is required" else
  match queryRow ds sessionID with
  | Ok r => Ok r
  | Err e => Err ("failed to get GitHub auth: " +:+ e)
  end.

Record GitHubToken := mkGitHubToken { AccessToken : string; TokenType : string }.

Inductive tokenFile : Type :=
| FileNotExist
| FileReadError (e : error)
| FileBytes (unmarshal : result GitHubToken).

Record FileTokenStore := mkFileTokenStore {
  file : tokenFile;
  (** outcome of [MkdirAll], [WriteFile] and [Rename] for a token *)
  writeFile : GitHubToken -> option error
}.

Definition Read (f : FileTokenStore) : result (option GitHubToken) :=
  match file f with
  | FileNotExist => Ok None
  | FileReadError e => Err e
  | FileBytes (Err e) => Err e
  | FileBytes (Ok t) => if decide (AccessToken t = "") then Ok None else Ok (Some t)
  end.

Definition Write (f : FileTokenStore) (tok : GitHubToken) : option error :=
  if decide (AccessToken tok = "") then Some "invalid token" else writeFile f tok.

End store.

(** ** Package [github]: the action provider and the classifier's verdict *)

Module gh.

Import store.

Record PR := mkPR {
  Number : Z; Title : string; Author : string;
  Status : string; URL : string; Repository : string
}.

Record Comment := mkComment {
  CAuthor : string; Body : string; Timestamp : string; CType : string
}.

Definition IntentKind := string.
Definition IntentUnknown : IntentKind := "unknown".
Definition IntentListMine : IntentKind := "list_prs_mine".
Definition IntentListReview : IntentKind := "list_prs_review".

(** The methods of the [MCPClient] interface that the chat turn calls. *)
Record MCPClient := mkMCPClient {
  ListPRsForReview : string -> result (list PR);
  ListUserPRs : string -> result (list PR);
  GetPRComments : string -> string -> Z -> result (list Comment);
  MergePR : string -> string -> Z -> string -> option error
}.

Record ClassifiedIntent := mkClassifiedIntent {
  Type_ : string;
  Args : gmap string any;
  Confidence : Q;
  Message : string
}.

Record ChatCompletionMessage := mkChatMessage { MRole : string; MContent : string }.

Record IntentClassifier := mkIntentClassifier {
  (** [(nil, err)], [(nil, nil)] or a verdict *)
  ClassifyChat : list ChatCompletionMessage -> result (option ClassifiedIntent)
}.

End gh.

(** ** Package [types] *)

Module types.

Record ChatRequest := mkChatRequest {
  SessionID : string; Message : string; System : string
}.

(** A payload entry: a dynamic value, or one of the typed slices the
    handlers put there. *)
Inductive payloadValue : Type :=
| PVAny (v : any)
| PVPRs (prs : list gh.PR)
| PVComments (cs : list gh.Comment).

Record IntentResponse := mkIntentResponse {
  Type_ : string;
  Payload : gmap string payloadValue
}.

Record ChatResponse := mkChatResponse {
  RSessionID : string;
  Reply : string;
  Transcript : string;
  Intent : option IntentResponse
}.

End types.

Module config.

Record Config := mkConfig {
  GitHubToken : string;
  DefaultRepoOwner : string;
  FrontendURL : string
}.

End config.

(** ** Package [server]: the chat turn *)

Module server.

Import store.
Export strings.

Record Token := mkToken { TAccessToken : string; TTokenType : string }.

Record OAuthConfig := mkOAuthConfig {
  ClientID : string;
  ClientSecret : string;
  (** outcome of the code-for-token exchange *)
  Exchange : string -> result Token
}.

Record Server := mkServer {
  cfg : config.Config;
  oauthCfg : option OAuthConfig;
  tokenStore : FileTokenStore;
  databaseStore : option DatabaseStore;
  mcp : gh.MCPClient;
  intent : option gh.IntentClassifier;
  (** [fetchGitHubUsername]: a GET on the platform's [/user] endpoint;
      the empty string on any failure *)
  fetchGitHubUsername : string -> string
}.

(** The clock readings of the store calls of one turn, in program
    order: the read of the pending intent that opens [handleWithArgs],
    the second read of a branch ([GetLastPRs], or [GetPendingIntent]
    again in the clarify branch), and the write that closes it. *)
Record Clock := mkClock { tMerge : Z; tResolve : Z; tPersist : Z }.

(** What [handleWithArgs] returns: reply text, structured intent, ok. *)
Definition Reply : Type := string * option types.IntentResponse * bool.

Inductive HTTPResponse : Type :=
| WriteError (code : Z) (msg : string)
| WriteJSON (resp : types.ChatResponse)
| Redirect (url : string) (sessionCookie : string).

Definition intentOnly (typ : string) : option types.IntentResponse :=
  Some (types.mkIntentResponse typ ∅).

Definition convertMessages (msgs : list Message) : list gh.ChatCompletionMessage :=
  map (fun m => gh.mkChatMessage (if decide (Role m = "") then "user" else Role m)
                  (Content m)) msgs.

(** Database first, then the token file, then the configured token. *)
Definition getGitHubToken (s : Server) (sessionID : string) : string :=
  let fromFile :=
    match Read (tokenStore s) with
    | Ok (Some token) =>
        if decide (TrimSpace (AccessToken token) ≠ "")
        then AccessToken token else config.GitHubToken (cfg s)
    | _ => config.GitHubToken (cfg s)
    end in
  match databaseStore s with
  | Some ds =>
      match GetGitHubAuth ds sessionID with
      | Ok (Some auth) =>
          if decide (TrimSpace (AuthGitHubToken auth) ≠ "")
          then AuthGitHubToken auth else fromFile
      | _ => fromFile
      end
  | None => fromFile
  end.

(** [mergedArgs["pr_number"]] as a [float64] or, failing that, an [int]. *)
Definition argPRNumber (mergedArgs : gmap string any) : Z :=
  match mergedArgs !! "pr_number" with
  | Some (AFloat64 n) => int_of_float64 n
  | Some (AInt n2) => n2
  | _ => 0
  end.

(** The loop [for k, v := range pArgs] that fills the arguments the new
    intent lacks. *)
Definition fillMissing (pArgs mergedArgs : gmap string any) : gmap string any :=
  map_fold (fun k v acc => match acc !! k with
                           | Some _ => acc
                           | None => <[k := v]> acc
                           end) mergedArgs pArgs.

(** Opening block of [handleWithArgs]: the effective type and the
    merged arguments, given what [GetPendingIntent] returned. *)
Definition mergePending (ci : gh.ClassifiedIntent)
    (pending : option (string * gmap string any)) : string * gmap string any :=
  let targetType := gh.Type_ ci in
  let mergedArgs := gh.Args ci in
  match pending with
  | Some (pType, pArgs) =>
      let targetType :=
        if decide (targetType = "clarify" ∧ pType ≠ "") then pType else targetType in
      if decide (targetType = pType ∧ targetType ≠ "")
      then (targetType, fillMissing pArgs mergedArgs)
      else (targetType, mergedArgs)
  | None => (targetType, mergedArgs)
  end.

(** Resolve a bare repo to owner/repo if possible. *)
Definition expandRepo (s : Server) (sessionID repo : string) (m : MemoryStore) : string :=
  let repo := TrimSpace repo in
  if decide (repo ≠ "" ∧ Contains repo "/" = false) then
    let owner := TrimSpace (GetUsername sessionID m) in
    let owner :=
      if decide (owner = "") then TrimSpace (config.DefaultRepoOwner (cfg s)) else owner in
    if decide (owner ≠ "") then owner +:+ "/" +:+ repo else repo
  else repo.

(** The loop collecting the repositories of the cached PRs that carry
    the requested number. *)
Definition matchRefs (refs : list PRRef) (prNumber : Z) : list string :=
  foldl (fun matches r =>
           if decide (Number r = prNumber) then matches ++ [Repository r] else matches)
        [] refs.

Inductive resolution : Type :=
| Proceed (repo : string)
| Ambiguous (matches : list string).

(** Attempt auto-resolve repo via last listed PRs when missing. *)
Definition autoResolve (clk : Clock) (sessionID repo : string) (prNumber : Z)
    (m : MemoryStore) : resolution * MemoryStore :=
  if decide (repo = "" ∧ prNumber > 0) then
    match GetLastPRs (tResolve clk) sessionID m with
    | (Some refs, m1) =>
        match matchRefs refs prNumber with
        | [] => (Proceed repo, m1)
        | [r] => (Proceed r, m1)
        | matches => (Ambiguous matches, m1)
        end
    | (None, m1) => (Proceed repo, m1)
    end
  else (Proceed repo, m).

Definition didYouMean (prNumber : Z) (matches : list string) : string :=
  "Did you mean PR " +:+ fmt_d prNumber +:+ " in " +:+ Join matches " or " +:+ "?".

Definition clarifyAndPersist (clk : Clock) (sessionID typ msg : string)
    (mergedArgs : gmap string any) (m : MemoryStore) : Reply * MemoryStore :=
  ((msg, intentOnly "clarify", true),
   SetPendingIntent (tPersist clk) sessionID typ mergedArgs m).

Definition formatPR (p : gh.PR) : string :=
  "#" +:+ fmt_d (gh.Number p) +:+ " " +:+ gh.Title p +:+ " (" +:+ gh.Repository p +:+ ")".

Definition formatPRListReply (kind : gh.IntentKind) (prs : list gh.PR) : string :=
  if decide (length prs = 0%nat) then
    if decide (kind = gh.IntentListReview)
    then "You have no GitHub pull requests to review at the moment."
    else "You have no open pull requests on GitHub."
  else
    let max := if decide (length prs < 5)%nat then length prs else 5%nat in
    let b :=
      if decide (kind = gh.IntentListReview)
      then "You have " +:+ fmt_d (Z.of_nat (length prs))
           +:+ " GitHub pull request(s) to review. "
      else "You have " +:+ fmt_d (Z.of_nat (length prs)) +:+ " GitHub pull request(s). " in
    let b := b +:+ Join (map formatPR (take max prs)) "; " in
    if decide (max < length prs)%nat
    then b +:+ "; and " +:+ fmt_d (Z.of_nat (length prs - max)) +:+ " more."
    else b.

Section Handlers.

(** [strings.ToLower], with the case tables of package [unicode]. *)
Variable ToLower : string -> string.

Variable s : Server.

(** case "list_prs_mine", "list_prs_review" *)
Definition handleListPRs (clk : Clock) (sessionID targetType : string)
    (m : MemoryStore) : Reply * MemoryStore :=
  let token := getGitHubToken s sessionID in
  if decide (TrimSpace token = "") then
    (("Whoops! I need your GitHub connection to fetch your pull requests. Let's connect GitHub first.",
      intentOnly "require_github_auth", true), m)
  else
    match (if decide (targetType = "list_prs_mine")
           then gh.ListUserPRs (mcp s) token else gh.ListPRsForReview (mcp s) token) with
    | Err _ =>
        (("I couldn't fetch your pull requests from GitHub right now. This might be a temporary issue with GitHub's API. Try again in a moment?",
          intentOnly "error", true), m)
    | Ok prs =>
        let kind :=
          if decide (targetType = "list_prs_review")
          then gh.IntentListReview else gh.IntentListMine in
        (* Cache last PRs for auto-resolution by PR number *)
        let m :=
          if decide (0 < length prs)%nat
          then SetLastPRs (tPersist clk) sessionID
                 (map (fun p => mkPRRef (gh.Number p) (gh.Repository p)) prs) m
          else m in
        (* Clear any pending intent when listing *)
        let m := ClearPendingIntent sessionID m in
        let reply := formatPRListReply kind prs in
        let listKind := if decide (kind = gh.IntentListReview) then "review" else "mine" in
        ((reply,
          Some (types.mkIntentResponse "show_prs"
                  (<["prs" := types.PVPRs prs]>
                     (<["kind" := types.PVAny (AString listKind)]> ∅))),
          true), m)
    end.

(** Tail of case "get_pr_comments": targeted clarifications, then the
    provider call. *)
Definition commentsResolved (clk : Clock) (sessionID : string)
    (mergedArgs : gmap string any) (repo : string) (prNumber : Z)
    (m : MemoryStore) : Reply * MemoryStore :=
  let repo := TrimSpace repo in
  if decide (repo = "" ∧ prNumber <= 0) then
    clarifyAndPersist clk sessionID "get_pr_comments"
      "Which repository and PR number should I look at?" mergedArgs m
  else if decide (repo = "") then
    clarifyAndPersist clk sessionID "get_pr_comments"
      ("Which repo is PR " +:+ fmt_d prNumber +:+ " in?") mergedArgs m
  else if decide (prNumber <= 0) then
    clarifyAndPersist clk sessionID "get_pr_comments"
      ("Which PR number in " +:+ repo +:+ "?") mergedArgs m
  else
    let token := getGitHubToken s sessionID in
    if decide (TrimSpace token = "") then
      (("I need your GitHub connection to fetch PR comments. Let's connect GitHub first.",
        intentOnly "require_github_auth", true), m)
    else
      match gh.GetPRComments (mcp s) token repo prNumber with
      | Err _ =>
          (("I couldn't retrieve the PR comments from GitHub. This could be a temporary GitHub API issue or the PR might not exist. Mind trying again?",
            intentOnly "error", true), m)
      | Ok comments =>
          (* Update memory on success *)
          let m := ClearPendingIntent sessionID m in
          (("I found " +:+ fmt_d (Z.of_nat (length comments))
            +:+ " comment(s) on GitHub pull request " +:+ repo +:+ "#"
            +:+ fmt_d prNumber +:+ ".",
            Some (types.mkIntentResponse "show_comments"
                    (<["repo" := types.PVAny (AString repo)]>
                       (<["prNumber" := types.PVAny (AInt prNumber)]>
                          (<["comments" := types.PVComments comments]> ∅)))),
            true), m)
      end.

(** case "get_pr_comments" *)
Definition handleGetPRComments (clk : Clock) (sessionID : string)
    (mergedArgs : gmap string any) (m : MemoryStore) : Reply * MemoryStore :=
  let repo := assertString (mergedArgs !! "repo") in
  let prNumber := argPRNumber mergedArgs in
  let repo := expandRepo s sessionID repo m in
  let repo := TrimSpace repo in
  match autoResolve clk sessionID repo prNumber m with
  | (Ambiguous matches, m) =>
      (* Targeted clarification with options; store pending with known pr_number *)
      clarifyAndPersist clk sessionID "get_pr_comments" (didYouMean prNumber matches)
        (<["pr_number" := AInt prNumber]> mergedArgs) m
  | (Proceed repo, m) => commentsResolved clk sessionID mergedArgs repo prNumber m
  end.

(** Tail of case "merge_pr". *)
Definition mergeResolved (clk : Clock) (sessionID : string)
    (mergedArgs : gmap string any) (repo : string) (prNumber : Z) (method : string)
    (m : MemoryStore) : Reply * MemoryStore :=
  if decide (repo = "" ∧ prNumber <= 0) then
    clarifyAndPersist clk sessionID "merge_pr"
      "Which repo and PR should I merge?" mergedArgs m
  else if decide (repo = "") then
    clarifyAndPersist clk sessionID "merge_pr"
      ("Which repo is PR " +:+ fmt_d prNumber +:+ " in?") mergedArgs m
  else if decide (prNumber <= 0) then
    clarifyAndPersist clk sessionID "merge_pr"
      ("Which PR number in " +:+ repo +:+ "?") mergedArgs m
  else
    let token := getGitHubToken s sessionID in
    if decide (TrimSpace token = "") then
      (("I need your GitHub connection to merge pull requests. Let's connect GitHub first.",
        intentOnly "require_github_auth", true), m)
    else
      match gh.MergePR (mcp s) token repo prNumber method with
      | Some _ =>
          (("I couldn't merge the pull request on GitHub. This could be due to failing checks, merge conflicts, or insufficient permissions. Would you like me to check the PR status?",
            intentOnly "error", true), m)
      | None =>
          let m := ClearPendingIntent sessionID m in
          (("Successfully merged GitHub pull request " +:+ repo +:+ "#"
            +:+ fmt_d prNumber +:+ " using " +:+ method +:+ " method.",
            Some (types.mkIntentResponse "merged"
                    (<["repo" := types.PVAny (AString repo)]>
                       (<["prNumber" := types.PVAny (AInt prNumber)]>
                          (<["method" := types.PVAny (AString method)]> ∅)))),
            true), m)
      end.

(** The merge method of case "merge_pr": lower case, "merge" by
    default. *)
Definition mergeMethod (mergedArgs : gmap string any) : string :=
  let method := ToLower (TrimSpace (assertString (mergedArgs !! "merge_method"))) in
  if decide (method = "") then "merge" else method.

(** case "merge_pr" *)
Definition handleMergePR (clk : Clock) (sessionID : string)
    (mergedArgs : gmap string any) (m : MemoryStore) : Reply * MemoryStore :=
  let repo := assertString (mergedArgs !! "repo") in
  let prNumber := argPRNumber mergedArgs in
  let method := mergeMethod mergedArgs in
  let repo := expandRepo s sessionID repo m in
  match autoResolve clk sessionID repo prNumber m with
  | (Ambiguous matches, m) =>
      clarifyAndPersist clk sessionID "merge_pr" (didYouMean prNumber matches)
        (<["pr_number" := AInt prNumber]> mergedArgs) m
  | (Proceed repo, m) => mergeResolved clk sessionID mergedArgs repo prNumber method m
  end.

(** case "clarify" *)
Definition handleClarify (clk : Clock) (sessionID : string) (ci : gh.ClassifiedIntent)
    (mergedArgs : gmap string any) (m : MemoryStore) : Reply * MemoryStore :=
  let msg := TrimSpace (gh.Message ci) in
  let msg :=
    if decide (msg = "")
    then "Mind giving me a tiny bit more detail? I promise I listen better than your rubber duck."
    else msg in
  let repo := assertString (mergedArgs !! "repo") in
  let prNumber := argPRNumber mergedArgs in
  let reviewID :=
    match mergedArgs !! "review_id" with
    | Some (AFloat64 rid) => int_of_float64 rid
    | _ => 0
    end in
  let repo := TrimSpace repo in
  let payload : gmap string any := ∅ in
  let payload := if decide (repo ≠ "") then <["repo" := AString repo]> payload else payload in
  let payload :=
    if decide (prNumber > 0) then <["prNumber" := AInt prNumber]> payload else payload in
  let payload :=
    if decide (reviewID > 0) then <["reviewId" := AInt reviewID]> payload else payload in
  (* Keep pending intent if any exists so follow-up can merge *)
  let m :=
    match GetPendingIntent (tResolve clk) sessionID m with
    | (Some (pType, pArgs), m1) =>
        if decide (pType ≠ "") then
          SetPendingIntent (tPersist clk) sessionID pType
            (map_fold (fun k v acc => <[k := v]> acc) pArgs payload) m1
        else m1
    | (None, m1) => m1
    end in
  ((msg, Some (types.mkIntentResponse "clarify" (types.PVAny <$> payload)), true), m).

(** case "not_implemented", "unknown" *)
Definition handleNotImplemented (sessionID : string) (ci : gh.ClassifiedIntent)
    (m : MemoryStore) : Reply * MemoryStore :=
  let msg := TrimSpace (gh.Message ci) in
  let msg :=
    if decide (msg = "")
    then "I haven't learned that trick yet — but I'm practicing!"
    else msg in
  (* Do not carry stale pending intents across unknowns *)
  ((msg, intentOnly "not_implemented", true), ClearPendingIntent sessionID m).

(** The [switch targetType] of [handleWithArgs]. *)
Definition route (clk : Clock) (sessionID : string) (ci : gh.ClassifiedIntent)
    (targetType : string) (mergedArgs : gmap string any)
    (m : MemoryStore) : Reply * MemoryStore :=
  if decide (targetType = "list_prs_mine" ∨ targetType = "list_prs_review") then
    handleListPRs clk sessionID targetType m
  else if decide (targetType = "get_pr_comments") then
    handleGetPRComments clk sessionID mergedArgs m
  else if decide (targetType = "merge_pr") then
    handleMergePR clk sessionID mergedArgs m
  else if decide (targetType = "clarify") then
    handleClarify clk sessionID ci mergedArgs m
  else if decide (targetType = "not_implemented" ∨ targetType = "unknown") then
    handleNotImplemented sessionID ci m
  else (("", None, false), m).

(** [handleWithArgs] routes a classified intent, applying autofill
    and pending storage rules. *)
Definition handleWithArgs (clk : Clock) (sessionID : string) (ci : gh.ClassifiedIntent)
    (m : MemoryStore) : Reply * MemoryStore :=
  (* Merge with any pending intent to support slot-filling across turns *)
  let '(pending, m) := GetPendingIntent (tMerge clk) sessionID m in
  let '(targetType, mergedArgs) := mergePending ci pending in
  route clk sessionID ci targetType mergedArgs m.

(** [classifyAndHandle]: the classifier sees the whole stored
    history; its verdict is handled once. *)
Definition classifyAndHandle (clk : Clock) (sessionID message : string)
    (m : MemoryStore) : Reply * MemoryStore :=
  match intent s with
  | None => (("", None, false), m)
  | Some classifier =>
      let chat := convertMessages (Get sessionID m) in
      match gh.ClassifyChat classifier chat with
      | Ok (Some ci) => handleWithArgs clk sessionID ci m
      | _ => (("", None, false), m)
      end
  end.

(** [handleChat], for a decoded body ([None]: the JSON was invalid)
    and the session id that [getOrCreateSessionID] returned. *)
Definition handleChat (clk : Clock) (body : option types.ChatRequest) (sid : string)
    (m : MemoryStore) : HTTPResponse * MemoryStore :=
  match body with
  | None => (WriteError 400 "invalid JSON body", m)
  | Some req =>
      if decide (TrimSpace (types.Message req) = "") then
        (WriteError 400 "message is required", m)
      else
        let m :=
          if decide (types.System req ≠ "")
          then Append sid (mkMessage "system" (types.System req)) m else m in
        let m := Append sid (mkMessage "user" (types.Message req)) m in
        (* Check if GitHub account is connected for this session *)
        let token := getGitHubToken s sid in
        if decide (TrimSpace token = "") then
          (WriteJSON
             (types.mkChatResponse sid
                "Please connect your GitHub account to use this application. This service helps you manage GitHub pull requests - fetching, listing, merging, and viewing PR comments."
                "" (intentOnly "require_github_auth")), m)
        else
          match classifyAndHandle clk sid (types.Message req) m with
          | ((reply, intent, false), m) =>
              (WriteError 500
                 "I'm having trouble understanding your request right now. Please try again.",
               m)
          | ((reply, intent, true), m) =>
              (WriteJSON (types.mkChatResponse sid reply "" intent),
               Append sid (mkMessage "assistant" reply) m)
          end
  end.

(** [handleGitHubCallback], for the [state] and [code] query
    parameters. *)
Definition handleGitHubCallback (state code : string) (m : MemoryStore)
    : HTTPResponse * MemoryStore :=
  match oauthCfg s with
  | None => (WriteError 400 "github oauth not configured", m)
  | Some oCfg =>
      if decide (state = "" ∨ code = "") then (WriteError 400 "missing state or code", m)
      else
        let sid := GetSessionByOAuthState state m in
        if decide (sid = "" ∨ GetOAuthState sid m ≠ state) then
          (WriteError 400 "invalid oauth state", m)
        else
          match Exchange oCfg code with
          | Err _ => (WriteError 502 "token exchange failed", m)
          | Ok tok =>
              let username := fetchGitHubUsername s (TAccessToken tok) in
              if decide (username = "") then
                (WriteError 500 "failed to fetch GitHub username", m)
              else
                let saved :=
                  match databaseStore s with
                  | Some ds =>
                      match SaveGitHubAuth ds sid (TAccessToken tok) username with
                      | Some _ => Some "failed to save GitHub auth to database"
                      | None => None
                      end
                  | None =>
                      match Write (tokenStore s)
                              (mkGitHubToken (TAccessToken tok) (TTokenType tok)) with
                      | Some _ => Some "token persist failed"
                      | None => None
                      end
                  end in
                match saved with
                | Some msg => (WriteError 500 msg, m)
                | None =>
                    (* Store username in memory store for quick access *)
                    let m := SetUsername sid username m in
                    let m := ClearOAuthState sid m in
                    (Redirect (config.FrontendURL (cfg s) +:+ "?githubAuth=success") sid, m)
                end
          end
  end.

End Handlers.

End server.

(** ** Vocabulary of the properties *)

Module spec.

Import store server.

(** The last [n] elements of a list. *)
Definition lastN {A} (n : nat) (l : list A) : list A := drop (length l - n) l.

(** A run of [Append] calls, for any sessions, in order. *)
Definition appendAll (ops : list (string * Message)) (m : MemoryStore) : MemoryStore :=
  foldl (fun m op => Append op.1 op.2 m) m ops.

(** The messages that a run of calls appends to one session. *)
Definition messagesOf (sessionID : string) (ops : list (string * Message)) : list Message :=
  (filter (fun op => op.1 = sessionID) ops).*2.

(** The scan of [trimRunes] has come to a stop at the head of a list. *)
Inductive stuck (p1 : ascii -> bool) (p2 : ascii -> ascii -> bool)
    (p3 : ascii -> ascii -> ascii -> bool) : list ascii -> Prop :=
| stuck_nil : stuck p1 p2 p3 []
| stuck_1 a : p1 a = false -> stuck p1 p2 p3 [a]
| stuck_2 a b : p1 a = false -> p2 a b = false -> stuck p1 p2 p3 [a; b]
| stuck_3 a b c l :
    p1 a = false -> p2 a b = false -> p3 a b c = false ->
    stuck p1 p2 p3 (a :: b :: c :: l).

(** Every pending intent of the store has a type; the engine only
    ever writes such entries. *)
Definition pendingTyped (m : MemoryStore) : Prop :=
  forall sid p, pendingBySession m !! sid = Some p -> PType p <> "".

(** The repositories of the cached pull requests that carry a number. *)
Definition candidates (refs : list PRRef) (prNumber : Z) : list string :=
  Repository <$> filter (fun r => Number r = prNumber) refs.

End spec.

(** ** A small deployment, for concrete runs *)

Module example.

Import store server.

(** [strings.ToLower] on ASCII text. *)
Definition lowerByte (c : ascii) : ascii :=
  let n := N_of_ascii c in
  if ((65 <=? n) && (n <=? 90))%N then ascii_of_N (n + 32) else c.

Fixpoint asciiToLower (s : string) : string :=
  match s with
  | EmptyString => EmptyString
  | String c s' => String (lowerByte c) (asciiToLower s')
  end.

(** A provider with no pull requests and no comments, on which every
    merge succeeds; and one on which every call fails. *)
Definition quiet : gh.MCPClient :=
  gh.mkMCPClient (fun _ => Ok []) (fun _ => Ok [])
    (fun _ _ _ => Ok []) (fun _ _ _ _ => None).

Definition failing : gh.MCPClient :=
  gh.mkMCPClient (fun _ => Err "502") (fun _ => Err "502")
    (fun _ _ _ => Err "502") (fun _ _ _ _ => Some "502").

Definition serverWith (token : string) (provider : gh.MCPClient) : Server :=
  mkServer (config.mkConfig token "" "https://app")
    (Some (mkOAuthConfig "id" "secret" (fun _ => Ok (mkToken "gho_1" "bearer"))))
    (mkFileTokenStore FileNotExist (fun _ => None)) None provider None
    (fun _ => "octo").

Definition clk : Clock := mkClock 1 2 3.

Definition cache : list PRRef := [mkPRRef 7 "A/x"; mkPRRef 7 "B/y"; mkPRRef 9 "A/x"].

(** A session that has just listed its pull requests. *)
Definition listed : MemoryStore := SetLastPRs 0 "s" cache (NewMemoryStore 40).

(** A session that was asked which repo PR 123 is in. *)
Definition asked : MemoryStore :=
  SetPendingIntent 0 "s" "get_pr_comments"
    (<["pr_number" := AFloat64 (inject_Z 123)]> ∅) (NewMemoryStore 40).

Definition verdict (typ : string) (args : gmap string any) : gh.ClassifiedIntent :=
  gh.mkClassifiedIntent typ args 1 "".


End example.

(** ** Further vocabulary *)

Module specx.

Import store server.

(** A write of a session's history. *)
Inductive histOp : Type :=
| OpAppend (sessionID : string) (msg : Message)
| OpSet (sessionID : string) (msgs : list Message).

Definition runHist (ops : list histOp) (m : MemoryStore) : MemoryStore :=
  foldl (fun m op => match op with
                     | OpAppend sid msg => Append sid msg m
                     | OpSet sid msgs => Set_ sid msgs m
                     end) m ops.

(** Two stores agree on everything that is keyed by a session other
    than [sid], and on the bound. *)
Definition sameOthers (sid : string) (m m' : MemoryStore) : Prop :=
  maxMessages m' = maxMessages m
  /\ forall sid', sid' <> sid ->
       sessions m' !! sid' = sessions m !! sid'
       /\ usernameBySession m' !! sid' = usernameBySession m !! sid'
       /\ oauthStateBySession m' !! sid' = oauthStateBySession m !! sid'
       /\ lastPRsBySession m' !! sid' = lastPRsBySession m !! sid'
       /\ pendingBySession m' !! sid' = pendingBySession m !! sid'.

(** What a session reads from the store at time [t]: its history,
    username, handshake token, pending intent and cache. *)
Definition reads (sid : string) (t : Z) (m : MemoryStore) :=
  (Get sid m, GetUsername sid m, GetOAuthState sid m,
   (GetPendingIntent t sid m).1, (GetLastPRs t sid m).1).

(** Every pending intent of the store is of one of the two types that
    take a repo and a number. *)
Definition pendingKnown (m : MemoryStore) : Prop :=
  forall sid p, pendingBySession m !! sid = Some p ->
                PType p = "get_pr_comments" \/ PType p = "merge_pr".

(** The structured types of a completed action. *)
Definition done_type (ty : string) : Prop :=
  ty = "show_prs" \/ ty = "show_comments" \/ ty = "merged".

(** One chat request: the server as it is configured at that moment,
    the clock readings, the decoded body and the session id. *)
Record turn : Type := mkTurn {
  turnServer : Server;
  turnClock : Clock;
  turnBody : option types.ChatRequest;
  turnSession : string
}.

(** A run of chat requests, in order. *)
Definition runTurns (ToLower : string -> string) (turns : list turn) (m : MemoryStore)
    : MemoryStore :=
  foldl (fun m t =>
           (handleChat ToLower (turnServer t) (turnClock t) (turnBody t)
              (turnSession t) m).2) m turns.

End specx.

(** ** Package [server]: the handshake and the REST endpoints *)

Module serverx.

Import store server.

Inductive AuthResponse : Type :=
| AuthError (code : Z) (msg : string)
| AuthStarted (state : string) (sessionId : string).

(** [handleGitHubAuth], for the session id that [getOrCreateSessionID]
    returned and the value of [randomState()]; the answer carries
    [AuthCodeURL(state)] and the session id. *)
Definition handleGitHubAuth (s : Server) (sid state : string) (m : MemoryStore)
    : AuthResponse * MemoryStore :=
  match oauthCfg s with
  | None => (AuthError 400 "github oauth not configured", m)
  | Some oCfg =>
      if decide (ClientID oCfg = "" \/ ClientSecret oCfg = "")
      then (AuthError 400 "github oauth not configured", m)
      else (AuthStarted state sid, SetOAuthState sid state m)
  end.

(** What [SaveGitHubAuth] or, without a database, [tokenStore.Write]
    returns in [handleGitHubCallback]. *)
Definition persistToken (s : Server) (sid : string) (tok : Token) (username : string)
    : option error :=
  match databaseStore s with
  | Some ds => SaveGitHubAuth ds sid (TAccessToken tok) username
  | None => Write (tokenStore s) (mkGitHubToken (TAccessToken tok) (TTokenType tok))
  end.

(** The token of the session's row in the database, of the token file,
    and of the configuration; the empty string when there is none. *)
Definition databaseToken (s : Server) (sid : string) : string :=
  match databaseStore s with
  | Some ds =>
      match GetGitHubAuth ds sid with
      | Ok (Some auth) => AuthGitHubToken auth
      | _ => ""
      end
  | None => ""
  end.

Definition fileToken (s : Server) : string :=
  match Read (tokenStore s) with
  | Ok (Some token) => AccessToken token
  | _ => ""
  end.

End serverx.

(** ** Go runtime: [strings.Index], [strings.Split], [strconv.Atoi] *)

Module gostr.

(** [strings.Index]: the index of the first instance of [substr], or -1. *)
Fixpoint Index (s substr : string) : Z :=
  if strings.HasPrefix s substr then 0 else
  match s with
  | EmptyString => -1
  | String _ s' => let i := Index s' substr in if decide (i = -1) then -1 else i + 1
  end.

(** The number of bytes of [s] that are [c]. *)
Fixpoint occurrences (c : ascii) (s : string) : nat :=
  match s with
  | EmptyString => O
  | String a s' => (if decide (a = c) then 1 else 0) + occurrences c s'
  end.

(** [s[n:]] *)
Fixpoint SliceFrom (n : nat) (s : string) : string :=
  match n, s with
  | O, _ => s
  | S n', String _ s' => SliceFrom n' s'
  | S _, EmptyString => EmptyString
  end.

(** [strings.Split(s, sep)] for a separator of one byte, which is how
    this code calls it (["/"] and [","]): the pieces between the
    instances of the separator, at least one piece. *)
Fixpoint Split (s : string) (sep : ascii) : list string :=
  match s with
  | EmptyString => [EmptyString]
  | String c s' =>
      if decide (c = sep) then EmptyString :: Split s' sep else
      match Split s' sep with
      | p :: ps => String c p :: ps
      | [] => [String c EmptyString]
      end
  end.

End gostr.

Module strconv.

Import store.

Definition digit (c : ascii) : option Z :=
  let n := N_of_ascii c in
  if ((48 <=? n) && (n <=? 57))%N then Some (Z.of_N n - 48) else None.

(** The digit loop of [ParseUint(s, 10, 64)]: a byte that is no digit is
    a syntax error, a value past [2^64 - 1] a range error, whichever
    comes first. *)
Fixpoint parseUint (acc : Z) (s : string) : result Z :=
  match s with
  | EmptyString => Ok acc
  | String c s' =>
      match digit c with
      | None => Err "invalid syntax"
      | Some d =>
          if decide (10 * acc + d > 2 ^ 64 - 1) then Err "value out of range"
          else parseUint (10 * acc + d) s'
      end
  end.

(** [strconv.Atoi] on a 64-bit platform; the error is the [Err] field of
    the [*NumError]. *)
Definition Atoi (s : string) : result Z :=
  let '(neg, body) :=
    match s with
    | String c r =>
        if decide (c = "-"%char) then (true, r)
        else if decide (c = "+"%char) then (false, r) else (false, s)
    | EmptyString => (false, s)
    end in
  if decide (body = "") then Err "invalid syntax" else
  match parseUint 0 body with
  | Err e => Err e
  | Ok un =>
      if decide (neg = false /\ un >= 2 ^ 63) then Err "value out of range"
      else if decide (neg = true /\ un > 2 ^ 63) then Err "value out of range"
      else Ok (if neg then - un else un)
  end.

End strconv.

(** ** The REST endpoints of package [server] *)

Module rest.

Import store server.

(** The prelude of every REST handler: the configured token and, when
    that is blank, the token of the file. *)
Definition restToken (s : Server) : string :=
  let token := config.GitHubToken (cfg s) in
  if decide (TrimSpace token = "") then
    match Read (tokenStore s) with
    | Ok (Some t) => AccessToken t
    | _ => token
    end
  else token.

Inductive Response : Type :=
| Error (code : Z) (msg : string)
| JSONPRs (prs : list gh.PR)
| JSONComments (comments : list gh.Comment)
| JSONMerged.

(** GET /api/github/prs/review *)
Definition handlePRsForReview (s : Server) : Response :=
  let token := restToken s in
  if decide (TrimSpace token = "") then Error 401 "not authenticated with GitHub" else
  match gh.ListPRsForReview (mcp s) token with
  | Err _ => Error 502 "failed to list PRs for review"
  | Ok prs => JSONPRs prs
  end.

(** GET /api/github/prs/mine *)
Definition handlePRsMine (s : Server) : Response :=
  let token := restToken s in
  if decide (TrimSpace token = "") then Error 401 "not authenticated with GitHub" else
  match gh.ListUserPRs (mcp s) token with
  | Err _ => Error 502 "failed to list user PRs"
  | Ok prs => JSONPRs prs
  end.

(** The URL parameters [owner], [repo] and [number] of a PR endpoint:
    the repo and the number, unless the handler answers 400. *)
Definition prParams (owner repoName numStr : string) : option (string * Z) :=
  match strconv.Atoi numStr with
  | Err _ => None
  | Ok prNumber =>
      if decide (owner = "" \/ repoName = "" \/ prNumber <= 0) then None
      else Some (owner +:+ "/" +:+ repoName, prNumber)
  end.

(** GET /api/github/repos/{owner}/{repo}/prs/{number}/comments *)
Definition handlePRComments (s : Server) (owner repoName numStr : string) : Response :=
  let token := restToken s in
  if decide (TrimSpace token = "") then Error 401 "not authenticated with GitHub" else
  match prParams owner repoName numStr with
  | None => Error 400 "invalid repo or PR number"
  | Some (repo, prNumber) =>
      match gh.GetPRComments (mcp s) token repo prNumber with
      | Err _ => Error 502 "failed to fetch PR comments"
      | Ok comments => JSONComments comments
      end
  end.

(** POST /api/github/repos/{owner}/{repo}/prs/{number}/merge, for the
    [method] field of the body (empty when the body does not decode). *)
Definition handleMergePR (ToLower : string -> string) (s : Server)
    (owner repoName numStr method : string) : Response :=
  let token := restToken s in
  if decide (TrimSpace token = "") then Error 401 "not authenticated with GitHub" else
  match prParams owner repoName numStr with
  | None => Error 400 "invalid repo or PR number"
  | Some (repo, prNumber) =>
      match gh.MergePR (mcp s) token repo prNumber (ToLower (TrimSpace method)) with
      | Some _ => Error 502 "merge failed"
      | None => JSONMerged
      end
  end.

(** GET /api/github/status: [authenticated] and [username] (empty when
    the answer has none). *)
Definition handleGitHubStatus (s : Server) (sid : string) (m : MemoryStore)
    : bool * string :=
  let fallback :=
    (* Fallback to file storage *)
    let tok := match Read (tokenStore s) with Ok (Some t) => true | _ => false end in
    (bool_decide (config.GitHubToken (cfg s) <> "") || tok,
     if decide (sid <> "") then GetUsername sid m else "") in
  match databaseStore s with
  | Some ds =>
      if decide (sid <> "") then
        match GetGitHubAuth ds sid with
        | Ok (Some auth) => (true, AuthGitHubOwner auth)
        | _ => (false, "")
        end
      else fallback
  | None => fallback
  end.

End rest.

(** ** Package [github]: the REST client and the keyword detector *)

Module ghclient.

Import store.

Record Comment := mkComment {
  Author : string; Body : string; Timestamp : string;
  Type_ : string; Path : string; Line : Z
}.

Record reviewComment := mkReviewComment {
  rcLogin : string; rcBody : string; rcPath : string; rcLine : Z
}.

Record issueComment := mkIssueComment {
  icLogin : string; icBody : string; icCreatedAt : string
}.

Record searchItem := mkSearchItem {
  itNumber : Z; itTitle : string; itHTMLURL : string; itLogin : string
}.

Record prFile := mkPrFile {
  pfFilename : string; pfAdditions : Z; pfDeletions : Z; pfPatch : string
}.

Record DiffFile := mkDiffFile {
  Filename : string; Additions : Z; Deletions : Z; Patch : string
}.

Record Diff := mkDiff {
  FilesChanged : Z; DiffAdditions : Z; DiffDeletions : Z; Files : list DiffFile
}.

Record prDetails := mkPrDetails {
  Mergeable : option bool; HeadSHA : string
}.

Record review := mkReview { rvState : string; rvLogin : string }.

Record commitStatus := mkCommitStatus {
  (** state and context of each status *)
  Statuses : list (string * string)
}.

Record Status := mkStatus {
  ChecksPassing : Z; ChecksTotal : Z; Approvals : list string;
  StatusMergeable : bool; HasConflicts : bool; FailingCheckIDs : list string
}.

(** The sums of the additions and of the deletions of the files of a
    pull request. *)
Definition additions (files : list prFile) : Z := foldr (fun f n => pfAdditions f + n) 0 files.
Definition deletions (files : list prFile) : Z := foldr (fun f n => pfDeletions f + n) 0 files.

(** The HTTP layer under the client: what [getJSON] returns for a
    token and a path, for each type it decodes into (for the search,
    for the query, which [url.Values] encodes into the path); and the
    status code and body of the merge request. *)
Record transport := mkTransport {
  getSearch : string -> string -> result (list searchItem);
  getReviewComments : string -> string -> result (list reviewComment);
  getIssueComments : string -> string -> result (list issueComment);
  getPrDetails : string -> string -> result prDetails;
  getReviews : string -> string -> result (list review);
  getCommitStatus : string -> string -> result commitStatus;
  getFiles : string -> string -> result (list prFile);
  putMerge : string -> string -> string -> result (Z * string)
}.

Definition repoFromHTMLURL (u : string) : string :=
  (* Example: https://github.com/owner/repo/pull/123 *)
  let i := gostr.Index u "github.com/" in
  if decide (i = -1) then "" else
  let rest := gostr.SliceFrom (Z.to_nat i + String.length "github.com/") u in
  match gostr.Split rest "/" with
  | owner :: name :: _ :: _ => owner +:+ "/" +:+ name
  | _ => ""
  end.

Definition searchPRs (c : transport) (token q : string) : result (list gh.PR) :=
  match getSearch c token q with
  | Err e => Err e
  | Ok items =>
      Ok (map (fun it => gh.mkPR (itNumber it) (itTitle it) (itLogin it) "open"
                           (itHTMLURL it) (repoFromHTMLURL (itHTMLURL it))) items)
  end.

Definition ListPRsForReview (c : transport) (token : string) : result (list gh.PR) :=
  searchPRs c token "type:pr state:open review-requested:@me".

Definition ListUserPRs (c : transport) (token : string) : result (list gh.PR) :=
  searchPRs c token "type:pr state:open author:@me".

Definition repoPath (owner name : string) : string :=
  "/repos/" +:+ owner +:+ "/" +:+ name.

Definition GetPRComments (c : transport) (token repo : string) (prNumber : Z)
    : result (list Comment) :=
  match gostr.Split repo "/" with
  | [owner; name] =>
      (* Review comments (inline) *)
      match getReviewComments c token
              (repoPath owner name +:+ "/pulls/" +:+ fmt_d prNumber +:+ "/comments") with
      | Err e => Err e
      | Ok review =>
          (* Issue comments (general) *)
          match getIssueComments c token
                  (repoPath owner name +:+ "/issues/" +:+ fmt_d prNumber +:+ "/comments") with
          | Err e => Err e
          | Ok issue =>
              Ok (map (fun rc => mkComment (rcLogin rc) (rcBody rc) "" "inline"
                                   (rcPath rc) (rcLine rc)) review
                  ++ map (fun ic => mkComment (icLogin ic) (icBody ic) (icCreatedAt ic)
                                      "general" "" 0) issue)
          end
      end
  | _ => Err ("invalid repo: " +:+ repo)
  end.

(** The double quote of the JSON body. *)
Definition dq : string := String (ascii_of_N 34) EmptyString.

Definition MergePR (c : transport) (token repo : string) (prNumber : Z) (method : string)
    : option error :=
  let method := if decide (method = "") then "merge" else method in
  match gostr.Split repo "/" with
  | [owner; name] =>
      let body := "{" +:+ dq +:+ "merge_method" +:+ dq +:+ ":" +:+ dq +:+ method
                  +:+ dq +:+ "}" in
      match putMerge c token
              (repoPath owner name +:+ "/pulls/" +:+ fmt_d prNumber +:+ "/merge") body with
      | Err e => Some e
      | Ok (code, b) =>
          if decide (code < 200 \/ code >= 300)
          then Some ("merge failed: " +:+ strings.TrimSpace b)
          else None
      end
  | _ => Some ("invalid repo: " +:+ repo)
  end.

Section Status.

(** [strings.EqualFold], with the case folding of package [unicode]. *)
Variable EqualFold : string -> string -> bool.

Definition GetPRStatus (c : transport) (token repo : string) (prNumber : Z)
    : result Status :=
  match gostr.Split repo "/" with
  | [owner; name] =>
      match getPrDetails c token
              (repoPath owner name +:+ "/pulls/" +:+ fmt_d prNumber) with
      | Err e => Err e
      | Ok pr =>
          (* Reviews (accumulate approvals) *)
          match getReviews c token
                  (repoPath owner name +:+ "/pulls/" +:+ fmt_d prNumber +:+ "/reviews") with
          | Err e => Err e
          | Ok revs =>
              let approvals :=
                foldl (fun approvals r =>
                         if EqualFold (rvState r) "APPROVED"
                         then approvals ++ [rvLogin r] else approvals) [] revs in
              (* Status checks for head sha *)
              let '(checksPassing, checksTotal) :=
                if decide (HeadSHA pr <> "") then
                  match getCommitStatus c token
                          (repoPath owner name +:+ "/commits/" +:+ HeadSHA pr
                           +:+ "/status") with
                  | Ok cs =>
                      (foldl (fun passing st =>
                                if EqualFold st.1 "success" then passing + 1 else passing)
                             0 (Statuses cs),
                       Z.of_nat (length (Statuses cs)))
                  | Err _ => (0, 0)
                  end
                else (0, 0) in
              Ok (mkStatus checksPassing checksTotal approvals
                    (match Mergeable pr with Some b => b | None => false end) false [])
          end
      end
  | _ => Err ("invalid repo: " +:+ repo)
  end.

End Status.

(** [+] on [int], 64 bits wide: the sum wraps around. *)
Definition add_int (a b : Z) : Z := (a + b + 2 ^ 63) mod 2 ^ 64 - 2 ^ 63.

Definition GetPRDiff (c : transport) (token repo : string) (prNumber : Z) : result Diff :=
  match gostr.Split repo "/" with
  | [owner; name] =>
      match getFiles c token
              (repoPath owner name +:+ "/pulls/" +:+ fmt_d prNumber
               +:+ "/files?per_page=100") with
      | Err e => Err e
      | Ok files =>
          let diff :=
            foldl (fun diff f =>
                     let df := mkDiffFile (pfFilename f) (pfAdditions f) (pfDeletions f)
                                 (pfPatch f) in
                     mkDiff (FilesChanged diff) (add_int (DiffAdditions diff) (Additions df))
                       (add_int (DiffDeletions diff) (Deletions df)) (Files diff ++ [df]))
                  (mkDiff 0 0 0 []) files in
          Ok (mkDiff (Z.of_nat (length (Files diff))) (DiffAdditions diff)
                (DiffDeletions diff) (Files diff))
      end
  | _ => Err ("invalid repo: " +:+ repo)
  end.

Record Intent := mkIntent { Kind : gh.IntentKind }.

Fixpoint containsAny (s : string) (needles : list string) : bool :=
  match needles with
  | [] => false
  | n :: needles' => if strings.Contains s n then true else containsAny s needles'
  end.

Definition mineNeedles : list string :=
  ["my prs"; "my pr"; "my pull requests"; "list my prs"; "list my pull requests";
   "show my prs"; "show my pull requests"; "what am i working on"; "i'm working on";
   "i am working on"; "my open prs"; "my open pull requests"].

Definition reviewNeedles : list string :=
  ["prs to review"; "pull requests to review"; "need to review"; "requested to review";
   "what do i need to review"; "review requests"; "assigned for review";
   "requested reviewer"; "show reviews"; "list reviews"].

(** The phrases among [mineNeedles] of which every other one has one
    as a substring. *)
Definition mineCore : list string :=
  ["my pr"; "my pull requests"; "what am i working on"; "i'm working on";
   "i am working on"; "my open prs"; "my open pull requests"].

Section Detect.

(** [strings.ToLower]. *)
Variable ToLower : string -> string.

(** [DetectIntent] performs simple heuristics for PR listing intents. *)
Definition DetectIntent (message : string) : Intent :=
  let m := ToLower (strings.TrimSpace message) in
  if decide (m = "") then mkIntent gh.IntentUnknown
  else if containsAny m mineNeedles then mkIntent gh.IntentListMine
  else if containsAny m reviewNeedles
          || (strings.Contains m "review" && strings.Contains m "pr")
  then mkIntent gh.IntentListReview
  else mkIntent gh.IntentUnknown.

End Detect.

End ghclient.

(** ** Package [config] *)

Module configenv.

(** The environment: [os.Getenv] of a variable that is not set is the
    empty string. *)
Definition Getenv (env : gmap string string) (key : string) : string :=
  default "" (env !! key).

Definition getEnvDefault (env : gmap string string) (key def : string) : string :=
  if decide (Getenv env key <> "") then Getenv env key else def.

Definition getEnvListDefault (env : gmap string string) (key : string)
    (def : list string) : list string :=
  let v := Getenv env key in
  if decide (v <> "") then
    let out :=
      foldl (fun out p =>
               let s := strings.TrimSpace p in
               if decide (s <> "") then out ++ [s] else out)
            [] (gostr.Split v ","%char) in
    if decide (0 < length out)%nat then out else def
  else def.

Section Bool.

Variable ToLower : string -> string.

Definition getEnvBoolDefault (env : gmap string string) (key : string) (def : bool)
    : bool :=
  let v := Getenv env key in
  if decide (v <> "") then
    let w := ToLower (strings.TrimSpace v) in
    if decide (In w ["1"; "true"; "yes"; "y"; "on"]) then true
    else if decide (In w ["0"; "false"; "no"; "n"; "off"]) then false
    else def
  else def.

End Bool.

End configenv.

(** ** Further sample data *)

Module examplex.

Import store ghclient.

(** A GitHub that answers every request with the same small data. *)
Definition web : transport :=
  mkTransport
    (fun _ _ => Ok [mkSearchItem 7 "Fix" "https://github.com/acme/widgets/pull/7" "octo"])
    (fun _ _ => Ok [mkReviewComment "ann" "nit" "main.go" 3])
    (fun _ _ => Ok [mkIssueComment "bob" "lgtm" "2024-05-01T10:00:00Z"])
    (fun _ _ => Ok (mkPrDetails (Some true) "abc"))
    (fun _ _ => Ok [mkReview "approved" "ann"; mkReview "COMMENTED" "bob"])
    (fun _ _ => Ok (mkCommitStatus [("success", "ci"); ("failure", "lint")]))
    (fun _ _ => Ok [mkPrFile "a.go" 3 1 "@@"; mkPrFile "b.go" 2 0 "@@"])
    (fun _ _ _ => Ok (200, "")).

(** The same GitHub when the commit status cannot be fetched. *)
Definition webNoChecks : transport :=
  mkTransport (getSearch web) (getReviewComments web) (getIssueComments web)
    (getPrDetails web) (getReviews web) (fun _ _ => Err "github api failed")
    (getFiles web) (putMerge web).

(** Equality under ASCII case folding. *)
Definition equalFold (a b : string) : bool :=
  bool_decide (example.asciiToLower a = example.asciiToLower b).

End examplex.

(** * Properties *)

Import store server spec.

(** ** White-space trimming *)

Section TrimRunes.

Variable p1 : ascii -> bool.
Variable p2 : ascii -> ascii -> bool.
Variable p3 : ascii -> ascii -> ascii -> bool.

Local Abbreviation trim := (strings.trimRunes p1 p2 p3).

Local Abbreviation stuck := (spec.stuck p1 p2 p3).

Lemma trim_stuck l : stuck l -> trim l = l.
Proof. destruct 1; simpl; rewrite ?H, ?H0, ?H1; reflexivity. Qed.

(** Case analysis following the recursion of [trimRunes]. *)
Lemma trimRunes_elim (P : list ascii -> Prop) :
  (forall l, stuck l -> P l) ->
  (forall a l, p1 a = true -> P l -> P (a :: l)) ->
  (forall a b l, p1 a = false -> p2 a b = true -> P l -> P (a :: b :: l)) ->
  (forall a b c l,
      p1 a = false -> p2 a b = false -> p3 a b c = true -> P l -> P (a :: b :: c :: l)) ->
  forall l, P l.
Proof.
  intros Hs H1 H2 H3 l.
  remember (length l) as n eqn:Hn.
  revert l Hn. induction n as [n IH] using lt_wf_ind. intros l Hn.
  destruct l as [|a [|b [|c l]]].
  - apply Hs. constructor.
  - destruct (p1 a) eqn:E1.
    + apply H1; [done|]. apply Hs. constructor.
    + apply Hs. by constructor.
  - destruct (p1 a) eqn:E1.
    + apply H1; [done|]. eapply IH; [|reflexivity]. simpl in *. lia.
    + destruct (p2 a b) eqn:E2.
      * apply H2; [done..|]. apply Hs. constructor.
      * apply Hs. by constructor.
  - destruct (p1 a) eqn:E1.
    + apply H1; [done|]. eapply IH; [|reflexivity]. simpl in *. lia.
    + destruct (p2 a b) eqn:E2.
      * apply H2; [done..|]. eapply IH; [|reflexivity]. simpl in *. lia.
      * destruct (p3 a b c) eqn:E3.
        -- apply H3; [done..|]. eapply IH; [|reflexivity]. simpl in *. lia.
        -- apply Hs. by constructor.
Qed.

Lemma trim_suffix l : trim l `suffix_of` l.
Proof.
  induction l as [l Hl|a l E1 IH|a b l E1 E2 IH|a b c l E1 E2 E3 IH] using trimRunes_elim.
  - by rewrite trim_stuck.
  - simpl. rewrite E1. by apply suffix_cons_r.
  - simpl. rewrite E1, E2. by do 2 apply suffix_cons_r.
  - simpl. rewrite E1, E2, E3. by do 3 apply suffix_cons_r.
Qed.

Lemma trim_is_stuck l : stuck (trim l).
Proof.
  induction l as [l Hl|a l E1 IH|a b l E1 E2 IH|a b c l E1 E2 E3 IH] using trimRunes_elim.
  - by rewrite trim_stuck.
  - simpl. by rewrite E1.
  - simpl. by rewrite E1, E2.
  - simpl. by rewrite E1, E2, E3.
Qed.

Lemma trim_idemp l : trim (trim l) = trim l.
Proof. apply trim_stuck, trim_is_stuck. Qed.

Lemma stuck_prefix u v : stuck u -> v `prefix_of` u -> stuck v.
Proof.
  intros Hu [w ->].
  destruct v as [|a [|b [|c v]]]; simpl in *.
  - constructor.
  - inversion Hu; subst; by constructor.
  - inversion Hu; subst; by constructor.
  - inversion Hu; subst; by constructor.
Qed.

(** The scan keeps every byte that occurs in no white-space rune. *)
Lemma trim_keeps (x : ascii) l :
  p1 x = false ->
  (forall a b, p2 a b = true -> a <> x /\ b <> x) ->
  (forall a b c, p3 a b c = true -> a <> x /\ b <> x /\ c <> x) ->
  x ∈ l -> x ∈ trim l.
Proof.
  intros Hx1 Hx2 Hx3.
  induction l as [l Hl|a l E1 IH|a b l E1 E2 IH|a b c l E1 E2 E3 IH] using trimRunes_elim.
  - by rewrite trim_stuck.
  - simpl. rewrite E1. intros [->|Hin]%elem_of_cons; [congruence|auto].
  - simpl. rewrite E1, E2. destruct (Hx2 _ _ E2) as [? ?].
    rewrite !elem_of_cons. intros [?|[?|?]]; [congruence..|auto].
  - simpl. rewrite E1, E2, E3. destruct (Hx3 _ _ _ E3) as (? & ? & ?).
    rewrite !elem_of_cons. intros [?|[?|[?|?]]]; [congruence..|auto].
Qed.

End TrimRunes.

Import strings.

Lemma space2_slash a b : space2 a b = true -> a <> "/"%char /\ b <> "/"%char.
Proof.
  unfold space2. intros H; split; intros ->; revert H; cbn;
    rewrite ?andb_false_r; discriminate.
Qed.

Lemma space3_slash a b c :
  space3 a b c = true -> a <> "/"%char /\ b <> "/"%char /\ c <> "/"%char.
Proof.
  unfold space3. intros H; repeat split; intros ->; revert H; cbn.
  - discriminate.
  - rewrite !andb_false_r. cbn. discriminate.
  - rewrite !andb_false_r. cbn. discriminate.
Qed.

Lemma TrimLeftSpace_idemp l : TrimLeftSpace (TrimLeftSpace l) = TrimLeftSpace l.
Proof. apply trim_idemp. Qed.

Lemma TrimRightSpace_prefix l : TrimRightSpace l `prefix_of` l.
Proof.
  unfold TrimRightSpace. rewrite <- (reverse_involutive l) at 2.
  apply suffix_prefix_reverse, trim_suffix.
Qed.

Lemma TrimRightSpace_idemp l : TrimRightSpace (TrimRightSpace l) = TrimRightSpace l.
Proof. unfold TrimRightSpace. by rewrite reverse_involutive, trim_idemp. Qed.

Lemma TrimLeftSpace_fixed l :
  TrimLeftSpace (TrimRightSpace (TrimLeftSpace l)) = TrimRightSpace (TrimLeftSpace l).
Proof.
  apply trim_stuck.
  eapply stuck_prefix; [apply trim_is_stuck|apply TrimRightSpace_prefix].
Qed.

(** [TrimSpace] is idempotent. *)
Lemma TrimSpace_idemp s : TrimSpace (TrimSpace s) = TrimSpace s.
Proof.
  unfold TrimSpace. rewrite String.list_ascii_of_string_of_list_ascii.
  by rewrite TrimLeftSpace_fixed, TrimRightSpace_idemp.
Qed.

Lemma list_ascii_of_string_app s t :
  String.list_ascii_of_string (s +:+ t)
  = String.list_ascii_of_string s ++ String.list_ascii_of_string t.
Proof. induction s as [|a s IH]; simpl; [done|by rewrite IH]. Qed.

(** A string in which a slash occurs is not blank. *)
Lemma TrimSpace_slash s t : TrimSpace (s +:+ "/" +:+ t) <> "".
Proof.
  unfold TrimSpace. intros H.
  apply (f_equal String.list_ascii_of_string) in H.
  rewrite String.list_ascii_of_string_of_list_ascii in H. simpl in H.
  assert (Hin : "/"%char ∈ TrimRightSpace (TrimLeftSpace
                  (String.list_ascii_of_string (s +:+ "/" +:+ t)))).
  { unfold TrimRightSpace, TrimLeftSpace.
    rewrite elem_of_reverse. apply trim_keeps; [done| | |].
    - intros a b Hab. apply space2_slash in Hab. tauto.
    - intros a b c Habc. apply space3_slash in Habc. tauto.
    - rewrite elem_of_reverse. apply trim_keeps; [done|apply space2_slash|apply space3_slash|].
      rewrite !list_ascii_of_string_app. simpl. set_solver. }
  rewrite H in Hin. by apply elem_of_nil in Hin.
Qed.

(** ** The bounded history *)

Lemma lastN_all {A} n (l : list A) : (length l <= n)%nat -> lastN n l = l.
Proof. intros H. unfold lastN. replace (length l - n)%nat with 0%nat by lia. done. Qed.

Lemma lastN_length {A} n (l : list A) : length (lastN n l) = Nat.min (length l) n.
Proof. unfold lastN. rewrite length_drop. lia. Qed.

Lemma lastN_snoc {A} n (l : list A) x :
  (0 < n)%nat -> lastN n (lastN n l ++ [x]) = lastN n (l ++ [x]).
Proof.
  intros Hn. unfold lastN. rewrite !length_app, length_drop. simpl.
  destruct (decide (length l <= n)%nat) as [Hle|Hgt].
  - replace (length l - n)%nat with 0%nat by lia. simpl. f_equal. lia.
  - rewrite (drop_app_le l) by lia.
    rewrite drop_app_le by (rewrite length_drop; lia).
    rewrite drop_drop. do 2 f_equal. lia.
Qed.

Lemma lastN_suffix {A} n (l : list A) : lastN n l `suffix_of` l.
Proof. apply suffix_drop. Qed.

Lemma Get_trimLocked sid sid' m :
  0 < maxMessages m ->
  Get sid' (trimLocked sid m)
  = if decide (sid' = sid) then lastN (Z.to_nat (maxMessages m)) (Get sid m) else Get sid' m.
Proof.
  intros Hb. unfold trimLocked, Get.
  destruct (decide (maxMessages m <= 0)) as [?|_]; [lia|].
  set (msgs := default [] (sessions m !! sid)).
  destruct (decide (Z.of_nat (length msgs) > maxMessages m)) as [Hgt|Hle]; simpl.
  - destruct (decide (sid' = sid)) as [->|Hne].
    + rewrite lookup_insert_eq. simpl. unfold lastN. f_equal. lia.
    + by rewrite lookup_insert_ne.
  - destruct (decide (sid' = sid)) as [->|Hne]; [|done].
    fold msgs. rewrite lastN_all; [done|lia].
Qed.

Lemma maxMessages_trimLocked sid m : maxMessages (trimLocked sid m) = maxMessages m.
Proof. unfold trimLocked. repeat case_decide; done. Qed.

Lemma maxMessages_Append sid msg m : maxMessages (Append sid msg m) = maxMessages m.
Proof. unfold Append. by rewrite maxMessages_trimLocked. Qed.

Lemma Get_Append sid sid' msg m :
  0 < maxMessages m ->
  Get sid' (Append sid msg m)
  = if decide (sid' = sid)
    then lastN (Z.to_nat (maxMessages m)) (Get sid m ++ [msg])
    else Get sid' m.
Proof.
  intros Hb. unfold Append. rewrite Get_trimLocked by done. simpl.
  destruct (decide (sid' = sid)) as [->|Hne].
  - unfold Get at 1. simpl. by rewrite lookup_insert_eq.
  - unfold Get. simpl. by rewrite lookup_insert_ne.
Qed.

Lemma maxMessages_appendAll ops m : maxMessages (appendAll ops m) = maxMessages m.
Proof.
  revert m. induction ops as [|[sid msg] ops IH]; intros m; simpl; [done|].
  unfold appendAll in *. simpl. by rewrite IH, maxMessages_Append.
Qed.

Lemma Get_appendAll bound sid ops :
  0 < bound ->
  Get sid (appendAll ops (NewMemoryStore bound))
  = lastN (Z.to_nat bound) (messagesOf sid ops).
Proof.
  intros Hb. induction ops as [|[sid' msg] ops IH] using rev_ind.
  - done.
  - unfold appendAll, messagesOf in *. rewrite foldl_app, filter_app, fmap_app. simpl.
    fold (appendAll ops (NewMemoryStore bound)).
    rewrite Get_Append by (rewrite maxMessages_appendAll; simpl; lia).
    rewrite maxMessages_appendAll. simpl.
    rewrite filter_cons, filter_nil. simpl.
    destruct (decide (sid = sid')) as [->|Hne].
    + rewrite decide_True by done. simpl.
      unfold appendAll. rewrite IH. apply lastN_snoc. lia.
    + rewrite decide_False by done. simpl. rewrite app_nil_r. apply IH.
Qed.

Lemma lastN_min {A} n (l : list A) : lastN (Nat.min (length l) n) l = lastN n l.
Proof. unfold lastN. f_equal. lia. Qed.

(** C6. After any run of [Append] calls on a store built with a positive
    bound, [Get] returns exactly the last [min N bound] messages appended
    to the session, in their original order; each [Append] leaves a
    suffix of the extended history, so trimming only drops from the head;
    and the same holds for the bound 40 of [NewServer]. *)
Theorem history_keeps_last_messages (bound : Z) (ops : list (string * Message))
    (sid : string) :
  0 < bound ->
  let msgs := messagesOf sid ops in
  Get sid (appendAll ops (NewMemoryStore bound))
    = lastN (Nat.min (length msgs) (Z.to_nat bound)) msgs
  /\ length (Get sid (appendAll ops (NewMemoryStore bound)))
     = Nat.min (length msgs) (Z.to_nat bound)
  /\ (forall m msg, maxMessages m = bound ->
        Get sid (Append sid msg m) `suffix_of` (Get sid m ++ [msg]))
  /\ Get sid (appendAll ops (NewMemoryStore 40)) = lastN (Nat.min (length msgs) 40) msgs.
Proof.
  intros Hb msgs. repeat split.
  - rewrite lastN_min. by apply Get_appendAll.
  - rewrite Get_appendAll by done. apply lastN_length.
  - intros m msg Hm. rewrite Get_Append by lia. rewrite decide_True by done.
    apply lastN_suffix.
  - rewrite lastN_min. by rewrite Get_appendAll.
Qed.

Lemma history_keeps_last_messages_witness :
  Get "s" (appendAll [("s", mkMessage "user" "a"); ("t", mkMessage "user" "b");
                      ("s", mkMessage "assistant" "c"); ("s", mkMessage "user" "d")]
             (NewMemoryStore 2))
  = [mkMessage "assistant" "c"; mkMessage "user" "d"].
Proof.
  pose proof (history_keeps_last_messages 2
    [("s", mkMessage "user" "a"); ("t", mkMessage "user" "b");
     ("s", mkMessage "assistant" "c"); ("s", mkMessage "user" "d")] "s") as H.
  destruct H as [H _]; [lia|]. rewrite H. reflexivity.
Defined.

(** ** Time-bound entries *)

Lemma SetPendingIntent_after_read t1 t2 sid typ args m :
  SetPendingIntent t2 sid typ args (GetPendingIntent t1 sid m).2
  = SetPendingIntent t2 sid typ args m.
Proof.
  unfold GetPendingIntent, SetPendingIntent.
  destruct (pendingBySession m !! sid) as [p|]; [|done].
  case_decide; [|done]. unfold setPendingMap; simpl. by rewrite insert_delete_eq.
Qed.

Lemma SetLastPRs_after_read t1 t2 sid prs m :
  SetLastPRs t2 sid prs (GetLastPRs t1 sid m).2 = SetLastPRs t2 sid prs m.
Proof.
  unfold GetLastPRs, SetLastPRs.
  destruct (lastPRsBySession m !! sid) as [p|]; [|done].
  case_decide; [|done]. unfold setLastPRsMap; simpl. by rewrite insert_delete_eq.
Qed.

(** C4. A pending intent written at [t0] and read at [t1], both in
    nanoseconds, comes back unchanged while [t1 - t0] is at most seven
    minutes, that is 7 * 60 * 10^9 ns; once more than that has elapsed
    since the write the read reports nothing and deletes the entry, and
    a later write gives the same store as if the expired entry had
    never been read.  The cache of listed pull requests behaves in the
    same way. *)
Theorem ttl_read_after_write (m : MemoryStore) (sid typ : string)
    (args : gmap string any) (prs : list PRRef) (t0 t1 : Z) :
  (t1 - t0 <= 7 * 60 * 1000000000 ->
     GetPendingIntent t1 sid (SetPendingIntent t0 sid typ args m)
     = (Some (typ, args), SetPendingIntent t0 sid typ args m))
  /\ (t1 - t0 > 7 * 60 * 1000000000 ->
        (GetPendingIntent t1 sid (SetPendingIntent t0 sid typ args m)).1 = None
        /\ pendingBySession
             (GetPendingIntent t1 sid (SetPendingIntent t0 sid typ args m)).2 !! sid = None)
  /\ (forall t2 typ' args' m',
        SetPendingIntent t2 sid typ' args' (GetPendingIntent t1 sid m').2
        = SetPendingIntent t2 sid typ' args' m')
  /\ (t1 - t0 <= 7 * 60 * 1000000000 ->
        GetLastPRs t1 sid (SetLastPRs t0 sid prs m) = (Some prs, SetLastPRs t0 sid prs m))
  /\ (t1 - t0 > 7 * 60 * 1000000000 ->
        (GetLastPRs t1 sid (SetLastPRs t0 sid prs m)).1 = None
        /\ lastPRsBySession (GetLastPRs t1 sid (SetLastPRs t0 sid prs m)).2 !! sid = None)
  /\ (forall t2 prs' m',
        SetLastPRs t2 sid prs' (GetLastPRs t1 sid m').2 = SetLastPRs t2 sid prs' m').
Proof.
  repeat split.
  - intros H. unfold GetPendingIntent, SetPendingIntent; simpl.
    rewrite lookup_insert_eq; simpl.
    rewrite decide_False by (unfold Since, pendingTTL; lia). done.
  - unfold GetPendingIntent, SetPendingIntent; simpl.
    rewrite lookup_insert_eq; simpl.
    by rewrite decide_True by (unfold Since, pendingTTL; lia).
  - unfold GetPendingIntent, SetPendingIntent; simpl.
    rewrite lookup_insert_eq; simpl.
    rewrite decide_True by (unfold Since, pendingTTL; lia). simpl.
    apply lookup_delete_eq.
  - intros. apply SetPendingIntent_after_read.
  - intros H. unfold GetLastPRs, SetLastPRs; simpl.
    rewrite lookup_insert_eq; simpl.
    rewrite decide_False by (unfold Since, lastPRsTTL; lia). done.
  - unfold GetLastPRs, SetLastPRs; simpl.
    rewrite lookup_insert_eq; simpl.
    by rewrite decide_True by (unfold Since, lastPRsTTL; lia).
  - unfold GetLastPRs, SetLastPRs; simpl.
    rewrite lookup_insert_eq; simpl.
    rewrite decide_True by (unfold Since, lastPRsTTL; lia). simpl.
    apply lookup_delete_eq.
  - intros. apply SetLastPRs_after_read.
Qed.

(** ** Slot filling *)

Lemma fillMissing_lookup (pArgs args : gmap string any) k :
  fillMissing pArgs args !! k
  = match args !! k with Some v => Some v | None => pArgs !! k end.
Proof.
  unfold fillMissing. revert k.
  apply (map_fold_weak_ind
           (fun r (m : gmap string any) =>
              forall k, r !! k = match args !! k with Some v => Some v | None => m !! k end)).
  - intros k. rewrite lookup_empty. by destruct (args !! k).
  - intros i x m r Hi IH k.
    destruct (r !! i) as [w|] eqn:Hr.
    + destruct (decide (k = i)) as [->|Hne].
      * rewrite Hr. specialize (IH i). rewrite Hr, Hi in IH.
        destruct (args !! i); [done|discriminate].
      * rewrite IH. by rewrite lookup_insert_ne.
    + destruct (decide (k = i)) as [->|Hne].
      * rewrite !lookup_insert_eq. specialize (IH i). rewrite Hr, Hi in IH.
        by destruct (args !! i).
      * rewrite !lookup_insert_ne by done. apply IH.
Qed.

Lemma fillMissing_union (pArgs args : gmap string any) :
  fillMissing pArgs args = args ∪ pArgs.
Proof.
  apply map_eq; intros k. rewrite fillMissing_lookup, lookup_union.
  destruct (args !! k), (pArgs !! k); done.
Qed.

Lemma handleWithArgs_route ToLower s clk sid ci m :
  handleWithArgs ToLower s clk sid ci m
  = route ToLower s clk sid ci
      (mergePending ci (GetPendingIntent (tMerge clk) sid m).1).1
      (mergePending ci (GetPendingIntent (tMerge clk) sid m).1).2
      (GetPendingIntent (tMerge clk) sid m).2.
Proof.
  unfold handleWithArgs.
  destruct (GetPendingIntent (tMerge clk) sid m) as [pending m1]; simpl.
  by destruct (mergePending ci pending).
Qed.

Lemma GetPendingIntent_typed t sid m pType pArgs :
  pendingTyped m -> (GetPendingIntent t sid m).1 = Some (pType, pArgs) -> pType <> "".
Proof.
  intros Hm. unfold GetPendingIntent.
  destruct (pendingBySession m !! sid) as [p|] eqn:Hp; [|done].
  case_decide; [done|]. simpl. intros [= <- <-]. eauto.
Qed.

Lemma mergePending_some ci pType pArgs :
  pType <> "" ->
  mergePending ci (Some (pType, pArgs))
  = if decide (gh.Type_ ci = "clarify" \/ gh.Type_ ci = pType)
    then (pType, fillMissing pArgs (gh.Args ci))
    else (gh.Type_ ci, gh.Args ci).
Proof.
  intros HpT. unfold mergePending.
  destruct (decide (gh.Type_ ci = "clarify" ∧ pType ≠ "")) as [[Hc _]|Hn].
  - rewrite decide_True by auto. by rewrite decide_True by auto.
  - destruct (decide (gh.Type_ ci = pType)) as [He|Hne].
    + rewrite decide_True by (rewrite He; auto). rewrite decide_True by auto.
      by rewrite He.
    + rewrite decide_False by tauto. rewrite decide_False; [done|].
      intros [Hc|He]; [apply Hn; auto|done].
Qed.

(** A verdict that is not "clarify" keeps its type through the merge. *)
Lemma mergePending_type ci pending :
  gh.Type_ ci <> "clarify" -> (mergePending ci pending).1 = gh.Type_ ci.
Proof.
  intros Hc. unfold mergePending. destruct pending as [[pType pArgs]|]; [|done].
  destruct (decide (gh.Type_ ci = "clarify" ∧ pType ≠ "")) as [[? _]|_]; [done|].
  by case_decide.
Qed.

(** C1. In a store whose pending intents are typed, let the session have
    an unexpired pending intent [(pType, pArgs)] and let the classifier
    return [ci].  If [ci] is a "clarify", the effective type is [pType].
    If the effective type is [pType], the merged arguments hold, for
    every key, the new value when [ci] has one and the pending value
    otherwise.  [handleWithArgs] routes on exactly this type and these
    arguments. *)
Theorem pending_merge_new_values_win (ToLower : string -> string) (s : Server)
    (clk : Clock) (sid : string) (ci : gh.ClassifiedIntent) (m : MemoryStore)
    (pType : string) (pArgs : gmap string any) :
  pendingTyped m ->
  (GetPendingIntent (tMerge clk) sid m).1 = Some (pType, pArgs) ->
  let eff := (mergePending ci (Some (pType, pArgs))).1 in
  let merged := (mergePending ci (Some (pType, pArgs))).2 in
  (gh.Type_ ci = "clarify" -> eff = pType)
  /\ (eff = pType ->
      forall k,
        (gh.Args ci !! k = None -> merged !! k = pArgs !! k)
        /\ (forall v, gh.Args ci !! k = Some v -> merged !! k = Some v))
  /\ handleWithArgs ToLower s clk sid ci m
     = route ToLower s clk sid ci eff merged (GetPendingIntent (tMerge clk) sid m).2.
Proof.
  intros Hm Hp eff merged.
  assert (HpT : pType <> "") by eauto using GetPendingIntent_typed.
  pose proof (mergePending_some ci pType pArgs HpT) as Hcases.
  subst eff merged. rewrite Hcases. split; [|split].
  - intros Hc. by rewrite decide_True by auto.
  - case_decide as Hd; simpl.
    + intros _ k. rewrite fillMissing_lookup. split; [by intros ->|by intros v ->].
    + intros He. destruct Hd. auto.
  - rewrite handleWithArgs_route, Hp. by rewrite Hcases.
Qed.

(** ** The typed-pending invariant *)

Lemma pendingTyped_New n : pendingTyped (NewMemoryStore n).
Proof. intros sid p. simpl. by rewrite lookup_empty. Qed.

Lemma pendingTyped_same m m' :
  pendingBySession m' = pendingBySession m -> pendingTyped m -> pendingTyped m'.
Proof. unfold pendingTyped. by intros ->. Qed.

Lemma pendingTyped_delete sid m :
  pendingTyped m -> pendingTyped (setPendingMap (delete sid (pendingBySession m)) m).
Proof.
  intros Hm sid' p. simpl. intros [_ H]%lookup_delete_Some. eauto.
Qed.

Lemma pendingTyped_Clear sid m : pendingTyped m -> pendingTyped (ClearPendingIntent sid m).
Proof. apply pendingTyped_delete. Qed.

Lemma pendingTyped_Set t sid typ args m :
  typ <> "" -> pendingTyped m -> pendingTyped (SetPendingIntent t sid typ args m).
Proof.
  intros Ht Hm sid' p. simpl. intros [[_ <-]|[_ H]]%lookup_insert_Some; [done|eauto].
Qed.

Lemma pendingTyped_GetPending t sid m :
  pendingTyped m -> pendingTyped (GetPendingIntent t sid m).2.
Proof.
  intros Hm. unfold GetPendingIntent.
  destruct (pendingBySession m !! sid); [|done].
  case_decide; [|done]. by apply pendingTyped_delete.
Qed.

Lemma pendingBySession_GetLastPRs t sid m :
  pendingBySession (GetLastPRs t sid m).2 = pendingBySession m.
Proof.
  unfold GetLastPRs. destruct (lastPRsBySession m !! sid); [|done]. by case_decide.
Qed.

Lemma pendingTyped_GetLastPRs t sid m :
  pendingTyped m -> pendingTyped (GetLastPRs t sid m).2.
Proof. apply pendingTyped_same, pendingBySession_GetLastPRs. Qed.

Lemma pendingTyped_SetLastPRs t sid prs m :
  pendingTyped m -> pendingTyped (SetLastPRs t sid prs m).
Proof. by apply pendingTyped_same. Qed.

Lemma pendingBySession_trimLocked sid m :
  pendingBySession (trimLocked sid m) = pendingBySession m.
Proof. unfold trimLocked. repeat case_decide; done. Qed.

Lemma pendingBySession_Append sid msg m :
  pendingBySession (Append sid msg m) = pendingBySession m.
Proof. unfold Append. by rewrite pendingBySession_trimLocked. Qed.

Lemma pendingTyped_Append sid msg m : pendingTyped m -> pendingTyped (Append sid msg m).
Proof. apply pendingTyped_same, pendingBySession_Append. Qed.

Create HintDb typed discriminated.
#[local] Hint Resolve pendingTyped_Clear pendingTyped_Set pendingTyped_GetPending
  pendingTyped_GetLastPRs pendingTyped_SetLastPRs pendingTyped_Append : typed.

Lemma pendingTyped_autoResolve clk sid repo n m :
  pendingTyped m -> pendingTyped (autoResolve clk sid repo n m).2.
Proof.
  intros Hm. unfold autoResolve. case_decide; [|done].
  pose proof (pendingTyped_GetLastPRs (tResolve clk) sid m Hm) as Hg.
  destruct (GetLastPRs (tResolve clk) sid m) as [[refs|] m1]; [|done].
  by destruct (matchRefs refs n) as [|? [|? ?]].
Qed.

Section TypedHandlers.

Variable ToLower : string -> string.
Variable s : Server.

Lemma pendingTyped_handleListPRs clk sid ty m :
  pendingTyped m -> pendingTyped (handleListPRs s clk sid ty m).2.
Proof.
  intros Hm. unfold handleListPRs. case_decide; [done|].
  destruct (if decide (ty = "list_prs_mine") then _ else _); [|done].
  simpl. case_decide; auto with typed.
Qed.

Lemma pendingTyped_commentsResolved clk sid args repo n m :
  pendingTyped m -> pendingTyped (commentsResolved s clk sid args repo n m).2.
Proof.
  intros Hm. unfold commentsResolved, clarifyAndPersist.
  repeat case_decide; simpl; auto with typed.
  destruct (gh.GetPRComments _ _ _ _); simpl; auto with typed.
Qed.

Lemma pendingTyped_mergeResolved clk sid args repo n method m :
  pendingTyped m -> pendingTyped (mergeResolved s clk sid args repo n method m).2.
Proof.
  intros Hm. unfold mergeResolved, clarifyAndPersist.
  repeat case_decide; simpl; auto with typed.
  destruct (gh.MergePR _ _ _ _ _); simpl; auto with typed.
Qed.

Lemma pendingTyped_handleGetPRComments clk sid args m :
  pendingTyped m -> pendingTyped (handleGetPRComments s clk sid args m).2.
Proof.
  intros Hm. unfold handleGetPRComments.
  match goal with |- context [autoResolve ?c ?i ?r ?n ?m] =>
    pose proof (pendingTyped_autoResolve c i r n m Hm) as H;
    destruct (autoResolve c i r n m) as [[repo|matches] m1] end; simpl in H.
  - by apply pendingTyped_commentsResolved.
  - unfold clarifyAndPersist; simpl. auto with typed.
Qed.

Lemma pendingTyped_handleMergePR clk sid args m :
  pendingTyped m -> pendingTyped (handleMergePR ToLower s clk sid args m).2.
Proof.
  intros Hm. unfold handleMergePR.
  match goal with |- context [autoResolve ?c ?i ?r ?n ?m] =>
    pose proof (pendingTyped_autoResolve c i r n m Hm) as H;
    destruct (autoResolve c i r n m) as [[repo|matches] m1] end; simpl in H.
  - by apply pendingTyped_mergeResolved.
  - unfold clarifyAndPersist; simpl. auto with typed.
Qed.

Lemma pendingTyped_handleClarify clk sid ci args m :
  pendingTyped m -> pendingTyped (handleClarify clk sid ci args m).2.
Proof.
  intros Hm. unfold handleClarify. simpl.
  pose proof (pendingTyped_GetPending (tResolve clk) sid m Hm) as H.
  destruct (GetPendingIntent (tResolve clk) sid m) as [[[pType pArgs]|] m1]; [|done].
  case_decide; auto with typed.
Qed.

Lemma pendingTyped_route clk sid ci ty args m :
  pendingTyped m -> pendingTyped (route ToLower s clk sid ci ty args m).2.
Proof.
  intros Hm. unfold route.
  repeat case_decide;
    auto using pendingTyped_handleListPRs, pendingTyped_handleGetPRComments,
      pendingTyped_handleMergePR, pendingTyped_handleClarify.
  unfold handleNotImplemented; simpl. auto with typed.
Qed.

(** Every turn keeps the pending intents typed. *)
Lemma pendingTyped_handleWithArgs clk sid ci m :
  pendingTyped m -> pendingTyped (handleWithArgs ToLower s clk sid ci m).2.
Proof.
  intros Hm. rewrite handleWithArgs_route. auto using pendingTyped_route with typed.
Qed.

Lemma pendingTyped_handleChat clk body sid m :
  pendingTyped m -> pendingTyped (handleChat ToLower s clk body sid m).2.
Proof.
  intros Hm. unfold handleChat. destruct body as [req|]; [|done].
  case_decide; [done|].
  set (m1 := if decide (types.System req ≠ "") then _ else m).
  assert (pendingTyped m1) by (subst m1; case_decide; auto with typed).
  case_decide; [simpl; auto with typed|].
  unfold classifyAndHandle.
  destruct (intent s) as [cl|]; [|simpl; auto with typed].
  destruct (gh.ClassifyChat cl _) as [[ci|]|]; simpl; auto with typed.
  match goal with |- context [handleWithArgs ?f ?s ?c ?i ?ci ?m] =>
    pose proof (pendingTyped_handleWithArgs c i ci m) as H';
    destruct (handleWithArgs f s c i ci m) as [[[reply it] [|]] m2] end;
    simpl in *; auto with typed.
Qed.

End TypedHandlers.

(** ** Unsupported requests *)

Lemma ClearPendingIntent_after_read t sid m :
  ClearPendingIntent sid (GetPendingIntent t sid m).2 = ClearPendingIntent sid m.
Proof.
  unfold GetPendingIntent, ClearPendingIntent.
  destruct (pendingBySession m !! sid); [|done]. case_decide; [|done].
  unfold setPendingMap; simpl. by rewrite delete_delete_eq.
Qed.

Lemma GetPendingIntent_cleared t sid m :
  (GetPendingIntent t sid (ClearPendingIntent sid m)).1 = None.
Proof. unfold GetPendingIntent, ClearPendingIntent; simpl. by rewrite lookup_delete_eq. Qed.

(** Decide the [switch] of [route] for a known type. *)
Ltac route_switch :=
  unfold route; repeat (case_decide; try (exfalso; intuition congruence)); try reflexivity.

(** C7. A verdict of type "unknown" or "not_implemented" clears the
    pending intent of the session, whatever its type, and the turn
    answers with the classifier's message (or the stock sentence when it
    is blank) and the structured type "not_implemented". *)
Theorem unknown_clears_pending (ToLower : string -> string) (s : Server) (clk : Clock)
    (sid : string) (ci : gh.ClassifiedIntent) (m : MemoryStore) :
  gh.Type_ ci = "unknown" \/ gh.Type_ ci = "not_implemented" ->
  handleWithArgs ToLower s clk sid ci m
  = ((if decide (TrimSpace (gh.Message ci) = "")
      then "I haven't learned that trick yet — but I'm practicing!"
      else TrimSpace (gh.Message ci),
      Some (types.mkIntentResponse "not_implemented" ∅), true),
     ClearPendingIntent sid m)
  /\ pendingBySession (handleWithArgs ToLower s clk sid ci m).2 !! sid = None
  /\ forall t, (GetPendingIntent t sid (handleWithArgs ToLower s clk sid ci m).2).1 = None.
Proof.
  intros Hty.
  assert (Heq : handleWithArgs ToLower s clk sid ci m
                = handleNotImplemented sid ci (GetPendingIntent (tMerge clk) sid m).2).
  { rewrite handleWithArgs_route.
    rewrite mergePending_type by (destruct Hty as [-> | ->]; discriminate).
    destruct Hty as [Hty|Hty]; rewrite Hty; route_switch. }
  rewrite Heq. unfold handleNotImplemented. rewrite ClearPendingIntent_after_read.
  split; [done|]. simpl. split.
  - apply lookup_delete_eq.
  - intros t. apply GetPendingIntent_cleared.
Qed.

Lemma unknown_clears_pending_witness :
  pendingBySession
    (handleWithArgs id
       (mkServer (config.mkConfig "tok" "" "") None
          (mkFileTokenStore FileNotExist (fun _ => None)) None
          (gh.mkMCPClient (fun _ => Ok []) (fun _ => Ok [])
             (fun _ _ _ => Ok []) (fun _ _ _ _ => None))
          None (fun _ => ""))
       (mkClock 1 2 3) "s"
       (gh.mkClassifiedIntent "unknown" ∅ 0 "")
       (SetPendingIntent 0 "s" "merge_pr" ∅ (NewMemoryStore 40))).2 !! "s" = None.
Proof.
  refine (proj1 (proj2 (unknown_clears_pending _ _ _ _ _ _ _))).
  left. reflexivity.
Defined.

(** ** Missing authorization *)

Lemma getGitHubToken_ext s s' sid :
  cfg s' = cfg s -> tokenStore s' = tokenStore s -> databaseStore s' = databaseStore s ->
  getGitHubToken s' sid = getGitHubToken s sid.
Proof. unfold getGitHubToken. by intros -> -> ->. Qed.

Lemma lastPRsBySession_trimLocked sid m :
  lastPRsBySession (trimLocked sid m) = lastPRsBySession m.
Proof. unfold trimLocked. repeat case_decide; done. Qed.

Lemma lastPRsBySession_Append sid msg m :
  lastPRsBySession (Append sid msg m) = lastPRsBySession m.
Proof. unfold Append. by rewrite lastPRsBySession_trimLocked. Qed.

(** C8. When the session has no credential (the token of
    [getGitHubToken] is blank), [handleChat] records the utterance and
    answers at once with the structured type "require_github_auth": the
    pending intent and the cache of listed pull requests are what they
    were, and the answer does not depend on the classifier, the action
    provider or the clock.  The listing branch of [handleWithArgs] has
    the same guard and leaves the store alone. *)
Theorem unauthorized_short_circuits (ToLower : string -> string) (s : Server)
    (clk : Clock) (req : types.ChatRequest) (sid : string) (m : MemoryStore) :
  TrimSpace (types.Message req) <> "" ->
  TrimSpace (getGitHubToken s sid) = "" ->
  let m1 := if decide (types.System req <> "")
            then Append sid (mkMessage "system" (types.System req)) m else m in
  handleChat ToLower s clk (Some req) sid m
  = (WriteJSON
       (types.mkChatResponse sid
          "Please connect your GitHub account to use this application. This service helps you manage GitHub pull requests - fetching, listing, merging, and viewing PR comments."
          "" (Some (types.mkIntentResponse "require_github_auth" ∅))),
     Append sid (mkMessage "user" (types.Message req)) m1)
  /\ pendingBySession (handleChat ToLower s clk (Some req) sid m).2 = pendingBySession m
  /\ lastPRsBySession (handleChat ToLower s clk (Some req) sid m).2 = lastPRsBySession m
  /\ (forall s' clk',
        cfg s' = cfg s -> tokenStore s' = tokenStore s ->
        databaseStore s' = databaseStore s ->
        handleChat ToLower s' clk' (Some req) sid m
        = handleChat ToLower s clk (Some req) sid m)
  /\ (forall ty m0,
        handleListPRs s clk sid ty m0
        = (("Whoops! I need your GitHub connection to fetch your pull requests. Let's connect GitHub first.",
            Some (types.mkIntentResponse "require_github_auth" ∅), true), m0)).
Proof.
  intros Hmsg Htok m1.
  assert (Heq : forall s' clk', getGitHubToken s' sid = getGitHubToken s sid ->
    handleChat ToLower s' clk' (Some req) sid m
    = (WriteJSON
         (types.mkChatResponse sid
            "Please connect your GitHub account to use this application. This service helps you manage GitHub pull requests - fetching, listing, merging, and viewing PR comments."
            "" (Some (types.mkIntentResponse "require_github_auth" ∅))),
       Append sid (mkMessage "user" (types.Message req)) m1)).
  { intros s' clk' Hs'. unfold handleChat. rewrite decide_False by done.
    fold m1. rewrite Hs'. by rewrite decide_True by done. }
  split; [by apply Heq|]. rewrite (Heq s clk eq_refl). simpl.
  split; [|split; [|split]].
  - rewrite pendingBySession_Append. subst m1. case_decide; [|done].
    apply pendingBySession_Append.
  - rewrite lastPRsBySession_Append. subst m1. case_decide; [|done].
    apply lastPRsBySession_Append.
  - intros s' clk' H1 H2 H3. apply Heq. by apply getGitHubToken_ext.
  - intros ty m0. unfold handleListPRs. by rewrite decide_True by done.
Qed.

Lemma unauthorized_short_circuits_witness :
  pendingBySession
    (handleChat id
       (mkServer (config.mkConfig "" "" "") None
          (mkFileTokenStore FileNotExist (fun _ => None)) None
          (gh.mkMCPClient (fun _ => Ok []) (fun _ => Ok [])
             (fun _ _ _ => Ok []) (fun _ _ _ _ => None))
          None (fun _ => ""))
       (mkClock 1 2 3) (Some (types.mkChatRequest "" "merge PR 7" "")) "s"
       (SetPendingIntent 0 "s" "merge_pr" ∅ (NewMemoryStore 40))).2
  = pendingBySession (SetPendingIntent 0 "s" "merge_pr" ∅ (NewMemoryStore 40)).
Proof.
  refine (proj1 (proj2 (unauthorized_short_circuits _ _ _ _ _ _ _ _))).
  - vm_compute. discriminate.
  - reflexivity.
Defined.

(** ** The authorization handshake *)

Lemma ClearOAuthState_linked sid state m :
  oauthStateBySession m !! sid = Some state ->
  GetOAuthState sid (ClearOAuthState sid m) = ""
  /\ GetSessionByOAuthState state (ClearOAuthState sid m) = "".
Proof.
  intros H. unfold ClearOAuthState, GetOAuthState, GetSessionByOAuthState.
  rewrite H. simpl. by rewrite !lookup_delete_eq.
Qed.

Lemma GetOAuthState_Some sid state m :
  GetOAuthState sid m = state -> state <> "" -> oauthStateBySession m !! sid = Some state.
Proof.
  unfold GetOAuthState. destruct (oauthStateBySession m !! sid); simpl; congruence.
Qed.

(** C9. Looking a state token up only reads the store: once
    [SetOAuthState] has linked a session and a token, both directions
    resolve, and a callback that fails after the lookup leaves the
    store, link included, as it was.  [ClearOAuthState] is the step that
    removes both directions.  A callback that completes has cleared the
    link, so the same state token, replayed with any code on any server
    configuration, is rejected with status 400. *)
Theorem oauth_state_single_use (s : Server) (state code : string) (m : MemoryStore) :
  (forall sid,
      GetSessionByOAuthState state (SetOAuthState sid state m) = sid
      /\ GetOAuthState sid (SetOAuthState sid state m) = state)
  /\ (forall sid,
        GetOAuthState sid m = state -> state <> "" ->
        GetOAuthState sid (ClearOAuthState sid m) = ""
        /\ GetSessionByOAuthState state (ClearOAuthState sid m) = "")
  /\ (forall c msg m', handleGitHubCallback s state code m = (WriteError c msg, m') -> m' = m)
  /\ (forall url cookie m',
        handleGitHubCallback s state code m = (Redirect url cookie, m') ->
        cookie = GetSessionByOAuthState state m
        /\ GetSessionByOAuthState state m' = ""
        /\ GetOAuthState cookie m' = ""
        /\ forall s' code', exists msg,
             handleGitHubCallback s' state code' m' = (WriteError 400 msg, m')).
Proof.
  split; [|split; [|split]].
  - intros sid. unfold GetSessionByOAuthState, GetOAuthState, SetOAuthState; simpl.
    by rewrite !lookup_insert_eq.
  - intros sid Hst Hne. apply ClearOAuthState_linked. by apply GetOAuthState_Some.
  - intros c msg m'. unfold handleGitHubCallback.
    repeat (case_match || case_decide); intros [= ]; subst; done.
  - intros url cookie m'. unfold handleGitHubCallback.
    destruct (oauthCfg s) as [oCfg|]; [|done].
    destruct (decide (state = "" ∨ code = "")) as [|Hsc]; [done|].
    set (sid := GetSessionByOAuthState state m).
    destruct (decide (sid = "" ∨ GetOAuthState sid m ≠ state)) as [|Hsid]; [done|].
    assert (Hstate : state <> "") by tauto.
    assert (Hlink : GetOAuthState sid m = state).
    { destruct (decide (GetOAuthState sid m = state)); tauto. }
    destruct (Exchange oCfg code) as [tok|]; [|done].
    case_decide; [done|].
    match goal with |- context [match ?x with Some _ => _ | None => _ end = _] =>
      destruct x as [e|] eqn:Hsaved end; [done|].
    intros [= <- <- <-].
    apply GetOAuthState_Some in Hlink; [|done].
    destruct (ClearOAuthState_linked sid state
                (SetUsername sid (fetchGitHubUsername s (TAccessToken tok)) m) Hlink)
      as [Hc1 Hc2].
    split; [done|]. split; [done|]. split; [done|].
    intros s' code'. unfold handleGitHubCallback.
    destruct (oauthCfg s'); [|eauto].
    case_decide; [eauto|]. rewrite Hc2. rewrite decide_True by auto. eauto.
Qed.

(** ** Resolving a bare pull-request number *)

Lemma matchRefs_candidates refs n : matchRefs refs n = candidates refs n.
Proof.
  unfold matchRefs, candidates.
  enough (forall acc,
    foldl (fun matches r =>
             if decide (Number r = n) then matches ++ [Repository r] else matches) acc refs
    = acc ++ (Repository <$> filter (fun r => Number r = n) refs)) as H by apply (H []).
  induction refs as [|r refs IH]; intros acc; simpl.
  - by rewrite app_nil_r.
  - rewrite IH, filter_cons. case_decide; simpl; [|done]. by rewrite <- app_assoc.
Qed.



Lemma expandRepo_blank s sid repo m : TrimSpace repo = "" -> expandRepo s sid repo m = "".
Proof. intros H. unfold expandRepo. rewrite H. by rewrite decide_False by tauto. Qed.

Lemma route_comments ToLower s clk sid ci args m :
  route ToLower s clk sid ci "get_pr_comments" args m = handleGetPRComments s clk sid args m.
Proof. route_switch. Qed.

Lemma route_merge ToLower s clk sid ci args m :
  route ToLower s clk sid ci "merge_pr" args m = handleMergePR ToLower s clk sid args m.
Proof. route_switch. Qed.


(** ** Listing *)

Lemma lastPRsBySession_GetPending t sid m :
  lastPRsBySession (GetPendingIntent t sid m).2 = lastPRsBySession m.
Proof.
  unfold GetPendingIntent. destruct (pendingBySession m !! sid); [|done]. by case_decide.
Qed.

Lemma route_list ToLower s clk sid ci ty args m :
  ty = "list_prs_mine" \/ ty = "list_prs_review" ->
  route ToLower s clk sid ci ty args m = handleListPRs s clk sid ty m.
Proof. intros H. unfold route. by rewrite decide_True. Qed.

Lemma handleWithArgs_list ToLower s clk sid ci m :
  gh.Type_ ci = "list_prs_mine" \/ gh.Type_ ci = "list_prs_review" ->
  handleWithArgs ToLower s clk sid ci m
  = handleListPRs s clk sid (gh.Type_ ci) (GetPendingIntent (tMerge clk) sid m).2.
Proof.
  intros Hty. rewrite handleWithArgs_route.
  rewrite mergePending_type by (destruct Hty as [-> | ->]; discriminate).
  by apply route_list.
Qed.

(** C3, as the code has it.  When a listing succeeds, the pending
    intent of the session is cleared; the cache of listed pull requests
    is replaced when the listing is not empty and is left as it was
    when the listing is empty. *)
Theorem listing_clears_pending_and_caches_nonempty (ToLower : string -> string)
    (s : Server) (clk : Clock) (sid : string) (ci : gh.ClassifiedIntent)
    (m : MemoryStore) (prs : list gh.PR) :
  gh.Type_ ci = "list_prs_mine" \/ gh.Type_ ci = "list_prs_review" ->
  TrimSpace (getGitHubToken s sid) <> "" ->
  (if decide (gh.Type_ ci = "list_prs_mine")
   then gh.ListUserPRs (mcp s) (getGitHubToken s sid)
   else gh.ListPRsForReview (mcp s) (getGitHubToken s sid)) = Ok prs ->
  let r := handleWithArgs ToLower s clk sid ci m in
  (exists reply payload, r.1 = (reply, Some (types.mkIntentResponse "show_prs" payload), true)
                         /\ payload !! "prs" = Some (types.PVPRs prs))
  /\ pendingBySession r.2 !! sid = None
  /\ (prs = [] -> lastPRsBySession r.2 = lastPRsBySession m)
  /\ (prs <> [] ->
      lastPRsBySession r.2 !! sid
      = Some (mkLastPRsCache ((fun p => mkPRRef (gh.Number p) (gh.Repository p)) <$> prs)
                (tPersist clk))).
Proof.
  intros Hty Htok Hok r. subst r. rewrite handleWithArgs_list by done.
  unfold handleListPRs. rewrite decide_False by done. rewrite Hok.
  split; [|split; [|split]].
  - eexists _, _. split; [reflexivity|]. by rewrite lookup_insert_eq.
  - simpl. apply lookup_delete_eq.
  - intros ->. simpl. apply lastPRsBySession_GetPending.
  - intros Hne. destruct prs as [|p prs]; [done|].
    rewrite (decide_True (P := (0 < length (p :: prs))%nat)) by (simpl; lia).
    simpl. by rewrite lookup_insert_eq.
Qed.

(** ** Provider failures *)

Lemma autoResolve_store clk sid repo n m :
  (autoResolve clk sid repo n m).2 = m
  \/ (autoResolve clk sid repo n m).2 = (GetLastPRs (tResolve clk) sid m).2.
Proof.
  unfold autoResolve. case_decide; [|by left]. right.
  destruct (GetLastPRs (tResolve clk) sid m) as [[refs|] m1]; [|done].
  by destruct (matchRefs refs n) as [|? [|? ?]].
Qed.

(** A read at [t] or later does not see what a read at [t] purged. *)
Lemma GetPendingIntent_after_purge t t' sid sid' m :
  t <= t' ->
  (GetPendingIntent t' sid' (GetPendingIntent t sid m).2).1 = (GetPendingIntent t' sid' m).1.
Proof.
  intros Ht. unfold GetPendingIntent.
  destruct (pendingBySession m !! sid) as [p|] eqn:Hp; simpl; [|done].
  destruct (decide (Since t (PUpdatedAt p) > pendingTTL)) as [Hexp|]; simpl; [|done].
  destruct (decide (sid' = sid)) as [->|Hne].
  - rewrite lookup_delete_eq, Hp. by rewrite decide_True by (unfold Since in *; lia).
  - rewrite lookup_delete_ne by done.
    destruct (pendingBySession m !! sid'); [|done]. by case_decide.
Qed.

Lemma GetLastPRs_after_purge t t' sid sid' m :
  t <= t' ->
  (GetLastPRs t' sid' (GetLastPRs t sid m).2).1 = (GetLastPRs t' sid' m).1.
Proof.
  intros Ht. unfold GetLastPRs.
  destruct (lastPRsBySession m !! sid) as [p|] eqn:Hp; simpl; [|done].
  destruct (decide (Since t (PRsUpdatedAt p) > lastPRsTTL)) as [Hexp|]; simpl; [|done].
  destruct (decide (sid' = sid)) as [->|Hne].
  - rewrite lookup_delete_eq, Hp. by rewrite decide_True by (unfold Since in *; lia).
  - rewrite lookup_delete_ne by done.
    destruct (lastPRsBySession m !! sid'); [|done]. by case_decide.
Qed.

Lemma GetPendingIntent_ext t sid m m' :
  pendingBySession m' = pendingBySession m ->
  (GetPendingIntent t sid m').1 = (GetPendingIntent t sid m).1.
Proof.
  intros H. unfold GetPendingIntent. rewrite H.
  destruct (pendingBySession m !! sid); [|done]. by case_decide.
Qed.

Lemma GetLastPRs_ext t sid m m' :
  lastPRsBySession m' = lastPRsBySession m ->
  (GetLastPRs t sid m').1 = (GetLastPRs t sid m).1.
Proof.
  intros H. unfold GetLastPRs. rewrite H.
  destruct (lastPRsBySession m !! sid); [|done]. by case_decide.
Qed.

Section Failures.

Variable ToLower : string -> string.
Variable s : Server.

Lemma handleListPRs_error clk sid ty m reply ir ok m' :
  handleListPRs s clk sid ty m = ((reply, Some ir, ok), m') ->
  types.Type_ ir = "error" ->
  ok = true /\ m' = m /\ ir = types.mkIntentResponse "error" ∅
  /\ reply = "I couldn't fetch your pull requests from GitHub right now. This might be a temporary issue with GitHub's API. Try again in a moment?".
Proof.
  unfold handleListPRs. case_decide.
  - intros [= <- <- <- <-]. discriminate.
  - destruct (if decide (ty = "list_prs_mine") then _ else _).
    + intros [= <- <- <- <-]. discriminate.
    + by intros [= <- <- <- <-].
Qed.

Lemma commentsResolved_error clk sid args repo n m reply ir ok m' :
  commentsResolved s clk sid args repo n m = ((reply, Some ir, ok), m') ->
  types.Type_ ir = "error" ->
  ok = true /\ m' = m /\ ir = types.mkIntentResponse "error" ∅
  /\ reply = "I couldn't retrieve the PR comments from GitHub. This could be a temporary GitHub API issue or the PR might not exist. Mind trying again?".
Proof.
  unfold commentsResolved, clarifyAndPersist.
  repeat case_decide; try (intros [= <- <- <- <-]; discriminate).
  destruct (gh.GetPRComments _ _ _ _).
  - intros [= <- <- <- <-]. discriminate.
  - by intros [= <- <- <- <-].
Qed.

Lemma mergeResolved_error clk sid args repo n method m reply ir ok m' :
  mergeResolved s clk sid args repo n method m = ((reply, Some ir, ok), m') ->
  types.Type_ ir = "error" ->
  ok = true /\ m' = m /\ ir = types.mkIntentResponse "error" ∅
  /\ reply = "I couldn't merge the pull request on GitHub. This could be due to failing checks, merge conflicts, or insufficient permissions. Would you like me to check the PR status?".
Proof.
  unfold mergeResolved, clarifyAndPersist.
  repeat case_decide; try (intros [= <- <- <- <-]; discriminate).
  destruct (gh.MergePR _ _ _ _ _).
  - by intros [= <- <- <- <-].
  - intros [= <- <- <- <-]. discriminate.
Qed.

Lemma route_error clk sid ci ty args m reply ir ok m' :
  route ToLower s clk sid ci ty args m = ((reply, Some ir, ok), m') ->
  types.Type_ ir = "error" ->
  ok = true /\ (m' = m \/ m' = (GetLastPRs (tResolve clk) sid m).2)
  /\ ir = types.mkIntentResponse "error" ∅
  /\ (reply = "I couldn't fetch your pull requests from GitHub right now. This might be a temporary issue with GitHub's API. Try again in a moment?"
      \/ reply = "I couldn't retrieve the PR comments from GitHub. This could be a temporary GitHub API issue or the PR might not exist. Mind trying again?"
      \/ reply = "I couldn't merge the pull request on GitHub. This could be due to failing checks, merge conflicts, or insufficient permissions. Would you like me to check the PR status?").
Proof.
  unfold route. repeat case_decide.
  - intros Hr1 Hr2.
    destruct (handleListPRs_error _ _ _ _ _ _ _ _ Hr1 Hr2) as (? & ? & ? & ?). subst. repeat split; auto.
  - unfold handleGetPRComments.
    match goal with |- context [autoResolve ?c ?i ?r ?n ?m] =>
      pose proof (autoResolve_store c i r n m) as Hst;
      destruct (autoResolve c i r n m) as [[repo|matches] m1] end; simpl in Hst.
    + intros Hr1 Hr2.
      destruct (commentsResolved_error _ _ _ _ _ _ _ _ _ _ Hr1 Hr2) as (? & ? & ? & ?).
      subst. repeat split; auto.
    + intros [= <- <- <- <-]. discriminate.
  - unfold handleMergePR.
    match goal with |- context [autoResolve ?c ?i ?r ?n ?m] =>
      pose proof (autoResolve_store c i r n m) as Hst;
      destruct (autoResolve c i r n m) as [[repo|matches] m1] end; simpl in Hst.
    + intros Hr1 Hr2.
      destruct (mergeResolved_error _ _ _ _ _ _ _ _ _ _ _ Hr1 Hr2) as (? & ? & ? & ?).
      subst. repeat split; auto.
    + intros [= <- <- <- <-]. discriminate.
  - unfold handleClarify. intros [= <- <- <- <-]. discriminate.
  - intros [= <- <- <- <-]. discriminate.
  - discriminate.
Qed.

End Failures.

(** C5. A provider call that fails ends the turn with a fixed
    natural-language reply, which does not depend on the provider's
    error, the structured type "error" and the store it was given: this
    holds for the listing call and, once repo and number are resolved
    and a credential is present, for the comments and the merge calls.
    Over a whole turn, an answer of type "error" carries one of these
    three replies and no payload, and the store is the one the turn
    started from, up to the purge of this session's expired entries by
    the reads that precede the call; every later read of a pending
    intent or of the cache returns what it would have returned before
    the turn. *)
Theorem provider_failure_keeps_state (ToLower : string -> string) (s : Server)
    (clk : Clock) (sid : string) :
  let token := getGitHubToken s sid in
  let listFailed :=
    "I couldn't fetch your pull requests from GitHub right now. This might be a temporary issue with GitHub's API. Try again in a moment?" in
  let commentsFailed :=
    "I couldn't retrieve the PR comments from GitHub. This could be a temporary GitHub API issue or the PR might not exist. Mind trying again?" in
  let mergeFailed :=
    "I couldn't merge the pull request on GitHub. This could be due to failing checks, merge conflicts, or insufficient permissions. Would you like me to check the PR status?" in
  (forall ty m e,
      TrimSpace token <> "" ->
      (if decide (ty = "list_prs_mine")
       then gh.ListUserPRs (mcp s) token else gh.ListPRsForReview (mcp s) token) = Err e ->
      handleListPRs s clk sid ty m
      = ((listFailed, Some (types.mkIntentResponse "error" ∅), true), m))
  /\ (forall args repo n m e,
        TrimSpace repo <> "" -> n > 0 -> TrimSpace token <> "" ->
        gh.GetPRComments (mcp s) token (TrimSpace repo) n = Err e ->
        commentsResolved s clk sid args repo n m
        = ((commentsFailed, Some (types.mkIntentResponse "error" ∅), true), m))
  /\ (forall args repo n method m e,
        repo <> "" -> n > 0 -> TrimSpace token <> "" ->
        gh.MergePR (mcp s) token repo n method = Some e ->
        mergeResolved s clk sid args repo n method m
        = ((mergeFailed, Some (types.mkIntentResponse "error" ∅), true), m))
  /\ (forall ci m reply ir ok m',
        handleWithArgs ToLower s clk sid ci m = ((reply, Some ir, ok), m') ->
        types.Type_ ir = "error" ->
        let m0 := (GetPendingIntent (tMerge clk) sid m).2 in
        ok = true
        /\ (reply = listFailed \/ reply = commentsFailed \/ reply = mergeFailed)
        /\ ir = types.mkIntentResponse "error" ∅
        /\ (m' = m0 \/ m' = (GetLastPRs (tResolve clk) sid m0).2)
        /\ sessions m' = sessions m
        /\ usernameBySession m' = usernameBySession m
        /\ forall t sid',
             tMerge clk <= t -> tResolve clk <= t ->
             (GetPendingIntent t sid' m').1 = (GetPendingIntent t sid' m).1
             /\ (GetLastPRs t sid' m').1 = (GetLastPRs t sid' m).1).
Proof.
  intros token listFailed commentsFailed mergeFailed. split; [|split; [|split]].
  - intros ty m e Htok Herr. unfold handleListPRs. fold token.
    rewrite decide_False by done. by rewrite Herr.
  - intros args repo n m e Hrepo Hn Htok Herr. unfold commentsResolved. fold token.
    rewrite decide_False by tauto. rewrite decide_False by done.
    rewrite decide_False by lia. rewrite decide_False by done. by rewrite Herr.
  - intros args repo n method m e Hrepo Hn Htok Herr. unfold mergeResolved. fold token.
    rewrite decide_False by tauto. rewrite decide_False by done.
    rewrite decide_False by lia. rewrite decide_False by done. by rewrite Herr.
  - intros ci m reply ir ok m' Hrun Hty m0.
    rewrite handleWithArgs_route in Hrun. fold m0 in Hrun.
    destruct (route_error _ _ _ _ _ _ _ _ _ _ _ _ Hrun Hty) as (-> & Hm' & Hir & Hreply).
    split; [done|]. split; [exact Hreply|]. split; [exact Hir|]. split; [done|].
    assert (Hp : pendingBySession m' = pendingBySession m0).
    { destruct Hm' as [-> | ->]; [done|apply pendingBySession_GetLastPRs]. }
    assert (Hs : sessions m' = sessions m /\ usernameBySession m' = usernameBySession m).
    { assert (sessions m0 = sessions m /\ usernameBySession m0 = usernameBySession m) as [<- <-].
      { subst m0. unfold GetPendingIntent.
        destruct (pendingBySession m !! sid); [|done]. by case_decide. }
      destruct Hm' as [-> | ->]; [done|]. unfold GetLastPRs.
      destruct (lastPRsBySession m0 !! sid); [|done]. by case_decide. }
    destruct Hs as [Hs1 Hs2]. split; [done|]. split; [done|].
    intros t sid' Ht1 Ht2. split.
    + rewrite (GetPendingIntent_ext _ _ _ _ Hp). subst m0.
      by apply GetPendingIntent_after_purge.
    + transitivity (GetLastPRs t sid' m0).1.
      * destruct Hm' as [-> | ->]; [done|]. by apply GetLastPRs_after_purge.
      * apply GetLastPRs_ext. apply lastPRsBySession_GetPending.
Qed.

(** ** A repo given by name *)

Lemma autoResolve_given clk sid repo n m :
  repo <> "" -> autoResolve clk sid repo n m = (Proceed repo, m).
Proof. intros H. unfold autoResolve. by rewrite decide_False by tauto. Qed.

Lemma append_slash_nonempty owner repo : owner +:+ "/" +:+ repo <> "".
Proof. by destruct owner. Qed.

Lemma expandRepo_cases s sid repo m :
  let r := TrimSpace repo in
  let user := TrimSpace (GetUsername sid m) in
  let dflt := TrimSpace (config.DefaultRepoOwner (cfg s)) in
  expandRepo s sid repo m
  = if decide (r <> "" /\ Contains r "/" = false) then
      if decide (user <> "") then user +:+ "/" +:+ r
      else if decide (dflt <> "") then dflt +:+ "/" +:+ r else r
    else r.
Proof.
  intros r user dflt. unfold expandRepo. fold r user dflt.
  case_decide; [|done].
  destruct (decide (user = "")) as [Hu|Hu].
  - rewrite (decide_False (P := user <> "")) by tauto. done.
  - by rewrite !(decide_True (P := user <> "")) by done.
Qed.

Lemma expandRepo_given s sid repo m :
  TrimSpace repo <> "" ->
  expandRepo s sid repo m <> "" /\ TrimSpace (expandRepo s sid repo m) <> "".
Proof.
  intros H. rewrite expandRepo_cases. simpl.
  repeat case_decide;
    auto using append_slash_nonempty, TrimSpace_slash; by rewrite ?TrimSpace_idemp.
Qed.

Lemma commentsResolved_trim s clk sid args repo n m :
  commentsResolved s clk sid args (TrimSpace repo) n m
  = commentsResolved s clk sid args repo n m.
Proof. unfold commentsResolved. by rewrite TrimSpace_idemp. Qed.

Lemma lastPRsBySession_commentsResolved s clk sid args repo n m :
  lastPRsBySession (commentsResolved s clk sid args repo n m).2 = lastPRsBySession m.
Proof.
  unfold commentsResolved, clarifyAndPersist. repeat case_decide; try done.
  by destruct (gh.GetPRComments _ _ _ _).
Qed.

Lemma lastPRsBySession_mergeResolved s clk sid args repo n method m :
  lastPRsBySession (mergeResolved s clk sid args repo n method m).2 = lastPRsBySession m.
Proof.
  unfold mergeResolved, clarifyAndPersist. repeat case_decide; try done.
  by destruct (gh.MergePR _ _ _ _ _).
Qed.

(** C10, as the code has it.  For "get_pr_comments" and "merge_pr", let
    the repo argument be non-blank, that is, non-empty once surrounding
    white space is trimmed.  If the trimmed name has no slash it becomes
    owner/name, the owner being the trimmed username of the session or,
    when that is blank, the trimmed default owner of the configuration;
    with neither, and when the name has a slash, the trimmed name is
    used as it is.  In all these cases the turn goes straight to the
    tail of its branch with that repo: the cache of listed pull
    requests is neither read nor purged. *)
Theorem named_repo_is_expanded_not_resolved (ToLower : string -> string) (s : Server)
    (clk : Clock) (sid : string) (ci : gh.ClassifiedIntent) (m : MemoryStore)
    (ty : string) (args : gmap string any) :
  let m0 := (GetPendingIntent (tMerge clk) sid m).2 in
  let name := TrimSpace (assertString (args !! "repo")) in
  let user := TrimSpace (GetUsername sid m0) in
  let dflt := TrimSpace (config.DefaultRepoOwner (cfg s)) in
  let repo := expandRepo s sid (assertString (args !! "repo")) m0 in
  ty = "get_pr_comments" \/ ty = "merge_pr" ->
  mergePending ci (GetPendingIntent (tMerge clk) sid m).1 = (ty, args) ->
  name <> "" ->
  (Contains name "/" = false ->
     repo = if decide (user <> "") then user +:+ "/" +:+ name
            else if decide (dflt <> "") then dflt +:+ "/" +:+ name else name)
  /\ (Contains name "/" = true -> repo = name)
  /\ handleWithArgs ToLower s clk sid ci m
     = (if decide (ty = "get_pr_comments")
        then commentsResolved s clk sid args repo (argPRNumber args) m0
        else mergeResolved s clk sid args repo (argPRNumber args)
               (mergeMethod ToLower args) m0)
  /\ lastPRsBySession (handleWithArgs ToLower s clk sid ci m).2 = lastPRsBySession m.
Proof.
  intros m0 name user dflt repo Hty Hmerge Hname.
  assert (Hrun : handleWithArgs ToLower s clk sid ci m
     = (if decide (ty = "get_pr_comments")
        then commentsResolved s clk sid args repo (argPRNumber args) m0
        else mergeResolved s clk sid args repo (argPRNumber args)
               (mergeMethod ToLower args) m0)).
  { rewrite handleWithArgs_route, Hmerge. simpl. fold m0.
    destruct (expandRepo_given s sid (assertString (args !! "repo")) m0 Hname) as [H1 H2].
    destruct Hty as [-> | ->].
    - rewrite route_comments. unfold handleGetPRComments. fold repo.
      rewrite autoResolve_given by exact H2. rewrite decide_True by reflexivity.
      apply commentsResolved_trim.
    - rewrite route_merge. unfold handleMergePR. fold repo.
      rewrite autoResolve_given by exact H1. rewrite decide_False by done.
      done. }
  split; [|split; [|split]].
  - intros Hno. subst repo. rewrite expandRepo_cases. simpl. fold name user dflt.
    by rewrite decide_True by done.
  - intros Hyes. subst repo. rewrite expandRepo_cases. simpl. fold name.
    rewrite decide_False; [done|]. intros [_ ?]. congruence.
  - done.
  - rewrite Hrun. case_decide.
    + rewrite lastPRsBySession_commentsResolved. apply lastPRsBySession_GetPending.
    + rewrite lastPRsBySession_mergeResolved. apply lastPRsBySession_GetPending.
Qed.

(** ** Concrete runs *)

Lemma ttl_read_after_write_witness :
  let m := SetPendingIntent 1000 "s" "merge_pr" ∅ example.listed in
  let c := SetLastPRs 1000 "s" example.cache example.asked in
  GetPendingIntent 420000001000 "s" m = (Some ("merge_pr", ∅), m)
  /\ (GetPendingIntent 420000001001 "s" m).1 = None
  /\ pendingBySession (GetPendingIntent 420000001001 "s" m).2 !! "s" = None
  /\ GetLastPRs 420000001000 "s" c = (Some example.cache, c)
  /\ (GetLastPRs 420000001001 "s" c).1 = None
  /\ lastPRsBySession (GetLastPRs 420000001001 "s" c).2 !! "s" = None.
Proof.
  intros m c.
  destruct (ttl_read_after_write example.listed "s" "merge_pr" ∅ [] 1000 420000001000)
    as (Hin & _).
  destruct (ttl_read_after_write example.listed "s" "merge_pr" ∅ [] 1000 420000001001)
    as (_ & Hout & _).
  destruct (ttl_read_after_write example.asked "s" "" ∅ example.cache 1000 420000001000)
    as (_ & _ & _ & Hcin & _).
  destruct (ttl_read_after_write example.asked "s" "" ∅ example.cache 1000 420000001001)
    as (_ & _ & _ & _ & Hcout & _).
  split; [apply Hin; lia|].
  split; [apply Hout; lia|].
  split; [apply Hout; lia|].
  split; [apply Hcin; lia|].
  split; apply Hcout; lia.
Defined.

Lemma pending_merge_new_values_win_witness :
  let ci := example.verdict "clarify" (<["repo" := AString "acme/widgets"]> ∅) in
  let pArgs : gmap string any := <["pr_number" := AFloat64 (inject_Z 123)]> ∅ in
  (mergePending ci (Some ("get_pr_comments", pArgs))).1 = "get_pr_comments"
  /\ (mergePending ci (Some ("get_pr_comments", pArgs))).2 !! "pr_number"
     = Some (AFloat64 (inject_Z 123))
  /\ (mergePending ci (Some ("get_pr_comments", pArgs))).2 !! "repo"
     = Some (AString "acme/widgets").
Proof.
  intros ci pArgs.
  destruct (pending_merge_new_values_win example.asciiToLower
              (example.serverWith "tok" example.quiet) example.clk "s" ci example.asked
              "get_pr_comments" pArgs) as (H1 & H2 & _).
  - apply pendingTyped_Set; [discriminate|apply pendingTyped_New].
  - reflexivity.
  - split; [by apply H1|]. specialize (H2 (H1 eq_refl)). split.
    + rewrite (proj1 (H2 "pr_number")) by reflexivity. reflexivity.
    + apply (proj2 (H2 "repo")). reflexivity.
Defined.


Lemma listing_clears_pending_and_caches_nonempty_witness :
  lastPRsBySession
    (handleWithArgs example.asciiToLower (example.serverWith "tok" example.quiet)
       example.clk "s" (example.verdict "list_prs_mine" ∅) example.listed).2
  = lastPRsBySession example.listed.
Proof.
  refine (proj1 (proj2 (proj2 (listing_clears_pending_and_caches_nonempty
            example.asciiToLower (example.serverWith "tok" example.quiet) example.clk "s"
            (example.verdict "list_prs_mine" ∅) example.listed [] _ _ _))) eq_refl).
  - left. reflexivity.
  - vm_compute. discriminate.
  - reflexivity.
Defined.

(** C3 as stated fails: after a listing that succeeds
    with no pull request, the cache still holds the three references of
    the listing before it. *)
Lemma empty_listing_leaves_stale_cache :
  let r := handleWithArgs example.asciiToLower (example.serverWith "tok" example.quiet)
             example.clk "s" (example.verdict "list_prs_mine" ∅) example.listed in
  r.1 = ("You have no open pull requests on GitHub.",
         Some (types.mkIntentResponse "show_prs"
                 (<["prs" := types.PVPRs []]>
                    (<["kind" := types.PVAny (AString "mine")]> ∅))),
         true)
  /\ (GetLastPRs 4 "s" r.2).1 = Some example.cache
  /\ (GetLastPRs 4 "s" r.2).1 <> Some [].
Proof. vm_compute. repeat split; discriminate. Qed.

Lemma provider_failure_keeps_state_witness :
  handleListPRs (example.serverWith "tok" example.failing) example.clk "s" "list_prs_mine"
    example.asked
  = (("I couldn't fetch your pull requests from GitHub right now. This might be a temporary issue with GitHub's API. Try again in a moment?",
      Some (types.mkIntentResponse "error" ∅), true), example.asked)
  /\ handleWithArgs example.asciiToLower (example.serverWith "tok" example.failing)
       example.clk "s"
       (example.verdict "get_pr_comments" (<["repo" := AString "acme/widgets"]> ∅))
       example.asked
     = (("I couldn't retrieve the PR comments from GitHub. This could be a temporary GitHub API issue or the PR might not exist. Mind trying again?",
         Some (types.mkIntentResponse "error" ∅), true), example.asked).
Proof.
  pose proof (provider_failure_keeps_state example.asciiToLower
                (example.serverWith "tok" example.failing) example.clk "s")
    as (Hl & _ & _ & H).
  split.
  - refine (Hl "list_prs_mine" example.asked "502" _ eq_refl). vm_compute. discriminate.
  - destruct (handleWithArgs example.asciiToLower (example.serverWith "tok" example.failing)
                example.clk "s"
                (example.verdict "get_pr_comments" (<["repo" := AString "acme/widgets"]> ∅))
                example.asked) as [[[reply ir] ok] m'] eqn:E.
    assert (Hr : (reply, ir) =
      ("I couldn't retrieve the PR comments from GitHub. This could be a temporary GitHub API issue or the PR might not exist. Mind trying again?",
        Some (types.mkIntentResponse "error" ∅))).
    { apply (f_equal (fun x => x.1.1)) in E. vm_compute in E. symmetry. exact E. }
    injection Hr as -> ->.
    destruct (H _ _ _ _ _ _ E eq_refl) as (-> & _ & _ & [-> | ->] & _); reflexivity.
Defined.

Lemma oauth_state_single_use_witness :
  let m := SetOAuthState "s" "st4te" (NewMemoryStore 40) in
  let r := handleGitHubCallback (example.serverWith "" example.quiet) "st4te" "c0de" m in
  r.1 = Redirect "https://app?githubAuth=success" "s"
  /\ (handleGitHubCallback (example.serverWith "" example.quiet) "st4te" "c0de" r.2).1
     = WriteError 400 "invalid oauth state".
Proof.
  intros m r.
  pose proof (oauth_state_single_use (example.serverWith "" example.quiet)
                "st4te" "c0de" m) as (_ & _ & _ & H).
  destruct (H "https://app?githubAuth=success" "s" r.2 eq_refl) as (_ & _ & _ & Hreplay).
  split; [reflexivity|].
  destruct (Hreplay (example.serverWith "" example.quiet) "c0de") as [msg Hmsg].
  reflexivity.
Defined.

Lemma named_repo_is_expanded_not_resolved_witness :
  let m := SetUsername "s" " octo " example.listed in
  let ci := example.verdict "merge_pr"
              (<["repo" := AString " widgets"]> (<["pr_number" := AInt 7]> ∅)) in
  expandRepo (example.serverWith "tok" example.quiet) "s" " widgets" m = "octo/widgets"
  /\ (handleWithArgs example.asciiToLower (example.serverWith "tok" example.quiet)
        example.clk "s" ci m).1.1.1
     = "Successfully merged GitHub pull request octo/widgets#7 using merge method.".
Proof.
  intros m ci.
  destruct (named_repo_is_expanded_not_resolved example.asciiToLower
              (example.serverWith "tok" example.quiet) example.clk "s" ci m "merge_pr"
              (<["repo" := AString " widgets"]> (<["pr_number" := AInt 7]> ∅)))
    as (H1 & _ & H3 & _).
  - right. reflexivity.
  - reflexivity.
  - vm_compute. discriminate.
  - split.
    + etransitivity; [apply H1; reflexivity|]. reflexivity.
    + rewrite H3. reflexivity.
Defined.

(** C10 as stated fails: a repo argument made of one space
    is not empty and has no slash, yet it is not expanded with the
    session's username, and the turn takes the repository of PR 7 from
    the cache of listed pull requests. *)
Lemma blank_repo_is_resolved_from_cache :
  let m := SetUsername "s" "octo" (SetLastPRs 0 "s" [mkPRRef 7 "A/x"] (NewMemoryStore 40)) in
  let ci := example.verdict "get_pr_comments"
              (<["repo" := AString " "]> (<["pr_number" := AInt 7]> ∅)) in
  " " <> ""
  /\ Contains " " "/" = false
  /\ GetUsername "s" m = "octo"
  /\ expandRepo (example.serverWith "tok" example.quiet) "s" " " m = ""
  /\ expandRepo (example.serverWith "tok" example.quiet) "s" " " m <> "octo/ "
  /\ (handleWithArgs example.asciiToLower (example.serverWith "tok" example.quiet)
        example.clk "s" ci m).1.1.1
     = "I found 0 comment(s) on GitHub pull request A/x#7.".
Proof. vm_compute. repeat split; discriminate. Qed.

(** * Further properties of the code *)

Import specx serverx.

(** ** More on the history *)

Lemma trimLocked_unbounded sid m : maxMessages m <= 0 -> trimLocked sid m = m.
Proof. intros H. unfold trimLocked. by rewrite decide_True. Qed.

Lemma Get_Append_unbounded sid sid' msg m :
  maxMessages m <= 0 ->
  Get sid' (Append sid msg m)
  = if decide (sid' = sid) then Get sid m ++ [msg] else Get sid' m.
Proof.
  intros H. unfold Append. rewrite trimLocked_unbounded by done.
  unfold Get; simpl. destruct (decide (sid' = sid)) as [->|Hne].
  - by rewrite lookup_insert_eq.
  - by rewrite lookup_insert_ne.
Qed.

(** X1. A store built with a bound of zero or less never trims: after
    any run of [Append] calls, [Get] returns every message appended to
    the session, in order. *)
Theorem history_unbounded_without_bound (bound : Z) (ops : list (string * Message))
    (sid : string) :
  bound <= 0 ->
  Get sid (appendAll ops (NewMemoryStore bound)) = messagesOf sid ops.
Proof.
  intros Hb. induction ops as [|[sid' msg] ops IH] using rev_ind; [done|].
  unfold appendAll, messagesOf in *. rewrite foldl_app, filter_app, fmap_app. simpl.
  fold (appendAll ops (NewMemoryStore bound)).
  rewrite Get_Append_unbounded by (rewrite maxMessages_appendAll; simpl; lia).
  rewrite filter_cons, filter_nil. simpl.
  destruct (decide (sid = sid')) as [->|Hne].
  - rewrite decide_True by done. simpl. unfold appendAll. by rewrite IH.
  - rewrite decide_False by done. simpl. rewrite app_nil_r. apply IH.
Qed.

Lemma history_unbounded_without_bound_witness :
  Get "s" (appendAll [("s", mkMessage "user" "a"); ("s", mkMessage "assistant" "b");
                      ("s", mkMessage "user" "c")] (NewMemoryStore 0))
  = [mkMessage "user" "a"; mkMessage "assistant" "b"; mkMessage "user" "c"].
Proof.
  rewrite history_unbounded_without_bound by lia. reflexivity.
Defined.

Lemma Get_Set sid sid' msgs m :
  0 < maxMessages m ->
  Get sid' (Set_ sid msgs m)
  = if decide (sid' = sid) then lastN (Z.to_nat (maxMessages m)) msgs else Get sid' m.
Proof.
  intros Hb. unfold Set_. rewrite Get_trimLocked by done. simpl.
  destruct (decide (sid' = sid)) as [->|Hne].
  - unfold Get at 1. simpl. by rewrite lookup_insert_eq.
  - unfold Get. simpl. by rewrite lookup_insert_ne.
Qed.

Lemma maxMessages_Set sid msgs m : maxMessages (Set_ sid msgs m) = maxMessages m.
Proof. unfold Set_. by rewrite maxMessages_trimLocked. Qed.

Lemma maxMessages_runHist ops m : maxMessages (runHist ops m) = maxMessages m.
Proof.
  revert m. induction ops as [|op ops IH]; intros m; [done|].
  unfold runHist in *. simpl. rewrite IH.
  destruct op; [apply maxMessages_Append|apply maxMessages_Set].
Qed.

(** X2. With a positive bound, [Set] replaces a session's history by
    the last [bound] of the given messages and leaves the other
    sessions alone; and however [Append] and [Set] calls are mixed, no
    session ever holds more than [bound] messages. *)
Theorem history_never_exceeds_bound (bound : Z) (ops : list histOp) (sid : string) :
  0 < bound ->
  (length (Get sid (runHist ops (NewMemoryStore bound))) <= Z.to_nat bound)%nat
  /\ (forall m msgs, maxMessages m = bound ->
        Get sid (Set_ sid msgs m) = lastN (Z.to_nat bound) msgs
        /\ forall sid', sid' <> sid -> Get sid' (Set_ sid msgs m) = Get sid' m).
Proof.
  intros Hb. split.
  - induction ops as [|op ops IH] using rev_ind.
    { unfold runHist, Get. simpl. rewrite lookup_empty. simpl. lia. }
    unfold runHist in *. rewrite foldl_app. simpl.
    fold (runHist ops (NewMemoryStore bound)).
    destruct op as [sid' msg|sid' msgs].
    + rewrite Get_Append by (rewrite maxMessages_runHist; simpl; lia).
      rewrite maxMessages_runHist. simpl. case_decide; [|done].
      rewrite lastN_length. lia.
    + rewrite Get_Set by (rewrite maxMessages_runHist; simpl; lia).
      rewrite maxMessages_runHist. simpl. case_decide; [|done].
      rewrite lastN_length. lia.
  - intros m msgs Hm. split.
    + rewrite Get_Set by lia. rewrite decide_True by done. by rewrite Hm.
    + intros sid' Hne. rewrite Get_Set by lia. by rewrite decide_False.
Qed.

Lemma history_never_exceeds_bound_witness :
  (length (Get "s" (runHist [OpSet "s" [mkMessage "user" "a"; mkMessage "user" "b";
                                        mkMessage "user" "c"];
                             OpAppend "s" (mkMessage "user" "d")]
                      (NewMemoryStore 2))) <= 2)%nat.
Proof.
  refine (proj1 (history_never_exceeds_bound 2 _ "s" _)). lia.
Defined.

(** ** Expiry *)

(** X3. Expiry is monotone and reads are idempotent: a pending intent
    or a cache that a read at [t] does not return is not returned by
    any read at [t] or later, and reading twice at the same instant
    gives what reading once gives. *)
Theorem expired_entries_stay_expired (t t' : Z) (sid : string) (m : MemoryStore) :
  t <= t' ->
  ((GetPendingIntent t sid m).1 = None -> (GetPendingIntent t' sid m).1 = None)
  /\ ((GetLastPRs t sid m).1 = None -> (GetLastPRs t' sid m).1 = None)
  /\ GetPendingIntent t sid (GetPendingIntent t sid m).2 = GetPendingIntent t sid m
  /\ GetLastPRs t sid (GetLastPRs t sid m).2 = GetLastPRs t sid m.
Proof.
  intros Ht. split; [|split; [|split]].
  - unfold GetPendingIntent. destruct (pendingBySession m !! sid) as [p|]; [|done].
    destruct (decide (Since t (PUpdatedAt p) > pendingTTL)) as [H|H]; [|done].
    intros _. by rewrite decide_True by (unfold Since in *; lia).
  - unfold GetLastPRs. destruct (lastPRsBySession m !! sid) as [p|]; [|done].
    destruct (decide (Since t (PRsUpdatedAt p) > lastPRsTTL)) as [H|H]; [|done].
    intros _. by rewrite decide_True by (unfold Since in *; lia).
  - unfold GetPendingIntent. destruct (pendingBySession m !! sid) as [p|] eqn:Hp.
    + destruct (decide (Since t (PUpdatedAt p) > pendingTTL)) as [H|H]; simpl.
      * by rewrite lookup_delete_eq.
      * rewrite Hp. by rewrite decide_False.
    + simpl. by rewrite Hp.
  - unfold GetLastPRs. destruct (lastPRsBySession m !! sid) as [p|] eqn:Hp.
    + destruct (decide (Since t (PRsUpdatedAt p) > lastPRsTTL)) as [H|H]; simpl.
      * by rewrite lookup_delete_eq.
      * rewrite Hp. by rewrite decide_False.
    + simpl. by rewrite Hp.
Qed.

Lemma expired_entries_stay_expired_witness :
  (GetPendingIntent (pendingTTL + 9) "s"
     (SetPendingIntent 0 "s" "merge_pr" ∅ (NewMemoryStore 40))).1 = None.
Proof.
  refine (proj1 (expired_entries_stay_expired (pendingTTL + 1) (pendingTTL + 9) "s" _ _) _).
  - lia.
  - reflexivity.
Defined.

(** ** Sessions do not interfere *)

Lemma sameOthers_refl sid m : sameOthers sid m m.
Proof. by split. Qed.

Lemma sameOthers_trans sid m1 m2 m3 :
  sameOthers sid m1 m2 -> sameOthers sid m2 m3 -> sameOthers sid m1 m3.
Proof.
  intros [Hb1 H1] [Hb2 H2]. split; [congruence|].
  intros sid' Hne. destruct (H1 sid' Hne) as (?&?&?&?&?), (H2 sid' Hne) as (?&?&?&?&?).
  repeat split; congruence.
Qed.

Lemma sameOthers_trimLocked sid m : sameOthers sid m (trimLocked sid m).
Proof.
  unfold trimLocked. repeat case_decide; try apply sameOthers_refl.
  split; [done|]. intros sid' Hne. simpl. by rewrite lookup_insert_ne.
Qed.

Lemma sameOthers_Append sid msg m : sameOthers sid m (Append sid msg m).
Proof.
  unfold Append. eapply sameOthers_trans; [|apply sameOthers_trimLocked].
  split; [done|]. intros sid' Hne. simpl. by rewrite lookup_insert_ne.
Qed.

Lemma sameOthers_Set sid msgs m : sameOthers sid m (Set_ sid msgs m).
Proof.
  unfold Set_. eapply sameOthers_trans; [|apply sameOthers_trimLocked].
  split; [done|]. intros sid' Hne. simpl. by rewrite lookup_insert_ne.
Qed.

Lemma sameOthers_SetUsername sid u m : sameOthers sid m (SetUsername sid u m).
Proof. split; [done|]. intros sid' Hne. simpl. by rewrite lookup_insert_ne. Qed.

Lemma sameOthers_ClearUsername sid m : sameOthers sid m (ClearUsername sid m).
Proof. split; [done|]. intros sid' Hne. simpl. by rewrite lookup_delete_ne. Qed.

Lemma sameOthers_SetOAuthState sid st m : sameOthers sid m (SetOAuthState sid st m).
Proof. split; [done|]. intros sid' Hne. simpl. by rewrite lookup_insert_ne. Qed.

Lemma sameOthers_ClearOAuthState sid m : sameOthers sid m (ClearOAuthState sid m).
Proof.
  unfold ClearOAuthState. destruct (oauthStateBySession m !! sid); [|apply sameOthers_refl].
  split; [done|]. intros sid' Hne. simpl. by rewrite lookup_delete_ne.
Qed.

Lemma sameOthers_SetPendingIntent t sid ty args m :
  sameOthers sid m (SetPendingIntent t sid ty args m).
Proof. split; [done|]. intros sid' Hne. simpl. by rewrite lookup_insert_ne. Qed.

Lemma sameOthers_ClearPendingIntent sid m : sameOthers sid m (ClearPendingIntent sid m).
Proof. split; [done|]. intros sid' Hne. simpl. by rewrite lookup_delete_ne. Qed.

Lemma sameOthers_GetPendingIntent t sid m : sameOthers sid m (GetPendingIntent t sid m).2.
Proof.
  unfold GetPendingIntent. destruct (pendingBySession m !! sid); [|apply sameOthers_refl].
  case_decide; [|apply sameOthers_refl].
  split; [done|]. intros sid' Hne. simpl. by rewrite lookup_delete_ne.
Qed.

Lemma sameOthers_SetLastPRs t sid prs m : sameOthers sid m (SetLastPRs t sid prs m).
Proof. split; [done|]. intros sid' Hne. simpl. by rewrite lookup_insert_ne. Qed.

Lemma sameOthers_GetLastPRs t sid m : sameOthers sid m (GetLastPRs t sid m).2.
Proof.
  unfold GetLastPRs. destruct (lastPRsBySession m !! sid); [|apply sameOthers_refl].
  case_decide; [|apply sameOthers_refl].
  split; [done|]. intros sid' Hne. simpl. by rewrite lookup_delete_ne.
Qed.

(** What another session reads from two stores that agree on it. *)
Lemma sameOthers_reads sid sid' t m m' :
  sameOthers sid m m' -> sid' <> sid -> reads sid' t m' = reads sid' t m.
Proof.
  intros [_ H] Hne. destruct (H sid' Hne) as (H1 & H2 & H3 & H4 & H5).
  unfold reads, Get, GetUsername, GetOAuthState, GetPendingIntent, GetLastPRs.
  rewrite H1, H2, H3, H4, H5. f_equal; [f_equal|].
  - destruct (pendingBySession m !! sid'); [|done]. by case_decide.
  - destruct (lastPRsBySession m !! sid'); [|done]. by case_decide.
Qed.

Create HintDb others discriminated.
#[local] Hint Resolve sameOthers_refl sameOthers_Append sameOthers_Set
  sameOthers_SetUsername sameOthers_ClearUsername sameOthers_SetOAuthState
  sameOthers_ClearOAuthState sameOthers_SetPendingIntent sameOthers_ClearPendingIntent
  sameOthers_GetPendingIntent sameOthers_SetLastPRs sameOthers_GetLastPRs : others.

(** X4. Every write of the store that is addressed to one session, and
    every read that may purge, leaves what the other sessions read as it
    was: their history, username, handshake token, pending intent and
    cache of listed pull requests. *)
Theorem store_writes_touch_one_session (sid sid' : string) (t t0 : Z) (m : MemoryStore) :
  sid' <> sid ->
  (forall msg, reads sid' t (Append sid msg m) = reads sid' t m)
  /\ (forall msgs, reads sid' t (Set_ sid msgs m) = reads sid' t m)
  /\ (forall u, reads sid' t (SetUsername sid u m) = reads sid' t m)
  /\ reads sid' t (ClearUsername sid m) = reads sid' t m
  /\ (forall st, reads sid' t (SetOAuthState sid st m) = reads sid' t m)
  /\ reads sid' t (ClearOAuthState sid m) = reads sid' t m
  /\ (forall ty args, reads sid' t (SetPendingIntent t0 sid ty args m) = reads sid' t m)
  /\ reads sid' t (ClearPendingIntent sid m) = reads sid' t m
  /\ reads sid' t (GetPendingIntent t0 sid m).2 = reads sid' t m
  /\ (forall prs, reads sid' t (SetLastPRs t0 sid prs m) = reads sid' t m)
  /\ reads sid' t (GetLastPRs t0 sid m).2 = reads sid' t m.
Proof.
  intros Hne. repeat split; intros; apply (sameOthers_reads sid); auto with others.
Qed.

Lemma store_writes_touch_one_session_witness :
  reads "t" 5 (ClearPendingIntent "s" (SetPendingIntent 0 "t" "merge_pr" ∅ (NewMemoryStore 40)))
  = reads "t" 5 (SetPendingIntent 0 "t" "merge_pr" ∅ (NewMemoryStore 40)).
Proof.
  refine (proj1 (proj2 (proj2 (proj2 (proj2 (proj2 (proj2 (proj2
            (store_writes_touch_one_session "s" "t" 5 0 _ _))))))))).
  discriminate.
Defined.

Lemma sameOthers_autoResolve clk sid repo n m :
  sameOthers sid m (autoResolve clk sid repo n m).2.
Proof.
  unfold autoResolve. case_decide; [|auto with others].
  pose proof (sameOthers_GetLastPRs (tResolve clk) sid m) as Hg.
  destruct (GetLastPRs (tResolve clk) sid m) as [[refs|] m1]; [|done].
  by destruct (matchRefs refs n) as [|? [|? ?]].
Qed.

Section OthersHandlers.

Variable ToLower : string -> string.
Variable s : Server.

Lemma sameOthers_handleListPRs clk sid ty m :
  sameOthers sid m (handleListPRs s clk sid ty m).2.
Proof.
  unfold handleListPRs. case_decide; [auto with others|].
  destruct (if decide (ty = "list_prs_mine") then _ else _); [|auto with others].
  simpl. case_decide; eauto using sameOthers_trans with others.
Qed.

Lemma sameOthers_commentsResolved clk sid args repo n m :
  sameOthers sid m (commentsResolved s clk sid args repo n m).2.
Proof.
  unfold commentsResolved, clarifyAndPersist.
  repeat case_decide; simpl; auto with others.
  destruct (gh.GetPRComments _ _ _ _); simpl; auto with others.
Qed.

Lemma sameOthers_mergeResolved clk sid args repo n method m :
  sameOthers sid m (mergeResolved s clk sid args repo n method m).2.
Proof.
  unfold mergeResolved, clarifyAndPersist.
  repeat case_decide; simpl; auto with others.
  destruct (gh.MergePR _ _ _ _ _); simpl; auto with others.
Qed.

Lemma sameOthers_handleGetPRComments clk sid args m :
  sameOthers sid m (handleGetPRComments s clk sid args m).2.
Proof.
  unfold handleGetPRComments.
  match goal with |- context [autoResolve ?c ?i ?r ?n ?m] =>
    pose proof (sameOthers_autoResolve c i r n m) as Ha;
    destruct (autoResolve c i r n m) as [[repo|matches] m1] end; simpl in Ha.
  - eauto using sameOthers_trans, sameOthers_commentsResolved.
  - unfold clarifyAndPersist; simpl. eauto using sameOthers_trans with others.
Qed.

Lemma sameOthers_handleMergePR clk sid args m :
  sameOthers sid m (handleMergePR ToLower s clk sid args m).2.
Proof.
  unfold handleMergePR.
  match goal with |- context [autoResolve ?c ?i ?r ?n ?m] =>
    pose proof (sameOthers_autoResolve c i r n m) as Ha;
    destruct (autoResolve c i r n m) as [[repo|matches] m1] end; simpl in Ha.
  - eauto using sameOthers_trans, sameOthers_mergeResolved.
  - unfold clarifyAndPersist; simpl. eauto using sameOthers_trans with others.
Qed.

Lemma sameOthers_handleClarify clk sid ci args m :
  sameOthers sid m (handleClarify clk sid ci args m).2.
Proof.
  unfold handleClarify. simpl.
  pose proof (sameOthers_GetPendingIntent (tResolve clk) sid m) as Hg.
  destruct (GetPendingIntent (tResolve clk) sid m) as [[[pType pArgs]|] m1]; [|done].
  case_decide; eauto using sameOthers_trans with others.
Qed.

Lemma sameOthers_route clk sid ci ty args m :
  sameOthers sid m (route ToLower s clk sid ci ty args m).2.
Proof.
  unfold route.
  repeat case_decide;
    auto using sameOthers_handleListPRs, sameOthers_handleGetPRComments,
      sameOthers_handleMergePR, sameOthers_handleClarify with others.
Qed.

Lemma sameOthers_handleWithArgs clk sid ci m :
  sameOthers sid m (handleWithArgs ToLower s clk sid ci m).2.
Proof.
  rewrite handleWithArgs_route.
  eauto using sameOthers_trans, sameOthers_route with others.
Qed.

Lemma sameOthers_handleChat clk body sid m :
  sameOthers sid m (handleChat ToLower s clk body sid m).2.
Proof.
  unfold handleChat. destruct body as [req|]; [|auto with others].
  case_decide; [auto with others|].
  set (m1 := if decide (types.System req ≠ "") then _ else m).
  assert (H1 : sameOthers sid m m1) by (subst m1; case_decide; auto with others).
  assert (H2 : sameOthers sid m (Append sid (mkMessage "user" (types.Message req)) m1))
    by eauto using sameOthers_trans with others.
  case_decide; [done|].
  unfold classifyAndHandle.
  destruct (intent s) as [cl|]; [|done].
  destruct (gh.ClassifyChat cl _) as [[ci|]|]; simpl; try done.
  match goal with |- context [handleWithArgs ?f ?s ?c ?i ?ci ?m] =>
    pose proof (sameOthers_handleWithArgs c i ci m) as H';
    destruct (handleWithArgs f s c i ci m) as [[[reply it] [|]] m2] end;
    simpl in *; eauto using sameOthers_trans with others.
Qed.

End OthersHandlers.

(** X5. A chat turn of one session, whatever the request, the verdict of
    the classifier and the outcome of the provider, leaves every other
    session's history, username, handshake token, pending intent and
    cache of listed pull requests as they were. *)
Theorem chat_turn_touches_one_session (ToLower : string -> string) (s : Server)
    (clk : Clock) (body : option types.ChatRequest) (ci : gh.ClassifiedIntent)
    (sid sid' : string) (t : Z) (m : MemoryStore) :
  sid' <> sid ->
  reads sid' t (handleChat ToLower s clk body sid m).2 = reads sid' t m
  /\ reads sid' t (handleWithArgs ToLower s clk sid ci m).2 = reads sid' t m.
Proof.
  intros Hne. split; apply (sameOthers_reads sid); try done.
  - apply sameOthers_handleChat.
  - apply sameOthers_handleWithArgs.
Qed.

Lemma chat_turn_touches_one_session_witness :
  reads "t" 5
    (handleWithArgs example.asciiToLower (example.serverWith "tok" example.quiet)
       example.clk "s" (example.verdict "list_prs_mine" ∅)
       (SetLastPRs 0 "t" example.cache (NewMemoryStore 40))).2
  = reads "t" 5 (SetLastPRs 0 "t" example.cache (NewMemoryStore 40)).
Proof.
  refine (proj2 (chat_turn_touches_one_session example.asciiToLower
            (example.serverWith "tok" example.quiet) example.clk None
            (example.verdict "list_prs_mine" ∅) "s" "t" 5 _ _)).
  discriminate.
Defined.

(** ** More on the handshake *)

(** X6. When a session starts the handshake twice, the first state
    token is superseded: it still resolves to the session in the
    reverse map, which is never pruned of it, but the session no longer
    holds it, and a callback that presents it is rejected with status
    400 and changes nothing, even after the second handshake has
    completed and cleared the link. *)
Theorem superseded_state_token_is_rejected (s : Server) (sid st1 st2 code : string)
    (m : MemoryStore) :
  st1 <> st2 ->
  sid <> "" ->
  let m2 := SetOAuthState sid st2 (SetOAuthState sid st1 m) in
  GetOAuthState sid m2 = st2
  /\ GetSessionByOAuthState st1 m2 = sid
  /\ GetSessionByOAuthState st1 (ClearOAuthState sid m2) = sid
  /\ (exists msg, handleGitHubCallback s st1 code m2 = (WriteError 400 msg, m2))
  /\ (exists msg, handleGitHubCallback s st1 code (ClearOAuthState sid m2)
                  = (WriteError 400 msg, ClearOAuthState sid m2)).
Proof.
  intros Hne Hsid m2.
  assert (H1 : GetOAuthState sid m2 = st2).
  { unfold GetOAuthState; simpl. by rewrite lookup_insert_eq. }
  assert (H2 : GetSessionByOAuthState st1 m2 = sid).
  { unfold GetSessionByOAuthState; simpl.
    rewrite lookup_insert_ne by done. by rewrite lookup_insert_eq. }
  assert (H3 : GetSessionByOAuthState st1 (ClearOAuthState sid m2) = sid).
  { unfold ClearOAuthState, GetSessionByOAuthState; simpl.
    rewrite lookup_insert_eq. simpl. rewrite lookup_delete_ne by done.
    rewrite lookup_insert_ne by done. by rewrite lookup_insert_eq. }
  assert (H4 : GetOAuthState sid (ClearOAuthState sid m2) = "").
  { unfold ClearOAuthState, GetOAuthState; simpl.
    rewrite lookup_insert_eq. simpl. by rewrite lookup_delete_eq. }
  repeat split; try done.
  - unfold handleGitHubCallback. destruct (oauthCfg s); [|eauto].
    case_decide; [eauto|]. rewrite H2, H1. rewrite decide_True by auto. eauto.
  - unfold handleGitHubCallback. destruct (oauthCfg s); [|eauto].
    case_decide as Hsc; [eauto|]. rewrite H3, H4.
    rewrite decide_True; [eauto|]. right. intros <-. apply Hsc. auto.
Qed.

Lemma superseded_state_token_is_rejected_witness :
  (handleGitHubCallback (example.serverWith "" example.quiet) "one" "c0de"
     (SetOAuthState "s" "two" (SetOAuthState "s" "one" (NewMemoryStore 40)))).1
  = WriteError 400 "invalid oauth state".
Proof.
  destruct (superseded_state_token_is_rejected (example.serverWith "" example.quiet)
              "s" "one" "two" "c0de" (NewMemoryStore 40)) as (_ & _ & _ & [msg H] & _);
    [discriminate..|].
  reflexivity.
Defined.

(** X7. The handshake completes: after [handleGitHubAuth] has issued a
    state token for a session, a callback that presents this token
    with a code, on a server where the exchange, the username lookup
    and the persistence of the token succeed, redirects to the front
    end, records the username for the session and removes both
    directions of the link; no other session is touched. *)
Theorem handshake_completes (s : Server) (sid state code : string) (m m1 : MemoryStore)
    (oCfg : OAuthConfig) (tok : Token) :
  handleGitHubAuth s sid state m = (AuthStarted state sid, m1) ->
  sid <> "" -> state <> "" -> code <> "" ->
  oauthCfg s = Some oCfg ->
  Exchange oCfg code = Ok tok ->
  fetchGitHubUsername s (TAccessToken tok) <> "" ->
  persistToken s sid tok (fetchGitHubUsername s (TAccessToken tok)) = None ->
  let r := handleGitHubCallback s state code m1 in
  r.1 = Redirect (config.FrontendURL (cfg s) +:+ "?githubAuth=success") sid
  /\ GetUsername sid r.2 = fetchGitHubUsername s (TAccessToken tok)
  /\ GetOAuthState sid r.2 = ""
  /\ GetSessionByOAuthState state r.2 = ""
  /\ sameOthers sid m r.2.
Proof.
  intros Hauth Hsid Hst Hcode Hcfg Hex Huser Hsave r.
  unfold handleGitHubAuth in Hauth. rewrite Hcfg in Hauth.
  case_decide; [done|]. injection Hauth as <-.
  assert (Hrun : r = (Redirect (config.FrontendURL (cfg s) +:+ "?githubAuth=success") sid,
                      ClearOAuthState sid
                        (SetUsername sid (fetchGitHubUsername s (TAccessToken tok))
                           (SetOAuthState sid state m)))).
  { subst r. unfold handleGitHubCallback. rewrite Hcfg.
    rewrite decide_False by tauto.
    assert (Hs : GetSessionByOAuthState state (SetOAuthState sid state m) = sid).
    { unfold GetSessionByOAuthState; simpl. by rewrite lookup_insert_eq. }
    assert (Ho : GetOAuthState sid (SetOAuthState sid state m) = state).
    { unfold GetOAuthState; simpl. by rewrite lookup_insert_eq. }
    rewrite Hs, Ho. rewrite decide_False by tauto. rewrite Hex.
    rewrite decide_False by done.
    unfold persistToken in Hsave. destruct (databaseStore s) as [ds|]; by rewrite Hsave. }
  rewrite Hrun. simpl.
  assert (Hlink : oauthStateBySession
                    (SetUsername sid (fetchGitHubUsername s (TAccessToken tok))
                       (SetOAuthState sid state m)) !! sid = Some state).
  { simpl. by rewrite lookup_insert_eq. }
  destruct (ClearOAuthState_linked _ _ _ Hlink) as [Hc1 Hc2].
  split; [done|]. split.
  { unfold ClearOAuthState. rewrite Hlink. unfold GetUsername; simpl.
    by rewrite lookup_insert_eq. }
  split; [done|]. split; [done|].
  eauto using sameOthers_trans, sameOthers_SetOAuthState, sameOthers_SetUsername,
    sameOthers_ClearOAuthState.
Qed.

Lemma handshake_completes_witness :
  GetUsername "s"
    (handleGitHubCallback (example.serverWith "" example.quiet) "st4te" "c0de"
       (handleGitHubAuth (example.serverWith "" example.quiet) "s" "st4te"
          (NewMemoryStore 40)).2).2
  = "octo".
Proof.
  refine (proj1 (proj2 (handshake_completes (example.serverWith "" example.quiet)
            "s" "st4te" "c0de" (NewMemoryStore 40) _
            (mkOAuthConfig "id" "secret" (fun _ => Ok (mkToken "gho_1" "bearer")))
            (mkToken "gho_1" "bearer") _ _ _ _ _ _ _ _)));
    try discriminate; reflexivity.
Defined.

(** ** The credential of a session *)

Lemma getGitHubToken_priority (s : Server) (sid : string) :
  getGitHubToken s sid
  = (if decide (TrimSpace (databaseToken s sid) <> "") then databaseToken s sid
     else if decide (TrimSpace (fileToken s) <> "") then fileToken s
     else config.GitHubToken (cfg s)).
Proof.
  unfold getGitHubToken, databaseToken, fileToken.
  assert (Hblank : TrimSpace "" = "") by reflexivity.
  destruct (databaseStore s) as [ds|].
  - destruct (GetGitHubAuth ds sid) as [[auth|]|].
    + case_decide; [done|].
      destruct (Read (tokenStore s)) as [[t|]|]; rewrite ?Hblank;
        repeat case_decide; done.
    + rewrite Hblank. rewrite (decide_False (P := "" <> "")) by auto.
      destruct (Read (tokenStore s)) as [[t|]|]; rewrite ?Hblank;
        repeat case_decide; done.
    + rewrite Hblank. rewrite (decide_False (P := "" <> "")) by auto.
      destruct (Read (tokenStore s)) as [[t|]|]; rewrite ?Hblank;
        repeat case_decide; done.
  - rewrite Hblank. rewrite (decide_False (P := "" <> "")) by auto.
    destruct (Read (tokenStore s)) as [[t|]|]; rewrite ?Hblank;
      repeat case_decide; done.
Qed.

(** X8. [getGitHubToken] takes the first non-blank token among the
    session's database row, the token file and the configuration, in
    this order; so the session is without a credential exactly when
    all three are blank. *)
Theorem token_sources_in_priority_order (s : Server) (sid : string) :
  getGitHubToken s sid
  = (if decide (TrimSpace (databaseToken s sid) <> "") then databaseToken s sid
     else if decide (TrimSpace (fileToken s) <> "") then fileToken s
     else config.GitHubToken (cfg s))
  /\ (TrimSpace (getGitHubToken s sid) = ""
      <-> TrimSpace (databaseToken s sid) = ""
          /\ TrimSpace (fileToken s) = ""
          /\ TrimSpace (config.GitHubToken (cfg s)) = "").
Proof.
  split; [apply getGitHubToken_priority|]. rewrite getGitHubToken_priority.
  destruct (decide (TrimSpace (databaseToken s sid) <> "")) as [Hd|Hd].
  - split; [done|]. intros (? & _). done.
  - destruct (decide (TrimSpace (fileToken s) <> "")) as [Hf|Hf].
    + split; [done|]. intros (_ & ? & _). done.
    + split; [|tauto]. intros Hc. repeat split; try done.
      * by destruct (decide (TrimSpace (databaseToken s sid) = "")).
      * by destruct (decide (TrimSpace (fileToken s) = "")).
Qed.

(** X9. The REST handlers take their token from the configuration and
    the token file only, the configuration first: the database row of
    a session counts for the chat turn and not for the REST endpoints,
    and where the configuration and the file hold different tokens,
    the two paths use different ones. *)
Theorem rest_token_ignores_database (s : Server) (sid : string) :
  (forall ds, rest.restToken (mkServer (cfg s) (oauthCfg s) (tokenStore s) ds (mcp s)
                           (intent s) (fetchGitHubUsername s))
              = rest.restToken s)
  /\ (TrimSpace (config.GitHubToken (cfg s)) = "" -> TrimSpace (fileToken s) = "" ->
      TrimSpace (databaseToken s sid) <> "" ->
      TrimSpace (rest.restToken s) = "" /\ TrimSpace (getGitHubToken s sid) <> "")
  /\ (TrimSpace (config.GitHubToken (cfg s)) <> "" -> TrimSpace (fileToken s) <> "" ->
      databaseStore s = None ->
      rest.restToken s = config.GitHubToken (cfg s) /\ getGitHubToken s sid = fileToken s).
Proof.
  split; [done|]. split.
  - intros Hc Hf Hd. split.
    + unfold rest.restToken. rewrite decide_True by done. unfold fileToken in Hf.
      by destruct (Read (tokenStore s)) as [[t|]|].
    + rewrite getGitHubToken_priority.
      by rewrite decide_True.
  - intros Hc Hf Hd. split.
    + unfold rest.restToken. by rewrite decide_False.
    + rewrite getGitHubToken_priority.
      assert (Hdb : databaseToken s sid = "") by (unfold databaseToken; by rewrite Hd).
      rewrite Hdb. destruct (decide (TrimSpace "" <> "")) as [H|_]; [by destruct H|].
      by rewrite decide_True.
Qed.

(** ** What the engine stores as pending *)

Lemma pendingKnown_New n : pendingKnown (NewMemoryStore n).
Proof. intros sid p. simpl. by rewrite lookup_empty. Qed.

Lemma pendingKnown_same m m' :
  pendingBySession m' = pendingBySession m -> pendingKnown m -> pendingKnown m'.
Proof. unfold pendingKnown. by intros ->. Qed.

Lemma pendingKnown_delete sid m :
  pendingKnown m -> pendingKnown (setPendingMap (delete sid (pendingBySession m)) m).
Proof. intros Hm sid' p. simpl. intros [_ H]%lookup_delete_Some. eauto. Qed.

Lemma pendingKnown_Clear sid m : pendingKnown m -> pendingKnown (ClearPendingIntent sid m).
Proof. apply pendingKnown_delete. Qed.

Lemma pendingKnown_Set t sid typ args m :
  typ = "get_pr_comments" \/ typ = "merge_pr" ->
  pendingKnown m -> pendingKnown (SetPendingIntent t sid typ args m).
Proof.
  intros Ht Hm sid' p. simpl. intros [[_ <-]|[_ H]]%lookup_insert_Some; [done|eauto].
Qed.

Lemma pendingKnown_GetPending t sid m :
  pendingKnown m -> pendingKnown (GetPendingIntent t sid m).2.
Proof.
  intros Hm. unfold GetPendingIntent.
  destruct (pendingBySession m !! sid); [|done].
  case_decide; [|done]. by apply pendingKnown_delete.
Qed.

Lemma GetPendingIntent_known t sid m pType pArgs :
  pendingKnown m -> (GetPendingIntent t sid m).1 = Some (pType, pArgs) ->
  pType = "get_pr_comments" \/ pType = "merge_pr".
Proof.
  intros Hm. unfold GetPendingIntent.
  destruct (pendingBySession m !! sid) as [p|] eqn:Hp; [|done].
  case_decide; [done|]. simpl. intros [= <- <-]. eauto.
Qed.

Lemma pendingKnown_GetLastPRs t sid m :
  pendingKnown m -> pendingKnown (GetLastPRs t sid m).2.
Proof. apply pendingKnown_same, pendingBySession_GetLastPRs. Qed.

Lemma pendingKnown_SetLastPRs t sid prs m :
  pendingKnown m -> pendingKnown (SetLastPRs t sid prs m).
Proof. by apply pendingKnown_same. Qed.

Lemma pendingKnown_Append sid msg m : pendingKnown m -> pendingKnown (Append sid msg m).
Proof. apply pendingKnown_same, pendingBySession_Append. Qed.

Create HintDb known discriminated.
#[local] Hint Resolve pendingKnown_Clear pendingKnown_Set pendingKnown_GetPending
  pendingKnown_GetLastPRs pendingKnown_SetLastPRs pendingKnown_Append : known.

Lemma pendingKnown_autoResolve clk sid repo n m :
  pendingKnown m -> pendingKnown (autoResolve clk sid repo n m).2.
Proof.
  intros Hm. unfold autoResolve. case_decide; [|done].
  pose proof (pendingKnown_GetLastPRs (tResolve clk) sid m Hm) as Hg.
  destruct (GetLastPRs (tResolve clk) sid m) as [[refs|] m1]; [|done].
  by destruct (matchRefs refs n) as [|? [|? ?]].
Qed.

Section KnownHandlers.

Variable ToLower : string -> string.
Variable s : Server.

Lemma pendingKnown_handleListPRs clk sid ty m :
  pendingKnown m -> pendingKnown (handleListPRs s clk sid ty m).2.
Proof.
  intros Hm. unfold handleListPRs. case_decide; [done|].
  destruct (if decide (ty = "list_prs_mine") then _ else _); [|done].
  simpl. case_decide; auto with known.
Qed.

Lemma pendingKnown_commentsResolved clk sid args repo n m :
  pendingKnown m -> pendingKnown (commentsResolved s clk sid args repo n m).2.
Proof.
  intros Hm. unfold commentsResolved, clarifyAndPersist.
  repeat case_decide; simpl; auto with known.
  destruct (gh.GetPRComments _ _ _ _); simpl; auto with known.
Qed.

Lemma pendingKnown_mergeResolved clk sid args repo n method m :
  pendingKnown m -> pendingKnown (mergeResolved s clk sid args repo n method m).2.
Proof.
  intros Hm. unfold mergeResolved, clarifyAndPersist.
  repeat case_decide; simpl; auto with known.
  destruct (gh.MergePR _ _ _ _ _); simpl; auto with known.
Qed.

Lemma pendingKnown_handleGetPRComments clk sid args m :
  pendingKnown m -> pendingKnown (handleGetPRComments s clk sid args m).2.
Proof.
  intros Hm. unfold handleGetPRComments.
  match goal with |- context [autoResolve ?c ?i ?r ?n ?m] =>
    pose proof (pendingKnown_autoResolve c i r n m Hm) as Ha;
    destruct (autoResolve c i r n m) as [[repo|matches] m1] end; simpl in Ha.
  - by apply pendingKnown_commentsResolved.
  - unfold clarifyAndPersist; simpl. auto with known.
Qed.

Lemma pendingKnown_handleMergePR clk sid args m :
  pendingKnown m -> pendingKnown (server.handleMergePR ToLower s clk sid args m).2.
Proof.
  intros Hm. unfold server.handleMergePR.
  match goal with |- context [autoResolve ?c ?i ?r ?n ?m] =>
    pose proof (pendingKnown_autoResolve c i r n m Hm) as Ha;
    destruct (autoResolve c i r n m) as [[repo|matches] m1] end; simpl in Ha.
  - by apply pendingKnown_mergeResolved.
  - unfold clarifyAndPersist; simpl. auto with known.
Qed.

Lemma pendingKnown_handleClarify clk sid ci args m :
  pendingKnown m -> pendingKnown (handleClarify clk sid ci args m).2.
Proof.
  intros Hm. unfold handleClarify. simpl.
  pose proof (pendingKnown_GetPending (tResolve clk) sid m Hm) as Hg.
  pose proof (GetPendingIntent_known (tResolve clk) sid m) as Hk.
  destruct (GetPendingIntent (tResolve clk) sid m) as [[[pType pArgs]|] m1]; [|done].
  simpl in *. case_decide; [|done]. apply pendingKnown_Set; eauto.
Qed.

Lemma pendingKnown_route clk sid ci ty args m :
  pendingKnown m -> pendingKnown (route ToLower s clk sid ci ty args m).2.
Proof.
  intros Hm. unfold route.
  repeat case_decide;
    auto using pendingKnown_handleListPRs, pendingKnown_handleGetPRComments,
      pendingKnown_handleMergePR, pendingKnown_handleClarify with known.
  unfold handleNotImplemented; simpl. auto with known.
Qed.

Lemma pendingKnown_handleWithArgs clk sid ci m :
  pendingKnown m -> pendingKnown (handleWithArgs ToLower s clk sid ci m).2.
Proof.
  intros Hm. rewrite handleWithArgs_route. auto using pendingKnown_route with known.
Qed.

Lemma pendingKnown_handleChat clk body sid m :
  pendingKnown m -> pendingKnown (handleChat ToLower s clk body sid m).2.
Proof.
  intros Hm. unfold handleChat. destruct body as [req|]; [|done].
  case_decide; [done|].
  set (m1 := if decide (types.System req ≠ "") then _ else m).
  assert (pendingKnown m1) by (subst m1; case_decide; auto with known).
  case_decide; [simpl; auto with known|].
  unfold classifyAndHandle.
  destruct (intent s) as [cl|]; [|simpl; auto with known].
  destruct (gh.ClassifyChat cl _) as [[ci|]|]; simpl; auto with known.
  match goal with |- context [handleWithArgs ?f ?s ?c ?i ?ci ?m] =>
    pose proof (pendingKnown_handleWithArgs c i ci m) as H';
    destruct (handleWithArgs f s c i ci m) as [[[reply it] [|]] m2] end;
    simpl in *; auto with known.
Qed.

End KnownHandlers.

(** X10. Whatever chat requests a new store serves, for whatever
    sessions, servers and clocks, every pending intent it holds is of
    type "get_pr_comments" or "merge_pr": the engine never stores a
    listing, a clarification or an unknown request as pending. *)
Theorem engine_stores_only_two_pending_types (ToLower : string -> string)
    (turns : list turn) (bound : Z) (sid : string) (p : PendingIntent) :
  pendingBySession (runTurns ToLower turns (NewMemoryStore bound)) !! sid = Some p ->
  PType p = "get_pr_comments" \/ PType p = "merge_pr".
Proof.
  revert sid p. change (pendingKnown (runTurns ToLower turns (NewMemoryStore bound))).
  induction turns as [|t turns IH] using rev_ind; [apply pendingKnown_New|].
  unfold runTurns in *. rewrite foldl_app. simpl. by apply pendingKnown_handleChat.
Qed.

Lemma engine_stores_only_two_pending_types_witness :
  let ask := mkTurn (mkServer (config.mkConfig "tok" "" "") None
                       (mkFileTokenStore FileNotExist (fun _ => None)) None example.quiet
                       (Some (gh.mkIntentClassifier
                                (fun _ => Ok (Some (example.verdict "merge_pr" ∅)))))
                       (fun _ => ""))
               example.clk (Some (types.mkChatRequest "" "merge it" "")) "s" in
  PType <$> pendingBySession (runTurns example.asciiToLower [ask] (NewMemoryStore 40)) !! "s"
  = Some "merge_pr".
Proof.
  intros ask.
  destruct (pendingBySession (runTurns example.asciiToLower [ask] (NewMemoryStore 40)) !! "s")
    as [p|] eqn:E; [|by vm_compute in E].
  pose proof (engine_stores_only_two_pending_types _ _ _ _ _ E) as Hp.
  assert (Hq : PType p = "merge_pr").
  { vm_compute in E. by injection E as <-. }
  simpl. by rewrite Hq.
Defined.

(** X11. In a store of the engine, a "clarify" verdict for a session
    without an unexpired pending intent ends the turn with the structured
    type "clarify" and leaves the session without a pending intent:
    clarifications alone never start one.  With an unexpired pending
    intent the verdict is routed as that intent, so the clarify case of
    the switch is only ever reached without one. *)
Theorem clarify_never_starts_a_pending_intent (ToLower : string -> string) (s : Server)
    (clk : Clock) (sid : string) (ci : gh.ClassifiedIntent) (m : MemoryStore) :
  pendingKnown m ->
  gh.Type_ ci = "clarify" ->
  let m0 := (GetPendingIntent (tMerge clk) sid m).2 in
  match (GetPendingIntent (tMerge clk) sid m).1 with
  | Some (pType, pArgs) =>
      (pType = "get_pr_comments" \/ pType = "merge_pr")
      /\ handleWithArgs ToLower s clk sid ci m
         = route ToLower s clk sid ci pType (fillMissing pArgs (gh.Args ci)) m0
  | None =>
      (exists msg payload,
          handleWithArgs ToLower s clk sid ci m
          = ((msg, Some (types.mkIntentResponse "clarify" payload), true), m0))
      /\ pendingBySession m0 !! sid = None
  end.
Proof.
  intros Hm Hty m0.
  destruct (GetPendingIntent (tMerge clk) sid m).1 as [[pType pArgs]|] eqn:Hp.
  - pose proof (GetPendingIntent_known _ _ _ _ _ Hm Hp) as Hk. split; [done|].
    rewrite handleWithArgs_route, Hp.
    rewrite mergePending_some by (destruct Hk as [-> | ->]; discriminate).
    by rewrite decide_True by auto.
  - assert (Hnone : pendingBySession m0 !! sid = None).
    { subst m0. revert Hp. unfold GetPendingIntent.
      destruct (pendingBySession m !! sid) as [p|] eqn:E; [|done].
      case_decide; [|done]. intros _. simpl. apply lookup_delete_eq. }
    split; [|done].
    rewrite handleWithArgs_route, Hp. fold m0. simpl. rewrite Hty.
    unfold route. rewrite decide_False by (intros [?|?]; discriminate).
    rewrite decide_False by discriminate. rewrite decide_False by discriminate.
    rewrite decide_True by done.
    unfold handleClarify. unfold GetPendingIntent. rewrite Hnone. eauto.
Qed.

Lemma clarify_never_starts_a_pending_intent_witness :
  let s := example.serverWith "tok" example.quiet in
  let ci := example.verdict "clarify" (<["repo" := AString "acme/widgets"]> ∅) in
  let late := mkClock 420000000001 420000000002 420000000003 in
  let m := SetPendingIntent 0 "s" "merge_pr" (<["repo" := AString "acme/widgets"]> ∅)
             (SetPendingIntent 420000000000 "t" "get_pr_comments" ∅
                (NewMemoryStore 40)) in
  let m0 := (GetPendingIntent 420000000001 "s" m).2 in
  (("get_pr_comments" = "get_pr_comments" \/ "get_pr_comments" = "merge_pr")
   /\ handleWithArgs example.asciiToLower s example.clk "s" ci example.asked
      = route example.asciiToLower s example.clk "s" ci "get_pr_comments"
          (fillMissing (<["pr_number" := AFloat64 (inject_Z 123)]> ∅) (gh.Args ci))
          example.asked)
  /\ ((exists msg payload,
         handleWithArgs example.asciiToLower s late "s" ci m
         = ((msg, Some (types.mkIntentResponse "clarify" payload), true), m0))
      /\ pendingBySession m0 !! "s" = None)
  /\ pendingBySession m !! "s"
     = Some (mkPendingIntent "merge_pr" (<["repo" := AString "acme/widgets"]> ∅) 0)
  /\ pendingBySession m0 !! "t" = Some (mkPendingIntent "get_pr_comments" ∅ 420000000000).
Proof.
  intros s ci late m m0.
  assert (Hasked : pendingKnown example.asked).
  { apply pendingKnown_Set; [by left|apply pendingKnown_New]. }
  assert (Hm : pendingKnown m).
  { apply pendingKnown_Set; [by right|].
    apply pendingKnown_Set; [by left|apply pendingKnown_New]. }
  split; [|split; [|split]].
  - exact (clarify_never_starts_a_pending_intent example.asciiToLower s example.clk "s"
             ci example.asked Hasked eq_refl).
  - exact (clarify_never_starts_a_pending_intent example.asciiToLower s late "s"
             ci m Hm eq_refl).
  - reflexivity.
  - reflexivity.
Defined.

(** ** Asking for what is missing *)

Lemma GetPendingIntent_written t0 t sid ty args m :
  Since t t0 <= pendingTTL ->
  GetPendingIntent t sid (SetPendingIntent t0 sid ty args m)
  = (Some (ty, args), SetPendingIntent t0 sid ty args m).
Proof.
  intros H. unfold GetPendingIntent, SetPendingIntent; simpl.
  rewrite lookup_insert_eq; simpl. by rewrite decide_False by lia.
Qed.

Lemma autoResolve_no_number clk sid repo n m :
  n <= 0 -> autoResolve clk sid repo n m = (Proceed repo, m).
Proof. intros H. unfold autoResolve. by rewrite decide_False by lia. Qed.

(** X12. For "get_pr_comments" and "merge_pr": when the repo is given
    and the PR number is missing, the turn asks "Which PR number in
    <repo>?"; when both are missing it asks for both; in either case it
    stores the intent with all the arguments it has, stamped with the
    time of the write, so that a read within the next seven minutes
    returns them, and it does not read the cache of listed pull
    requests. *)
Theorem missing_number_is_asked_for (ToLower : string -> string) (s : Server)
    (clk : Clock) (sid : string) (ci : gh.ClassifiedIntent) (m : MemoryStore)
    (ty : string) (args : gmap string any) :
  let m0 := (GetPendingIntent (tMerge clk) sid m).2 in
  let name := TrimSpace (assertString (args !! "repo")) in
  let repo := expandRepo s sid (assertString (args !! "repo")) m0 in
  let r := handleWithArgs ToLower s clk sid ci m in
  ty = "get_pr_comments" \/ ty = "merge_pr" ->
  mergePending ci (GetPendingIntent (tMerge clk) sid m).1 = (ty, args) ->
  argPRNumber args <= 0 ->
  r.2 = SetPendingIntent (tPersist clk) sid ty args m0
  /\ (forall t, Since t (tPersist clk) <= pendingTTL ->
        (GetPendingIntent t sid r.2).1 = Some (ty, args))
  /\ lastPRsBySession r.2 = lastPRsBySession m
  /\ r.1.1.2 = Some (types.mkIntentResponse "clarify" ∅)
  /\ (name <> "" ->
      r.1.1.1 = "Which PR number in "
                +:+ (if decide (ty = "get_pr_comments") then TrimSpace repo else repo)
                +:+ "?")
  /\ (name = "" ->
      r.1.1.1 = if decide (ty = "get_pr_comments")
                then "Which repository and PR number should I look at?"
                else "Which repo and PR should I merge?").
Proof.
  intros m0 name repo r Hty Hmerge Hn.
  assert (Hrun : r = if decide (ty = "get_pr_comments")
                     then commentsResolved s clk sid args (TrimSpace repo)
                            (argPRNumber args) m0
                     else mergeResolved s clk sid args repo (argPRNumber args)
                            (mergeMethod ToLower args) m0).
  { subst r. rewrite handleWithArgs_route, Hmerge. simpl. fold m0.
    destruct Hty as [-> | ->].
    - rewrite route_comments. unfold handleGetPRComments. fold repo.
      rewrite autoResolve_no_number by done. by rewrite decide_True by reflexivity.
    - rewrite route_merge. unfold server.handleMergePR. fold repo.
      rewrite autoResolve_no_number by done. by rewrite decide_False by done. }
  assert (Hblank : name = "" -> repo = "").
  { intros H. subst repo. by apply expandRepo_blank. }
  assert (Hgiven : name <> "" -> repo <> "" /\ TrimSpace repo <> "").
  { intros H. by apply expandRepo_given. }
  assert (Hstore : r.2 = SetPendingIntent (tPersist clk) sid ty args m0
                   /\ r.1.1.2 = Some (types.mkIntentResponse "clarify" ∅)
                   /\ (name <> "" ->
                       r.1.1.1 = "Which PR number in "
                         +:+ (if decide (ty = "get_pr_comments")
                              then TrimSpace repo else repo) +:+ "?")
                   /\ (name = "" ->
                       r.1.1.1 = if decide (ty = "get_pr_comments")
                                 then "Which repository and PR number should I look at?"
                                 else "Which repo and PR should I merge?")).
  { rewrite Hrun. destruct (decide (name = "")) as [He|He].
    - specialize (Hblank He). rewrite Hblank. change (TrimSpace "") with "".
      destruct Hty as [-> | ->].
      + rewrite decide_True by done. unfold commentsResolved.
        change (TrimSpace "") with "". rewrite decide_True by auto.
        repeat split; try done; try (intros ?; done).
      + rewrite decide_False by done. unfold mergeResolved.
        rewrite decide_True by auto. repeat split; try done; try (intros ?; done).
    - destruct (Hgiven He) as [Hg1 Hg2].
      destruct Hty as [-> | ->].
      + rewrite decide_True by done. unfold commentsResolved.
        rewrite TrimSpace_idemp.
        rewrite decide_False by tauto. rewrite decide_False by done.
        rewrite decide_True by done. repeat split; try done; try (intros ?; done).
      + rewrite decide_False by done. unfold mergeResolved.
        rewrite decide_False by tauto. rewrite decide_False by done.
        rewrite decide_True by done. repeat split; try done; try (intros ?; done). }
  destruct Hstore as (H1 & H2 & H3 & H4).
  split; [done|]. split; [|split; [|split; [done|split; done]]].
  - intros t Ht. rewrite H1. by rewrite GetPendingIntent_written.
  - rewrite H1. simpl. apply lastPRsBySession_GetPending.
Qed.

Lemma missing_number_is_asked_for_witness :
  (handleWithArgs example.asciiToLower (example.serverWith "tok" example.quiet)
     example.clk "s"
     (example.verdict "merge_pr" (<["repo" := AString "acme/widgets"]> ∅))
     example.listed).1.1.1
  = "Which PR number in acme/widgets?".
Proof.
  pose proof (missing_number_is_asked_for example.asciiToLower
                (example.serverWith "tok" example.quiet) example.clk "s"
                (example.verdict "merge_pr" (<["repo" := AString "acme/widgets"]> ∅))
                example.listed "merge_pr" (<["repo" := AString "acme/widgets"]> ∅)) as H.
  destruct H as (_ & _ & _ & _ & H & _).
  - right. reflexivity.
  - reflexivity.
  - vm_compute. discriminate.
  - rewrite H by (vm_compute; discriminate). reflexivity.
Defined.

(** ** Two turns *)

Lemma argPRNumber_fill pArgs args :
  args !! "pr_number" = None ->
  argPRNumber (fillMissing pArgs args) = argPRNumber pArgs.
Proof. intros H. unfold argPRNumber. by rewrite fillMissing_lookup, H. Qed.

(** X13. Slot filling over two turns.  A session asked which repo a
    pull request is in holds the intent "get_pr_comments" with its
    number [n].  If, within seven minutes, the classifier returns a
    "clarify" or a "get_pr_comments" that carries a repo and no number,
    the turn fetches the comments of PR [n] in that repo, expanded as
    for a first request; when the provider answers, the reply counts
    the comments and the pending intent is gone. *)
Theorem repo_answer_completes_pending_request (ToLower : string -> string) (s : Server)
    (clk : Clock) (sid : string) (ci : gh.ClassifiedIntent) (m : MemoryStore)
    (t0 : Z) (pArgs : gmap string any) (r : string) (comments : list gh.Comment) :
  let m1 := SetPendingIntent t0 sid "get_pr_comments" pArgs m in
  let n := argPRNumber pArgs in
  let repo := TrimSpace (expandRepo s sid r m1) in
  let merged := fillMissing pArgs (gh.Args ci) in
  Since (tMerge clk) t0 <= pendingTTL ->
  n > 0 ->
  gh.Type_ ci = "clarify" \/ gh.Type_ ci = "get_pr_comments" ->
  gh.Args ci !! "repo" = Some (AString r) ->
  gh.Args ci !! "pr_number" = None ->
  TrimSpace r <> "" ->
  TrimSpace (getGitHubToken s sid) <> "" ->
  gh.GetPRComments (mcp s) (getGitHubToken s sid) repo n = Ok comments ->
  merged !! "repo" = Some (AString r)
  /\ merged !! "pr_number" = pArgs !! "pr_number"
  /\ handleWithArgs ToLower s clk sid ci m1
     = (("I found " +:+ fmt_d (Z.of_nat (length comments))
         +:+ " comment(s) on GitHub pull request " +:+ repo +:+ "#" +:+ fmt_d n +:+ ".",
         Some (types.mkIntentResponse "show_comments"
                 (<["repo" := types.PVAny (AString repo)]>
                    (<["prNumber" := types.PVAny (AInt n)]>
                       (<["comments" := types.PVComments comments]> ∅)))),
         true),
        ClearPendingIntent sid m).
Proof.
  intros m1 n repo merged Hfresh Hn Hty Hrepo Hnum Hr Htok Hok.
  assert (Hm1 : merged !! "repo" = Some (AString r)).
  { subst merged. by rewrite fillMissing_lookup, Hrepo. }
  assert (Hm2 : merged !! "pr_number" = pArgs !! "pr_number").
  { subst merged. by rewrite fillMissing_lookup, Hnum. }
  split; [done|]. split; [done|].
  rewrite handleWithArgs_route. subst m1. rewrite GetPendingIntent_written by done.
  cbn [fst snd]. rewrite mergePending_some by discriminate.
  rewrite decide_True by tauto. cbn [fst snd].
  rewrite route_comments. unfold handleGetPRComments. fold merged.
  rewrite Hm1. simpl. fold repo.
  assert (Hrepo' : repo <> "").
  { subst repo. by apply expandRepo_given. }
  rewrite autoResolve_given by done.
  unfold argPRNumber at 1. rewrite Hm2. fold (argPRNumber pArgs). fold n.
  unfold commentsResolved. subst repo. rewrite TrimSpace_idemp.
  rewrite decide_False by tauto. rewrite decide_False by done.
  rewrite decide_False by lia. rewrite decide_False by done.
  rewrite Hok. f_equal.
  unfold ClearPendingIntent, SetPendingIntent, setPendingMap; simpl.
  by rewrite delete_insert_eq.
Qed.

Lemma repo_answer_completes_pending_request_witness :
  (handleWithArgs example.asciiToLower (example.serverWith "tok" example.quiet)
     example.clk "s"
     (example.verdict "clarify" (<["repo" := AString "acme/widgets"]> ∅))
     example.asked).1.1.1
  = "I found 0 comment(s) on GitHub pull request acme/widgets#123.".
Proof.
  pose proof (repo_answer_completes_pending_request example.asciiToLower
                (example.serverWith "tok" example.quiet) example.clk "s"
                (example.verdict "clarify" (<["repo" := AString "acme/widgets"]> ∅))
                (NewMemoryStore 40) 0 (<["pr_number" := AFloat64 (inject_Z 123)]> ∅)
                "acme/widgets" []) as H.
  destruct H as (_ & _ & H).
  - vm_compute. discriminate.
  - reflexivity.
  - left. reflexivity.
  - reflexivity.
  - reflexivity.
  - vm_compute. discriminate.
  - vm_compute. discriminate.
  - reflexivity.
  - unfold example.asked. rewrite H. reflexivity.
Defined.

(** ** Completed actions *)

Section Completed.

Variable ToLower : string -> string.
Variable s : Server.

Lemma handleListPRs_done clk sid ty m reply ir ok m' :
  handleListPRs s clk sid ty m = ((reply, Some ir, ok), m') ->
  done_type (types.Type_ ir) -> ok = true /\ pendingBySession m' !! sid = None.
Proof.
  unfold handleListPRs, done_type. case_decide.
  - intros [= <- <- <- <-]. simpl. intros [?|[?|?]]; discriminate.
  - destruct (if decide (ty = "list_prs_mine") then _ else _).
    + intros [= <- <- <- <-] _. split; [done|]. simpl. apply lookup_delete_eq.
    + intros [= <- <- <- <-]. simpl. intros [?|[?|?]]; discriminate.
Qed.

Lemma commentsResolved_done clk sid args repo n m reply ir ok m' :
  commentsResolved s clk sid args repo n m = ((reply, Some ir, ok), m') ->
  done_type (types.Type_ ir) -> ok = true /\ pendingBySession m' !! sid = None.
Proof.
  unfold commentsResolved, clarifyAndPersist, done_type.
  repeat case_decide;
    try (intros [= <- <- <- <-]; simpl; intros [?|[?|?]]; discriminate).
  destruct (gh.GetPRComments _ _ _ _).
  - intros [= <- <- <- <-] _. split; [done|]. simpl. apply lookup_delete_eq.
  - intros [= <- <- <- <-]. simpl. intros [?|[?|?]]; discriminate.
Qed.

Lemma mergeResolved_done clk sid args repo n method m reply ir ok m' :
  mergeResolved s clk sid args repo n method m = ((reply, Some ir, ok), m') ->
  done_type (types.Type_ ir) -> ok = true /\ pendingBySession m' !! sid = None.
Proof.
  unfold mergeResolved, clarifyAndPersist, done_type.
  repeat case_decide;
    try (intros [= <- <- <- <-]; simpl; intros [?|[?|?]]; discriminate).
  destruct (gh.MergePR _ _ _ _ _).
  - intros [= <- <- <- <-]. simpl. intros [?|[?|?]]; discriminate.
  - intros [= <- <- <- <-] _. split; [done|]. simpl. apply lookup_delete_eq.
Qed.

Lemma route_done clk sid ci ty args m reply ir ok m' :
  route ToLower s clk sid ci ty args m = ((reply, Some ir, ok), m') ->
  done_type (types.Type_ ir) -> ok = true /\ pendingBySession m' !! sid = None.
Proof.
  unfold route. repeat case_decide.
  - apply handleListPRs_done.
  - unfold handleGetPRComments.
    match goal with |- context [autoResolve ?c ?i ?r ?n ?m] =>
      destruct (autoResolve c i r n m) as [[repo|matches] m1] end.
    + apply commentsResolved_done.
    + unfold done_type. intros [= <- <- <- <-]. simpl. intros [?|[?|?]]; discriminate.
  - unfold server.handleMergePR.
    match goal with |- context [autoResolve ?c ?i ?r ?n ?m] =>
      destruct (autoResolve c i r n m) as [[repo|matches] m1] end.
    + apply mergeResolved_done.
    + unfold done_type. intros [= <- <- <- <-]. simpl. intros [?|[?|?]]; discriminate.
  - unfold handleClarify, done_type. intros [= <- <- <- <-]. simpl.
    intros [?|[?|?]]; discriminate.
  - unfold done_type. intros [= <- <- <- <-]. simpl. intros [?|[?|?]]; discriminate.
  - discriminate.
Qed.

End Completed.

(** X14. A turn that completes an action, that is, answers with the
    structured type "show_prs", "show_comments" or "merged", leaves the
    session without a pending intent: the next turn starts afresh. *)
Theorem completed_action_clears_pending (ToLower : string -> string) (s : Server)
    (clk : Clock) (sid : string) (ci : gh.ClassifiedIntent) (m m' : MemoryStore)
    (reply : string) (ir : types.IntentResponse) (ok : bool) :
  handleWithArgs ToLower s clk sid ci m = ((reply, Some ir, ok), m') ->
  done_type (types.Type_ ir) ->
  ok = true
  /\ pendingBySession m' !! sid = None
  /\ forall t, (GetPendingIntent t sid m').1 = None.
Proof.
  intros Hrun Hty. rewrite handleWithArgs_route in Hrun.
  destruct (route_done _ _ _ _ _ _ _ _ _ _ _ _ Hrun Hty) as [-> Hnone].
  split; [done|]. split; [done|].
  intros t. unfold GetPendingIntent. by rewrite Hnone.
Qed.

Lemma completed_action_clears_pending_witness :
  pendingBySession
    (handleWithArgs example.asciiToLower (example.serverWith "tok" example.quiet)
       example.clk "s"
       (example.verdict "clarify" (<["repo" := AString "acme/widgets"]> ∅))
       example.asked).2 !! "s" = None.
Proof.
  destruct (handleWithArgs example.asciiToLower (example.serverWith "tok" example.quiet)
              example.clk "s"
              (example.verdict "clarify" (<["repo" := AString "acme/widgets"]> ∅))
              example.asked) as [[[reply ir] ok] m'] eqn:E.
  assert (Hir : types.Type_ <$> ir = Some "show_comments").
  { apply (f_equal (fun x => types.Type_ <$> x.1.1.2)) in E. vm_compute in E.
    symmetry. exact E. }
  destruct ir as [ir|]; [|discriminate]. simpl in Hir. injection Hir as Hir.
  refine (proj1 (proj2 (completed_action_clears_pending _ _ _ _ _ _ _ _ _ _ E _))).
  right. left. exact Hir.
Defined.

(** ** Turns that fail to classify *)

Lemma route_unsupported ToLower s clk sid ci ty args m :
  ty <> "list_prs_mine" -> ty <> "list_prs_review" -> ty <> "get_pr_comments" ->
  ty <> "merge_pr" -> ty <> "clarify" -> ty <> "not_implemented" -> ty <> "unknown" ->
  route ToLower s clk sid ci ty args m = (("", None, false), m).
Proof. intros. unfold route. repeat case_decide; try done; tauto. Qed.

(** X15. A turn that cannot be classified answers 500 and writes no
    assistant message: the history gains the user's utterance (and the
    system prompt, if any) and nothing else.  When there is no
    classifier, or it fails or returns no verdict, the pending intents
    and the caches are untouched; when its verdict has a type outside
    the seven the switch knows, [handleWithArgs] gives up with the store
    as the opening read left it. *)
Theorem unclassified_turn_answers_500 (ToLower : string -> string) (s : Server)
    (clk : Clock) (req : types.ChatRequest) (sid : string) (m : MemoryStore) :
  TrimSpace (types.Message req) <> "" ->
  TrimSpace (getGitHubToken s sid) <> "" ->
  let m1 := if decide (types.System req <> "")
            then Append sid (mkMessage "system" (types.System req)) m else m in
  let m2 := Append sid (mkMessage "user" (types.Message req)) m1 in
  let failed := WriteError 500
        "I'm having trouble understanding your request right now. Please try again." in
  (match intent s with
   | None => True
   | Some cl => forall ci, gh.ClassifyChat cl (convertMessages (Get sid m2)) <> Ok (Some ci)
   end ->
   handleChat ToLower s clk (Some req) sid m = (failed, m2)
   /\ pendingBySession m2 = pendingBySession m
   /\ lastPRsBySession m2 = lastPRsBySession m)
  /\ (forall cl ci,
        intent s = Some cl ->
        gh.ClassifyChat cl (convertMessages (Get sid m2)) = Ok (Some ci) ->
        ~ In (gh.Type_ ci) ["list_prs_mine"; "list_prs_review"; "get_pr_comments";
                            "merge_pr"; "clarify"; "not_implemented"; "unknown"] ->
        handleChat ToLower s clk (Some req) sid m
        = (failed, (GetPendingIntent (tMerge clk) sid m2).2)).
Proof.
  intros Hmsg Htok m1 m2 failed. split.
  - intros Hcl.
    assert (Hp : pendingBySession m2 = pendingBySession m
                 /\ lastPRsBySession m2 = lastPRsBySession m).
    { subst m2 m1. rewrite pendingBySession_Append, lastPRsBySession_Append.
      case_decide; [|done]. by rewrite pendingBySession_Append, lastPRsBySession_Append. }
    split; [|done].
    unfold handleChat. rewrite decide_False by done. fold m1 m2.
    rewrite decide_False by done. unfold classifyAndHandle.
    destruct (intent s) as [cl|]; [|done].
    destruct (gh.ClassifyChat cl (convertMessages (Get sid m2))) as [[ci|]|] eqn:E;
      [by destruct (Hcl ci)|done..].
  - intros cl ci Hi Hci Hty.
    unfold handleChat. rewrite decide_False by done. fold m1 m2.
    rewrite decide_False by done. unfold classifyAndHandle. rewrite Hi, Hci.
    rewrite handleWithArgs_route.
    assert (Hc : gh.Type_ ci <> "clarify") by (intros E; apply Hty; rewrite E; simpl; tauto).
    rewrite mergePending_type by done.
    rewrite route_unsupported; [done|..]; intros E; apply Hty; rewrite E; simpl; tauto.
Qed.

Lemma unclassified_turn_answers_500_witness :
  (handleChat example.asciiToLower (example.serverWith "tok" example.quiet) example.clk
     (Some (types.mkChatRequest "" "hello" "")) "s" example.asked).1
  = WriteError 500
      "I'm having trouble understanding your request right now. Please try again.".
Proof.
  destruct (unclassified_turn_answers_500 example.asciiToLower
              (example.serverWith "tok" example.quiet) example.clk
              (types.mkChatRequest "" "hello" "") "s" example.asked) as [H _].
  - vm_compute. discriminate.
  - vm_compute. discriminate.
  - destruct (H I) as [-> _]. reflexivity.
Defined.

(** ** Turns that are answered *)

Lemma last_lastN {A} n (l : list A) : (0 < n)%nat -> last (lastN n l) = last l.
Proof.
  intros Hn. unfold lastN.
  destruct (decide (length l = 0)%nat) as [H0|H0].
  - destruct l; [done|simpl in H0; lia].
  - rewrite !last_lookup. rewrite lookup_drop, length_drop. f_equal. lia.
Qed.

Lemma last_Get_Append sid msg m : last (Get sid (Append sid msg m)) = Some msg.
Proof.
  destruct (decide (maxMessages m <= 0)) as [Hb|Hb].
  - rewrite Get_Append_unbounded by done. rewrite decide_True by done.
    by rewrite last_snoc.
  - rewrite Get_Append by lia. rewrite decide_True by done.
    rewrite last_lastN by lia. by rewrite last_snoc.
Qed.

Lemma last_map {A B} (f : A -> B) (l : list A) : last (map f l) = f <$> last l.
Proof.
  induction l as [|a [|b l] IH]; [done..|]. exact IH.
Qed.

(** X16. An answered turn is recorded.  When the session has a
    credential and the classifier returns a verdict that
    [handleWithArgs] handles, the classifier was shown a transcript
    that ends with the user's utterance, the response carries the reply
    and the structured intent of [handleWithArgs], and the assistant's
    reply is the newest message of the session's history. *)
Theorem answered_turn_is_recorded (ToLower : string -> string) (s : Server) (clk : Clock)
    (req : types.ChatRequest) (sid : string) (m m3 : MemoryStore)
    (cl : gh.IntentClassifier) (ci : gh.ClassifiedIntent) (reply : string)
    (it : option types.IntentResponse) :
  let m1 := if decide (types.System req <> "")
            then Append sid (mkMessage "system" (types.System req)) m else m in
  let m2 := Append sid (mkMessage "user" (types.Message req)) m1 in
  TrimSpace (types.Message req) <> "" ->
  TrimSpace (getGitHubToken s sid) <> "" ->
  intent s = Some cl ->
  gh.ClassifyChat cl (convertMessages (Get sid m2)) = Ok (Some ci) ->
  handleWithArgs ToLower s clk sid ci m2 = ((reply, it, true), m3) ->
  last (convertMessages (Get sid m2)) = Some (gh.mkChatMessage "user" (types.Message req))
  /\ handleChat ToLower s clk (Some req) sid m
     = (WriteJSON (types.mkChatResponse sid reply "" it),
        Append sid (mkMessage "assistant" reply) m3)
  /\ last (Get sid (handleChat ToLower s clk (Some req) sid m).2)
     = Some (mkMessage "assistant" reply).
Proof.
  intros m1 m2 Hmsg Htok Hi Hci Hrun.
  assert (Hchat : handleChat ToLower s clk (Some req) sid m
                  = (WriteJSON (types.mkChatResponse sid reply "" it),
                     Append sid (mkMessage "assistant" reply) m3)).
  { unfold handleChat. rewrite decide_False by done. fold m1 m2.
    rewrite decide_False by done. unfold classifyAndHandle.
    by rewrite Hi, Hci, Hrun. }
  split; [|split; [done|]].
  - unfold convertMessages. rewrite last_map. subst m2.
    by rewrite last_Get_Append.
  - rewrite Hchat. simpl. apply last_Get_Append.
Qed.

Lemma answered_turn_is_recorded_witness :
  let srv := mkServer (config.mkConfig "tok" "" "") None
               (mkFileTokenStore FileNotExist (fun _ => None)) None example.quiet
               (Some (gh.mkIntentClassifier
                        (fun _ => Ok (Some (example.verdict "list_prs_mine" ∅)))))
               (fun _ => "") in
  last (Get "s" (handleChat example.asciiToLower srv example.clk
                   (Some (types.mkChatRequest "" "my prs" "")) "s" (NewMemoryStore 40)).2)
  = Some (mkMessage "assistant" "You have no open pull requests on GitHub.").
Proof.
  intros srv.
  refine (proj2 (proj2 (answered_turn_is_recorded example.asciiToLower srv example.clk
            (types.mkChatRequest "" "my prs" "") "s" (NewMemoryStore 40) _
            (gh.mkIntentClassifier (fun _ => Ok (Some (example.verdict "list_prs_mine" ∅))))
            (example.verdict "list_prs_mine" ∅)
            "You have no open pull requests on GitHub." _ _ _ _ _ _)));
    try (vm_compute; discriminate); reflexivity.
Defined.

(** ** The PR number of a verdict *)

Lemma int_of_float64_fits q :
  (0 <= q)%Q -> (q < inject_Z (2 ^ 63))%Q ->
  int_of_float64 q = Qnum q `div` Z.pos (Qden q).
Proof.
  destruct q as [a b]. unfold int_of_float64, Qle, Qlt. cbn [Qnum Qden inject_Z].
  intros Ha Hb. rewrite Z.quot_div_nonneg by lia.
  assert (0 <= a `div` Z.pos b) by (apply Z.div_pos; lia).
  assert (a `div` Z.pos b < 2 ^ 63) by (apply Z.div_lt_upper_bound; lia).
  by rewrite decide_True by lia.
Qed.

Lemma int_of_float64_pos q :
  (q < inject_Z (2 ^ 63))%Q -> int_of_float64 q > 0 <-> (1 <= q)%Q.
Proof.
  intros Hb. destruct (Qlt_le_dec q 0) as [Hneg|Hpos].
  - destruct q as [a b]. revert Hneg. unfold int_of_float64, Qle, Qlt.
    cbn [Qnum Qden inject_Z]. intros Ha.
    assert (Z.quot a (Z.pos b) <= 0) by (apply Z.quot_le_upper_bound; lia).
    case_decide; split; lia.
  - rewrite int_of_float64_fits by done.
    destruct q as [a b]. revert Hpos. unfold Qle. cbn [Qnum Qden]. intros Ha. split.
    + intros H. destruct (decide (a < Z.pos b)) as [Hlt|Hge]; [|lia].
      rewrite Z.div_small in H by lia. lia.
    + intros H. assert (0 < a `div` Z.pos b); [|lia].
      apply Z.div_str_pos; lia.
Qed.

Lemma int_of_float64_floor q :
  (0 <= q)%Q -> (q < inject_Z (2 ^ 63))%Q ->
  (inject_Z (int_of_float64 q) <= q)%Q /\ (q < inject_Z (int_of_float64 q + 1))%Q.
Proof.
  intros Ha Hb. rewrite int_of_float64_fits by done.
  destruct q as [a b]. revert Ha. unfold Qle, Qlt. cbn [Qnum Qden inject_Z]. intros Ha.
  pose proof (Z.mul_div_le a (Z.pos b) ltac:(lia)).
  pose proof (Z.mul_succ_div_gt a (Z.pos b) ltac:(lia)). lia.
Qed.

(** X17. The PR number of a verdict.  A JSON number below 2^63, the
    range in which the conversion to [int] is defined, counts as a PR
    number only from 1 on: it is truncated toward zero, so 7.9 is PR 7
    and 0.9 is no number at all; an [int], as the ambiguous branch
    stores it, is taken as it is; any other value, or none, gives 0,
    which the switch treats as missing. *)
Theorem pr_number_is_truncated (args : gmap string any) :
  (forall q, args !! "pr_number" = Some (AFloat64 q) ->
     (q < inject_Z (2 ^ 63))%Q ->
     (argPRNumber args > 0 <-> (1 <= q)%Q)
     /\ ((0 <= q)%Q ->
         (inject_Z (argPRNumber args) <= q)%Q /\ (q < inject_Z (argPRNumber args + 1))%Q))
  /\ (forall n, args !! "pr_number" = Some (AInt n) -> argPRNumber args = n)
  /\ ((forall q, args !! "pr_number" <> Some (AFloat64 q)) ->
      (forall n, args !! "pr_number" <> Some (AInt n)) ->
      argPRNumber args = 0).
Proof.
  unfold argPRNumber. split; [|split].
  - intros q -> Hb. split; [by apply int_of_float64_pos|].
    intros Ha. by apply int_of_float64_floor.
  - by intros n ->.
  - intros Hq Hn. destruct (args !! "pr_number") as [[]|]; try done.
    + by destruct (Hq q).
    + by destruct (Hn n).
Qed.

Lemma pr_number_is_truncated_witness :
  (inject_Z (argPRNumber (<["pr_number" := AFloat64 (79 # 10)]> ∅)) <= 79 # 10)%Q
  /\ (79 # 10 < inject_Z (argPRNumber (<["pr_number" := AFloat64 (79 # 10)]> ∅) + 1))%Q
  /\ ~ argPRNumber (<["pr_number" := AFloat64 (9 # 10)]> ∅) > 0.
Proof.
  destruct (pr_number_is_truncated (<["pr_number" := AFloat64 (79 # 10)]> ∅)) as [H7 _].
  destruct (H7 (79 # 10) eq_refl) as [_ Hfloor]; [reflexivity|].
  destruct Hfloor as [Hlo Hhi]; [discriminate|].
  destruct (pr_number_is_truncated (<["pr_number" := AFloat64 (9 # 10)]> ∅)) as [H _].
  destruct (H (9 # 10) eq_refl) as [Hpos _]; [reflexivity|].
  split; [exact Hlo|]. split; [exact Hhi|].
  rewrite Hpos. unfold Qle. simpl. lia.
Defined.

(** ** What the resolver returns *)

Lemma elem_of_candidates refs n r : r ∈ candidates refs n <-> mkPRRef n r ∈ refs.
Proof.
  unfold candidates. rewrite list_elem_of_fmap. split.
  - intros ([n' r'] & -> & [Hn Hin]%list_elem_of_filter). simpl in *. by subst.
  - intros Hin. exists (mkPRRef n r). split; [done|].
    apply list_elem_of_filter. done.
Qed.

(** X18. The resolver is sound.  It reports an ambiguity only for a
    blank repo and a positive number, with at least two candidates,
    each the repository of a cached pull request of that number; and
    when it returns a repo other than the one it was given, the repo is
    the only cached repository for that number.  In no case does it
    change anything but the session's expired cache entry. *)
Theorem resolver_returns_cached_repositories (clk : Clock) (sid repo : string) (n : Z)
    (m : MemoryStore) :
  match (autoResolve clk sid repo n m).1 with
  | Ambiguous matches =>
      repo = "" /\ n > 0 /\ (2 <= length matches)%nat
      /\ exists refs, (GetLastPRs (tResolve clk) sid m).1 = Some refs
                      /\ matches = candidates refs n
                      /\ forall r, r ∈ matches <-> mkPRRef n r ∈ refs
  | Proceed r =>
      r = repo
      \/ (repo = "" /\ n > 0
          /\ exists refs, (GetLastPRs (tResolve clk) sid m).1 = Some refs
                          /\ candidates refs n = [r] /\ mkPRRef n r ∈ refs)
  end
  /\ ((autoResolve clk sid repo n m).2 = m
      \/ (autoResolve clk sid repo n m).2 = (GetLastPRs (tResolve clk) sid m).2).
Proof.
  split; [|apply autoResolve_store].
  unfold autoResolve. case_decide as Hg; [|by left]. destruct Hg as [-> Hn].
  destruct (GetLastPRs (tResolve clk) sid m) as [[refs|] m1] eqn:E; [|by left].
  rewrite matchRefs_candidates.
  destruct (candidates refs n) as [|r1 [|r2 rest]] eqn:Hc; simpl.
  - by left.
  - right. repeat split; try done. exists refs. repeat split; try done.
    apply elem_of_candidates. rewrite Hc. set_solver.
  - repeat split; try done; [simpl; lia|].
    exists refs. repeat split; try done; rewrite <- Hc; apply elem_of_candidates.
Qed.

(** ** Decimal numbers *)

Lemma digit_pretty_N_char d :
  (d < 10)%N -> strconv.digit (pretty_N_char d) = Some (Z.of_N d).
Proof.
  intros H.
  assert (d = 0 \/ d = 1 \/ d = 2 \/ d = 3 \/ d = 4 \/ d = 5 \/ d = 6 \/ d = 7
          \/ d = 8 \/ d = 9)%N as Hd by lia.
  repeat (destruct Hd as [->|Hd]; [reflexivity|]). by subst.
Qed.

Lemma pretty_N_char_not_sign d : pretty_N_char d <> "-"%char /\ pretty_N_char d <> "+"%char.
Proof. unfold pretty_N_char. repeat case_match; split; discriminate. Qed.

Lemma parseUint_pretty_N_go x s :
  Z.of_N x <= 2 ^ 64 - 1 ->
  strconv.parseUint 0 (pretty_N_go x s) = strconv.parseUint (Z.of_N x) s.
Proof.
  revert s. induction (N.lt_wf_0 x) as [x _ IH]; intros s Hx.
  destruct (decide (x = 0)%N) as [->|Hpos]; [done|].
  rewrite pretty_N_go_step by lia.
  rewrite IH.
  - simpl. rewrite digit_pretty_N_char by (apply N.mod_lt; lia).
    assert (Hdm : 10 * Z.of_N (x `div` 10) + Z.of_N (x `mod` 10) = Z.of_N x).
    { rewrite (N.div_mod x 10) at 3 by lia. lia. }
    rewrite Hdm. by rewrite decide_False by lia.
  - apply N.div_lt; lia.
  - assert (x `div` 10 <= x)%N by (apply N.Div0.div_le_upper_bound; lia). lia.
Qed.

Lemma pretty_N_go_head x s :
  (0 < x)%N -> exists d r, pretty_N_go x s = String (pretty_N_char d) r.
Proof.
  revert s. induction (N.lt_wf_0 x) as [x _ IH]; intros s Hx.
  rewrite pretty_N_go_step by done.
  destruct (decide (x `div` 10 = 0)%N) as [->|Hd].
  - rewrite pretty_N_go_0. eauto.
  - apply IH; [apply N.div_lt; lia|].
    destruct (x `div` 10)%N; [done|lia].
Qed.

Lemma Atoi_unsigned c r :
  c <> "-"%char -> c <> "+"%char ->
  strconv.Atoi (String c r)
  = match strconv.parseUint 0 (String c r) with
    | Err e => Err e
    | Ok un => if decide (un >= 2 ^ 63) then Err "value out of range" else Ok un
    end.
Proof.
  intros Hm Hp. unfold strconv.Atoi.
  destruct (decide (c = "-"%char)) as [|_]; [done|].
  destruct (decide (c = "+"%char)) as [|_]; [done|].
  lazy beta iota zeta. rewrite decide_False by discriminate.
  destruct (strconv.parseUint 0 (String c r)) as [un|]; [|done].
  destruct (decide (un >= 2 ^ 63)).
  - by rewrite decide_True by auto.
  - rewrite decide_False by tauto. by rewrite decide_False by (intros [? _]; done).
Qed.

Lemma Atoi_negative r :
  r <> "" ->
  strconv.Atoi (String "-" r)
  = match strconv.parseUint 0 r with
    | Err e => Err e
    | Ok un => if decide (un > 2 ^ 63) then Err "value out of range" else Ok (- un)
    end.
Proof.
  intros Hr. unfold strconv.Atoi.
  destruct (decide ("-"%char = "-"%char)) as [_|]; [|done].
  lazy beta iota zeta. rewrite decide_False by done.
  destruct (strconv.parseUint 0 r) as [un|]; [|done].
  rewrite decide_False by (intros [? _]; done).
  destruct (decide (un > 2 ^ 63)).
  - by rewrite decide_True by auto.
  - by rewrite decide_False by tauto.
Qed.

Lemma Atoi_positive p :
  Z.pos p <= 2 ^ 63 - 1 -> strconv.Atoi (pretty (N.pos p)) = Ok (Z.pos p).
Proof.
  intros Hp. unfold pretty, pretty_N. rewrite decide_False by done.
  destruct (pretty_N_go_head (N.pos p) "" ltac:(lia)) as (d & r & Hhead).
  destruct (pretty_N_char_not_sign d) as [Hm Hpl].
  rewrite Hhead, Atoi_unsigned by done. rewrite <- Hhead.
  rewrite parseUint_pretty_N_go by (simpl; lia). simpl.
  by rewrite decide_False by lia.
Qed.

(** [Atoi] reads back what [%d] prints. *)
Lemma Atoi_fmt_d n : - 2 ^ 63 <= n <= 2 ^ 63 - 1 -> strconv.Atoi (fmt_d n) = Ok n.
Proof.
  intros Hn. unfold fmt_d, pretty, pretty_Z. destruct n as [|p|p].
  - reflexivity.
  - apply Atoi_positive. lia.
  - unfold pretty, pretty_positive.
    change (strconv.Atoi (String "-" (pretty (N.pos p))) = Ok (Z.neg p)).
    unfold pretty, pretty_N. rewrite decide_False by done.
    destruct (pretty_N_go_head (N.pos p) "" ltac:(lia)) as (d & r & Hhead).
    rewrite Atoi_negative by (rewrite Hhead; discriminate).
    rewrite parseUint_pretty_N_go by (simpl; lia). simpl.
    by rewrite decide_False by lia.
Qed.

(** ** The REST endpoints *)

Lemma prParams_Some owner repoName numStr repo n :
  rest.prParams owner repoName numStr = Some (repo, n) ->
  owner <> "" /\ repoName <> "" /\ n > 0 /\ strconv.Atoi numStr = Ok n
  /\ repo = owner +:+ "/" +:+ repoName.
Proof.
  unfold rest.prParams. destruct (strconv.Atoi numStr) as [k|]; [|done].
  case_decide as H; [done|]. intros [= <- <-].
  repeat split; try done; try lia; intros ->; tauto.
Qed.

(** X19. The REST endpoints for one pull request check the credential
    first and the URL parameters next.  Without a token in the
    configuration or the token file they answer 401 whatever the
    parameters.  They reach the provider only with a non-blank token,
    the repo [owner/repo] made of two non-empty path segments and a
    positive number read from decimal digits; and every positive
    number in the range of an [int], written in decimal, is accepted. *)
Theorem rest_endpoints_validate_before_calling (ToLower : string -> string) (s : Server)
    (owner repoName numStr method : string) :
  (TrimSpace (rest.restToken s) = "" ->
     rest.handlePRsForReview s = rest.Error 401 "not authenticated with GitHub"
     /\ rest.handlePRsMine s = rest.Error 401 "not authenticated with GitHub"
     /\ rest.handlePRComments s owner repoName numStr
        = rest.Error 401 "not authenticated with GitHub"
     /\ rest.handleMergePR ToLower s owner repoName numStr method
        = rest.Error 401 "not authenticated with GitHub")
  /\ (forall comments,
        rest.handlePRComments s owner repoName numStr = rest.JSONComments comments ->
        TrimSpace (rest.restToken s) <> "" /\ owner <> "" /\ repoName <> ""
        /\ exists n, n > 0 /\ strconv.Atoi numStr = Ok n
             /\ gh.GetPRComments (mcp s) (rest.restToken s) (owner +:+ "/" +:+ repoName) n
                = Ok comments)
  /\ (rest.handleMergePR ToLower s owner repoName numStr method = rest.JSONMerged ->
        TrimSpace (rest.restToken s) <> "" /\ owner <> "" /\ repoName <> ""
        /\ exists n, n > 0 /\ strconv.Atoi numStr = Ok n
             /\ gh.MergePR (mcp s) (rest.restToken s) (owner +:+ "/" +:+ repoName) n
                  (ToLower (TrimSpace method)) = None)
  /\ (forall n,
        0 < n <= 2 ^ 63 - 1 -> owner <> "" -> repoName <> "" ->
        TrimSpace (rest.restToken s) <> "" ->
        rest.handlePRComments s owner repoName (fmt_d n)
        = match gh.GetPRComments (mcp s) (rest.restToken s)
                  (owner +:+ "/" +:+ repoName) n with
          | Ok comments => rest.JSONComments comments
          | Err _ => rest.Error 502 "failed to fetch PR comments"
          end).
Proof.
  split; [|split; [|split]].
  - intros Htok. unfold rest.handlePRsForReview, rest.handlePRsMine,
      rest.handlePRComments, rest.handleMergePR.
    by rewrite !decide_True by done.
  - intros comments. unfold rest.handlePRComments. case_decide as Htok; [done|].
    destruct (rest.prParams owner repoName numStr) as [[repo n]|] eqn:Hp; [|done].
    destruct (prParams_Some _ _ _ _ _ Hp) as (? & ? & ? & ? & ->).
    destruct (gh.GetPRComments _ _ _ _) eqn:Hc; [|done].
    intros [= <-]. eauto 10.
  - unfold rest.handleMergePR. case_decide as Htok; [done|].
    destruct (rest.prParams owner repoName numStr) as [[repo n]|] eqn:Hp; [|done].
    destruct (prParams_Some _ _ _ _ _ Hp) as (? & ? & ? & ? & ->).
    destruct (gh.MergePR _ _ _ _ _) eqn:Hc; [done|].
    intros _. eauto 10.
  - intros n Hn Ho Hr Htok. unfold rest.handlePRComments.
    rewrite decide_False by done. unfold rest.prParams.
    rewrite Atoi_fmt_d by lia. rewrite decide_False by (intros [?|[?|?]]; [done..|lia]).
    done.
Qed.

Lemma rest_endpoints_validate_before_calling_witness :
  rest.handlePRComments (example.serverWith "tok" example.quiet) "acme" "widgets" "7"
  = rest.JSONComments [].
Proof.
  destruct (rest_endpoints_validate_before_calling example.asciiToLower
              (example.serverWith "tok" example.quiet) "acme" "widgets" "7" "")
    as (_ & _ & _ & H).
  etransitivity; [|exact (eq_refl : _ = rest.JSONComments [])].
  refine (H 7 _ _ _ _); [lia|discriminate|discriminate|vm_compute; discriminate].
Defined.

(** X20. The status endpoint and the chat turn can disagree.  With a
    database and a session id, the status is the presence of the
    session's row and nothing else: a session without a row is reported
    unauthenticated even when the configured token gives the chat turn
    a credential.  Without a database, a configured token that is only
    white space is reported as authenticated though the chat turn finds
    no credential. *)
Theorem status_and_chat_can_disagree (s : Server) (sid : string) (m : MemoryStore) :
  (forall ds, databaseStore s = Some ds -> sid <> "" ->
     ((rest.handleGitHubStatus s sid m).1 = true
      <-> exists auth, GetGitHubAuth ds sid = Ok (Some auth))
     /\ (GetGitHubAuth ds sid = Ok None ->
         TrimSpace (config.GitHubToken (cfg s)) <> "" ->
         (rest.handleGitHubStatus s sid m).1 = false
         /\ TrimSpace (getGitHubToken s sid) <> ""))
  /\ (databaseStore s = None ->
      config.GitHubToken (cfg s) <> "" ->
      TrimSpace (config.GitHubToken (cfg s)) = "" ->
      TrimSpace (fileToken s) = "" ->
      (rest.handleGitHubStatus s sid m).1 = true
      /\ TrimSpace (getGitHubToken s sid) = "").
Proof.
  split.
  - intros ds Hds Hsid. unfold rest.handleGitHubStatus. rewrite Hds.
    rewrite decide_True by done. split.
    + destruct (GetGitHubAuth ds sid) as [[auth|]|]; simpl.
      * split; eauto.
      * split; [done|]. intros [? ?]. done.
      * split; [done|]. intros [? ?]. done.
    + intros Hnone Hcfg. rewrite Hnone. split; [done|].
      rewrite getGitHubToken_priority.
      assert (Hdb : databaseToken s sid = "").
      { unfold databaseToken. by rewrite Hds, Hnone. }
      rewrite Hdb. destruct (decide (TrimSpace "" <> "")) as [H|_]; [by destruct H|].
      by case_decide.
  - intros Hds Hne Hblank Hfile. unfold rest.handleGitHubStatus. rewrite Hds.
    split.
    + simpl. by rewrite bool_decide_eq_true_2.
    + rewrite getGitHubToken_priority.
      assert (Hdb : databaseToken s sid = "") by (unfold databaseToken; by rewrite Hds).
      rewrite Hdb. destruct (decide (TrimSpace "" <> "")) as [H|_]; [by destruct H|].
      by rewrite decide_False by (intros H; by apply H).
Qed.

(** ** Splitting at a byte *)

Lemma Split_length s sep :
  length (gostr.Split s sep) = S (gostr.occurrences sep s).
Proof.
  induction s as [|c s IH]; simpl; [done|].
  destruct (decide (c = sep)); simpl; [by rewrite IH|].
  destruct (gostr.Split s sep); simpl in *; [done|exact IH].
Qed.

Lemma Split_nonempty s sep : gostr.Split s sep <> [].
Proof.
  intros H. pose proof (Split_length s sep) as Hl. rewrite H in Hl. done.
Qed.

Lemma Split_whole s sep :
  gostr.occurrences sep s = O -> gostr.Split s sep = [s].
Proof.
  induction s as [|c s IH]; simpl; [done|].
  destruct (decide (c = sep)); simpl; [done|].
  intros H. by rewrite IH.
Qed.

Lemma Split_app a b sep :
  gostr.occurrences sep a = O ->
  gostr.Split (a +:+ String sep b) sep = a :: gostr.Split b sep.
Proof.
  induction a as [|c a IH]; simpl.
  - intros _. by rewrite decide_True.
  - destruct (decide (c = sep)); simpl; [done|].
    intros H. by rewrite IH.
Qed.

Lemma Split_pieces s sep p :
  p ∈ gostr.Split s sep -> gostr.occurrences sep p = O.
Proof.
  revert p. induction s as [|c s IH]; simpl; intros p.
  - by intros ->%list_elem_of_singleton.
  - destruct (decide (c = sep)).
    + intros [->|H]%elem_of_cons; [done|by apply IH].
    + destruct (gostr.Split s sep) as [|q qs] eqn:E.
      * intros ->%list_elem_of_singleton. simpl. by rewrite decide_False.
      * intros [->|H]%elem_of_cons.
        -- simpl. rewrite decide_False by done. apply IH. left.
        -- apply IH. by right.
Qed.

Lemma Split_pair owner name sep :
  gostr.occurrences sep owner = O -> gostr.occurrences sep name = O ->
  gostr.Split (owner +:+ String sep name) sep = [owner; name].
Proof.
  intros Ho Hn. by rewrite Split_app, Split_whole.
Qed.

Lemma Index_here s sub : strings.HasPrefix s sub = true -> gostr.Index s sub = 0.
Proof. intros H. destruct s; cbn [gostr.Index]; by rewrite H. Qed.

Lemma Index_skip c s sub i :
  strings.HasPrefix (String c s) sub = false ->
  gostr.Index s sub = i -> 0 <= i ->
  gostr.Index (String c s) sub = i + 1.
Proof.
  intros H Hi Hpos. cbn [gostr.Index]. rewrite H, Hi.
  destruct (decide (i = -1)); [lia|done].
Qed.

Lemma HasPrefix_app p x : strings.HasPrefix (p +:+ x) p = true.
Proof.
  induction p as [|c p IH]; simpl; [by destruct x|].
  by rewrite bool_decide_eq_true_2.
Qed.

Lemma Index_github x : gostr.Index ("https://github.com/" +:+ x) "github.com/" = 8.
Proof.
  cbn [String.append].
  apply (Index_skip _ _ _ 7); [reflexivity| |done].
  apply (Index_skip _ _ _ 6); [reflexivity| |done].
  apply (Index_skip _ _ _ 5); [reflexivity| |done].
  apply (Index_skip _ _ _ 4); [reflexivity| |done].
  apply (Index_skip _ _ _ 3); [reflexivity| |done].
  apply (Index_skip _ _ _ 2); [reflexivity| |done].
  apply (Index_skip _ _ _ 1); [reflexivity| |done].
  apply (Index_skip _ _ _ 0); [reflexivity| |done].
  apply Index_here, (HasPrefix_app "github.com/").
Qed.

(** ** The REST client *)

Lemma repoFromHTMLURL_shape u :
  ghclient.repoFromHTMLURL u = ""
  \/ exists owner name,
       ghclient.repoFromHTMLURL u = owner +:+ "/" +:+ name
       /\ gostr.Split (ghclient.repoFromHTMLURL u) "/" = [owner; name].
Proof.
  unfold ghclient.repoFromHTMLURL.
  destruct (decide (gostr.Index u "github.com/" = -1)); [by left|].
  set (rest := gostr.SliceFrom _ u).
  pose proof (Split_pieces rest "/") as Hp.
  destruct (gostr.Split rest "/") as [|owner [|name [|x xs]]]; [by left..|].
  right. exists owner, name. split; [done|].
  apply (Split_pair owner name "/"); apply Hp; set_solver.
Qed.

(** X21. The repository of a pull request is read off its page
    address: for an address https://github.com/OWNER/NAME/REST, where
    OWNER and NAME hold no slash, [repoFromHTMLURL] gives OWNER/NAME. *)
Lemma repository_is_read_off_the_page_address owner name rest :
  gostr.occurrences "/" owner = O ->
  gostr.occurrences "/" name = O ->
  ghclient.repoFromHTMLURL
    ("https://github.com/" +:+ owner +:+ "/" +:+ name +:+ "/" +:+ rest)
  = owner +:+ "/" +:+ name.
Proof.
  intros Ho Hn. unfold ghclient.repoFromHTMLURL.
  rewrite Index_github, decide_False by done.
  change (gostr.SliceFrom _ _)
    with (owner +:+ String "/" (name +:+ String "/" rest)).
  rewrite !Split_app by done.
  pose proof (Split_nonempty rest "/") as Hr.
  by destruct (gostr.Split rest "/").
Qed.

Lemma repository_is_read_off_the_page_address_witness :
  ghclient.repoFromHTMLURL "https://github.com/acme/widgets/pull/7" = "acme/widgets".
Proof.
  apply (repository_is_read_off_the_page_address "acme" "widgets" "pull/7");
    reflexivity.
Defined.

(** X22. Every pull request that a search of the client lists is open
    and has a repository that is either empty or of the form
    OWNER/NAME that the client's own operations accept: splitting it
    at the slash gives exactly the two pieces. *)
Lemma listed_repositories_are_well_formed c token q prs pr :
  ghclient.searchPRs c token q = Ok prs ->
  pr ∈ prs ->
  gh.Status pr = "open"
  /\ (gh.Repository pr = ""
      \/ exists owner name,
           gh.Repository pr = owner +:+ "/" +:+ name
           /\ gostr.Split (gh.Repository pr) "/" = [owner; name]).
Proof.
  unfold ghclient.searchPRs.
  destruct (ghclient.getSearch c token q) as [items|e]; [|done].
  intros [= <-] Hin. apply list_elem_of_In, in_map_iff in Hin as (it & <- & _).
  split; [done|]. simpl. apply repoFromHTMLURL_shape.
Qed.

Lemma listed_repositories_are_well_formed_witness :
  gh.Status (gh.mkPR 7 "Fix" "octo" "open" "https://github.com/acme/widgets/pull/7"
               "acme/widgets") = "open".
Proof.
  refine (proj1 (listed_repositories_are_well_formed examplex.web "tok"
                   "type:pr state:open author:@me" _ _ eq_refl _)).
  apply list_elem_of_singleton. reflexivity.
Defined.

(** X23. A repository that does not hold exactly one slash is refused
    by every operation of the client as an invalid repo, whatever
    GitHub would answer: the refusal does not depend on the
    transport, so no request is sent. *)
Lemma malformed_repository_is_refused_before_any_request
    (EqualFold : string -> string -> bool) c token repo prNumber method :
  gostr.occurrences "/" repo <> 1%nat ->
  ghclient.GetPRComments c token repo prNumber = Err ("invalid repo: " +:+ repo)
  /\ ghclient.MergePR c token repo prNumber method = Some ("invalid repo: " +:+ repo)
  /\ ghclient.GetPRStatus EqualFold c token repo prNumber = Err ("invalid repo: " +:+ repo)
  /\ ghclient.GetPRDiff c token repo prNumber = Err ("invalid repo: " +:+ repo).
Proof.
  intros H.
  unfold ghclient.GetPRComments, ghclient.MergePR, ghclient.GetPRStatus,
    ghclient.GetPRDiff.
  pose proof (Split_length repo "/") as Hl.
  destruct (gostr.Split repo "/") as [|owner [|name [|x xs]]]; simpl in Hl;
    try done.
  exfalso. apply H. lia.
Qed.

Lemma malformed_repository_is_refused_before_any_request_witness :
  ghclient.GetPRDiff examplex.web "tok" "widgets" 7 = Err "invalid repo: widgets".
Proof.
  refine (proj2 (proj2 (proj2 (malformed_repository_is_refused_before_any_request
            examplex.equalFold examplex.web "tok" "widgets" 7 "" _)))).
  vm_compute. discriminate.
Defined.

(** ** Comments, diff and status of a pull request *)

Lemma add_int_exact a b :
  - 2 ^ 63 <= a + b < 2 ^ 63 -> ghclient.add_int a b = a + b.
Proof.
  intros H. unfold ghclient.add_int.
  rewrite Z.mod_small by lia. lia.
Qed.

Lemma additions_nonneg files :
  Forall (fun f => 0 <= ghclient.pfAdditions f) files -> 0 <= ghclient.additions files.
Proof. induction 1; simpl; lia. Qed.

Lemma deletions_nonneg files :
  Forall (fun f => 0 <= ghclient.pfDeletions f) files -> 0 <= ghclient.deletions files.
Proof. induction 1; simpl; lia. Qed.

Lemma diff_fold files d :
  Forall (fun f => 0 <= ghclient.pfAdditions f /\ 0 <= ghclient.pfDeletions f) files ->
  0 <= ghclient.DiffAdditions d -> 0 <= ghclient.DiffDeletions d ->
  ghclient.DiffAdditions d + ghclient.additions files < 2 ^ 63 ->
  ghclient.DiffDeletions d + ghclient.deletions files < 2 ^ 63 ->
  foldl (fun diff f =>
           let df := ghclient.mkDiffFile (ghclient.pfFilename f) (ghclient.pfAdditions f)
                       (ghclient.pfDeletions f) (ghclient.pfPatch f) in
           ghclient.mkDiff (ghclient.FilesChanged diff)
             (ghclient.add_int (ghclient.DiffAdditions diff) (ghclient.Additions df))
             (ghclient.add_int (ghclient.DiffDeletions diff) (ghclient.Deletions df))
             (ghclient.Files diff ++ [df])) d files
  = ghclient.mkDiff (ghclient.FilesChanged d)
      (ghclient.DiffAdditions d + ghclient.additions files)
      (ghclient.DiffDeletions d + ghclient.deletions files)
      (ghclient.Files d
       ++ map (fun f => ghclient.mkDiffFile (ghclient.pfFilename f) (ghclient.pfAdditions f)
                          (ghclient.pfDeletions f) (ghclient.pfPatch f)) files).
Proof.
  intros Hall. revert d.
  induction Hall as [|f files [Ha Hd] Hall IH]; intros d Hda Hdd Hsa Hsd.
  - destruct d; simpl. by rewrite !Z.add_0_r, app_nil_r.
  - pose proof (additions_nonneg files) as Han.
    pose proof (deletions_nonneg files) as Hdn.
    assert (0 <= ghclient.additions files)
      by (apply Han; eapply Forall_impl; [exact Hall|by intros ? []]).
    assert (0 <= ghclient.deletions files)
      by (apply Hdn; eapply Forall_impl; [exact Hall|by intros ? []]).
    change (ghclient.additions (f :: files))
      with (ghclient.pfAdditions f + ghclient.additions files) in *.
    change (ghclient.deletions (f :: files))
      with (ghclient.pfDeletions f + ghclient.deletions files) in *.
    cbn [foldl map ghclient.Additions ghclient.Deletions].
    rewrite !add_int_exact by lia.
    rewrite IH; cbn [ghclient.DiffAdditions ghclient.DiffDeletions ghclient.Files
                       ghclient.FilesChanged]; try lia.
    rewrite <- app_assoc. f_equal; lia.
Qed.

(** X24. For a repository OWNER/NAME, when the files of the pull
    request are fetched and their additions and deletions are not
    negative and sum up below 2^63, the diff lists the files in the
    order received, counts them, and its totals are the sums of the
    files' additions and deletions. *)
Lemma diff_totals_are_the_sums_over_the_files c token owner name prNumber files :
  gostr.occurrences "/" owner = O ->
  gostr.occurrences "/" name = O ->
  ghclient.getFiles c token
    (ghclient.repoPath owner name +:+ "/pulls/" +:+ fmt_d prNumber
     +:+ "/files?per_page=100") = Ok files ->
  Forall (fun f => 0 <= ghclient.pfAdditions f /\ 0 <= ghclient.pfDeletions f) files ->
  ghclient.additions files < 2 ^ 63 ->
  ghclient.deletions files < 2 ^ 63 ->
  ghclient.GetPRDiff c token (owner +:+ "/" +:+ name) prNumber
  = Ok (ghclient.mkDiff (Z.of_nat (length files)) (ghclient.additions files)
          (ghclient.deletions files)
          (map (fun f => ghclient.mkDiffFile (ghclient.pfFilename f)
                           (ghclient.pfAdditions f) (ghclient.pfDeletions f)
                           (ghclient.pfPatch f)) files)).
Proof.
  intros Ho Hn Hget Hall Ha Hd. unfold ghclient.GetPRDiff.
  rewrite (Split_pair owner name "/" Ho Hn
           : gostr.Split (owner +:+ "/" +:+ name) "/" = _), Hget.
  rewrite diff_fold; [|done|simpl; lia..].
  cbn [ghclient.DiffAdditions ghclient.DiffDeletions ghclient.Files app].
  by rewrite length_map.
Qed.

Lemma diff_totals_are_the_sums_over_the_files_witness :
  ghclient.GetPRDiff examplex.web "tok" "acme/widgets" 7
  = Ok (ghclient.mkDiff 2 5 1
          [ghclient.mkDiffFile "a.go" 3 1 "@@"; ghclient.mkDiffFile "b.go" 2 0 "@@"]).
Proof.
  refine (diff_totals_are_the_sums_over_the_files examplex.web "tok" "acme" "widgets" 7
            _ eq_refl eq_refl eq_refl _ _ _).
  - repeat constructor; simpl; lia.
  - reflexivity.
  - reflexivity.
Defined.

Lemma passing_fold (EqualFold : string -> string -> bool) (l : list (string * string)) a :
  a <= foldl (fun passing st =>
                if EqualFold st.1 "success" then passing + 1 else passing) a l
    <= a + Z.of_nat (length l).
Proof.
  revert a. induction l as [|st l IH]; intros a; simpl; [lia|].
  destruct (EqualFold st.1 "success");
    [specialize (IH (a + 1))|specialize (IH a)]; lia.
Qed.

(** X25. Whatever GitHub answers, a status report that the client
    returns counts between zero and the number of checks as passing,
    reports no conflicts and names no failing check. *)
Lemma status_report_counts_within_bounds
    (EqualFold : string -> string -> bool) c token repo prNumber st :
  ghclient.GetPRStatus EqualFold c token repo prNumber = Ok st ->
  0 <= ghclient.ChecksPassing st <= ghclient.ChecksTotal st
  /\ ghclient.HasConflicts st = false
  /\ ghclient.FailingCheckIDs st = [].
Proof.
  unfold ghclient.GetPRStatus.
  destruct (gostr.Split repo "/") as [|owner [|name [|x xs]]]; try done.
  destruct (ghclient.getPrDetails c token _) as [pr|e]; [|done].
  destruct (ghclient.getReviews c token _) as [revs|e]; [|done].
  destruct (decide (ghclient.HeadSHA pr <> "")) as [Hsha|Hsha].
  - destruct (ghclient.getCommitStatus c token _) as [cs|e].
    + intros [= <-]. cbn [ghclient.ChecksPassing ghclient.ChecksTotal
                            ghclient.HasConflicts ghclient.FailingCheckIDs].
      pose proof (passing_fold EqualFold (ghclient.Statuses cs) 0). split; [lia|done].
    + intros [= <-]. simpl. split; [lia|done].
  - intros [= <-]. simpl. split; [lia|done].
Qed.

Lemma status_report_counts_within_bounds_witness :
  0 <= 1 <= 2 /\ false = false /\ @nil string = [].
Proof.
  exact (status_report_counts_within_bounds examplex.equalFold examplex.web "tok"
           "acme/widgets" 7
           (ghclient.mkStatus 1 2 ["ann"] true false []) eq_refl).
Defined.

(** X26. A failure to fetch the commit status of the head is not an
    error of the status report: when the details and the reviews of
    the pull request are fetched, the report is returned, with zero
    checks of zero when the commit status could not be fetched. *)
Lemma status_report_survives_missing_checks
    (EqualFold : string -> string -> bool) c token owner name prNumber pr revs e :
  gostr.occurrences "/" owner = O ->
  gostr.occurrences "/" name = O ->
  ghclient.getPrDetails c token
    (ghclient.repoPath owner name +:+ "/pulls/" +:+ fmt_d prNumber) = Ok pr ->
  ghclient.getReviews c token
    (ghclient.repoPath owner name +:+ "/pulls/" +:+ fmt_d prNumber +:+ "/reviews")
    = Ok revs ->
  ghclient.getCommitStatus c token
    (ghclient.repoPath owner name +:+ "/commits/" +:+ ghclient.HeadSHA pr +:+ "/status")
    = Err e ->
  exists st,
    ghclient.GetPRStatus EqualFold c token (owner +:+ "/" +:+ name) prNumber = Ok st
    /\ ghclient.ChecksPassing st = 0 /\ ghclient.ChecksTotal st = 0
    /\ ghclient.StatusMergeable st = (match ghclient.Mergeable pr with
                                       | Some b => b | None => false end).
Proof.
  intros Ho Hn Hpr Hrevs Hcs. unfold ghclient.GetPRStatus.
  rewrite (Split_pair owner name "/" Ho Hn
           : gostr.Split (owner +:+ "/" +:+ name) "/" = _), Hpr, Hrevs, Hcs.
  destruct (decide (ghclient.HeadSHA pr <> "")); eexists; (split; [reflexivity|done]).
Qed.

(** X27. The comments of a pull request come as the inline comments
    followed by the general ones; an inline comment carries no
    timestamp, a general one no path and no line, and no comment is of
    any other type. *)
Lemma comments_are_inline_then_general c token repo prNumber out :
  ghclient.GetPRComments c token repo prNumber = Ok out ->
  exists inline general,
    out = inline ++ general
    /\ Forall (fun x => ghclient.Type_ x = "inline" /\ ghclient.Timestamp x = "") inline
    /\ Forall (fun x => ghclient.Type_ x = "general" /\ ghclient.Path x = ""
                        /\ ghclient.Line x = 0) general.
Proof.
  unfold ghclient.GetPRComments.
  destruct (gostr.Split repo "/") as [|owner [|name [|x xs]]]; try done.
  destruct (ghclient.getReviewComments c token _) as [review|e]; [|done].
  destruct (ghclient.getIssueComments c token _) as [issue|e]; [|done].
  intros [= <-]. eexists _, _. split; [reflexivity|].
  split; apply Forall_forall; intros x Hx;
    apply list_elem_of_In, in_map_iff in Hx as (y & <- & _); done.
Qed.

Lemma comments_are_inline_then_general_witness :
  exists inline general,
    [ghclient.mkComment "ann" "nit" "" "inline" "main.go" 3;
     ghclient.mkComment "bob" "lgtm" "2024-05-01T10:00:00Z" "general" "" 0]
    = inline ++ general
    /\ Forall (fun x => ghclient.Type_ x = "inline" /\ ghclient.Timestamp x = "") inline
    /\ Forall (fun x => ghclient.Type_ x = "general" /\ ghclient.Path x = ""
                        /\ ghclient.Line x = 0) general.
Proof.
  exact (comments_are_inline_then_general examplex.web "tok" "acme/widgets" 7 _ eq_refl).
Defined.

Lemma status_report_survives_missing_checks_witness :
  exists st,
    ghclient.GetPRStatus examplex.equalFold examplex.webNoChecks "tok"
      ("acme" +:+ "/" +:+ "widgets") 7 = Ok st
    /\ ghclient.ChecksPassing st = 0 /\ ghclient.ChecksTotal st = 0
    /\ ghclient.StatusMergeable st = true.
Proof.
  exact (status_report_survives_missing_checks examplex.equalFold examplex.webNoChecks
           "tok" "acme" "widgets" 7 (ghclient.mkPrDetails (Some true) "abc")
           [ghclient.mkReview "approved" "ann"; ghclient.mkReview "COMMENTED" "bob"]
           "github api failed" eq_refl eq_refl eq_refl eq_refl eq_refl).
Defined.

(** ** Lists of the environment *)

Lemma env_list_fold (P : string -> Prop) parts out :
  (forall p, strings.TrimSpace p <> "" -> P (strings.TrimSpace p)) ->
  Forall P out ->
  Forall P (foldl (fun out p =>
                     let s := strings.TrimSpace p in
                     if decide (s <> "") then out ++ [s] else out) out parts).
Proof.
  intros HP. revert out. induction parts as [|p parts IH]; intros out Hout; simpl; [done|].
  apply IH. destruct (decide (strings.TrimSpace p <> "")); [|done].
  apply Forall_app. split; [done|]. apply Forall_singleton. by apply HP.
Qed.

(** X28. A list read from the environment never has an empty result
    in place of a non-empty default, and every entry that does not
    come from the default is non-blank and carries no white space
    around it. *)
Lemma env_list_entries_are_trimmed env key def :
  (configenv.getEnvListDefault env key def = [] -> def = [])
  /\ forall x, x ∈ configenv.getEnvListDefault env key def ->
       x ∈ def \/ (x <> "" /\ strings.TrimSpace x = x).
Proof.
  unfold configenv.getEnvListDefault.
  destruct (decide (configenv.Getenv env key <> "")); [|by split; [|left]].
  match goal with |- context [foldl ?f [] ?l] => set (out := foldl f [] l) end.
  assert (Hout : Forall (fun x => x <> "" /\ strings.TrimSpace x = x) out).
  { apply env_list_fold; [|done]. intros p Hp. split; [done|apply TrimSpace_idemp]. }
  destruct (decide (0 < length out)%nat) as [Hlen|Hlen].
  - split; [intros E; rewrite E in Hlen; simpl in Hlen; lia|].
    intros x Hx. right. by eapply Forall_forall in Hout.
  - split; [done|by left].
Qed.

(** ** The keyword detector *)

Lemma HasPrefix_spec s p :
  strings.HasPrefix s p = true <-> exists b, s = p +:+ b.
Proof.
  revert s. induction p as [|c p IH]; intros s.
  - split; [intros _; by exists s|intros _; by destruct s].
  - destruct s as [|d s]; simpl.
    + split; [done|by intros [b [=]]].
    + rewrite andb_true_iff, bool_decide_eq_true, IH. split.
      * intros [-> [b ->]]. by exists b.
      * intros [b [= -> ->]]. split; [done|by exists b].
Qed.

Lemma string_app_assoc' (a b c : string) : (a +:+ b) +:+ c = a +:+ (b +:+ c).
Proof.
  induction a as [|x a IH]; [done|].
  change (String x ((a +:+ b) +:+ c) = String x (a +:+ (b +:+ c))). by f_equal.
Qed.

Lemma Contains_spec s n :
  strings.Contains s n = true <-> exists a b, s = a +:+ n +:+ b.
Proof.
  induction s as [|c s IH].
  - cbn [strings.Contains]. rewrite orb_false_r, HasPrefix_spec. split.
    + intros [b ->]. by exists "", b.
    + intros (a & b & H). destruct a; [by exists b|done].
  - cbn [strings.Contains]. rewrite orb_true_iff, HasPrefix_spec, IH. split.
    + intros [[b ->]|(a & b & ->)]; [by exists "", b|by exists (String c a), b].
    + intros (a & b & H). destruct a as [|d a]; [left; by exists b|].
      right. injection H as -> ->. by exists a, b.
Qed.

Lemma Contains_trans s n n' :
  strings.Contains n n' = true -> strings.Contains s n = true ->
  strings.Contains s n' = true.
Proof.
  rewrite !Contains_spec. intros (a & b & ->) (a' & b' & ->).
  exists (a' +:+ a), (b +:+ b'). by rewrite !string_app_assoc'.
Qed.

Lemma containsAny_spec s needles :
  ghclient.containsAny s needles = true
  <-> exists n, n ∈ needles /\ strings.Contains s n = true.
Proof.
  induction needles as [|n needles IH]; simpl.
  - split; [done|intros (n & Hn & _); by apply elem_of_nil in Hn].
  - destruct (strings.Contains s n) eqn:E.
    + split; [intros _; exists n; split; [left|done]|done].
    + rewrite IH. split.
      * intros (n' & Hn & Hc). exists n'. split; [by right|done].
      * intros (n' & [->|Hn]%elem_of_cons & Hc); [congruence|by exists n'].
Qed.

Lemma mineNeedles_core s :
  ghclient.containsAny s ghclient.mineNeedles = ghclient.containsAny s ghclient.mineCore.
Proof.
  apply eq_true_iff_eq. rewrite !containsAny_spec. split.
  - intros (n & Hn & Hc).
    assert (exists n', n' ∈ ghclient.mineCore /\ strings.Contains n n' = true)
      as (n' & Hn' & Hc').
    { unfold ghclient.mineNeedles in Hn.
      repeat (apply elem_of_cons in Hn as [->|Hn];
              [first [ exists "my pr"; split; [apply list_elem_of_In; simpl; tauto|reflexivity]
                     | exists "my pull requests"; split; [apply list_elem_of_In; simpl; tauto|reflexivity]
                     | exists "what am i working on"; split; [apply list_elem_of_In; simpl; tauto|reflexivity]
                     | exists "i'm working on"; split; [apply list_elem_of_In; simpl; tauto|reflexivity]
                     | exists "i am working on"; split; [apply list_elem_of_In; simpl; tauto|reflexivity]
                     | exists "my open prs"; split; [apply list_elem_of_In; simpl; tauto|reflexivity]
                     | exists "my open pull requests"; split; [apply list_elem_of_In; simpl; tauto|reflexivity] ]|]).
      by apply elem_of_nil in Hn. }
    exists n'. split; [done|by eapply Contains_trans].
  - intros (n & Hn & Hc). exists n. split; [|done].
    apply list_elem_of_In in Hn. apply list_elem_of_In.
    unfold ghclient.mineCore in Hn. unfold ghclient.mineNeedles. simpl in *. tauto.
Qed.

Lemma reviewNeedles_review s :
  ghclient.containsAny s ghclient.reviewNeedles = true ->
  strings.Contains s "review" = true.
Proof.
  rewrite containsAny_spec. intros (n & Hn & Hc).
  apply (Contains_trans s n); [|done].
  unfold ghclient.reviewNeedles in Hn.
  repeat (apply elem_of_cons in Hn as [->|Hn]; [reflexivity|]).
  by apply elem_of_nil in Hn.
Qed.

(** X29. The keyword detector answers with a listing of the user's
    own pull requests exactly when the lowered, trimmed message holds
    one of seven phrases (the other five needles of the code hold one
    of them), and with a listing for review only for a message that
    holds none of them and mentions a review. *)
Lemma detector_phrases (ToLower : string -> string) message :
  let m := ToLower (strings.TrimSpace message) in
  (ghclient.Kind (ghclient.DetectIntent ToLower message) = gh.IntentListMine
   <-> ghclient.containsAny m ghclient.mineCore = true)
  /\ (ghclient.Kind (ghclient.DetectIntent ToLower message) = gh.IntentListReview
      -> ghclient.containsAny m ghclient.mineCore = false
         /\ strings.Contains m "review" = true).
Proof.
  intros m. unfold ghclient.DetectIntent. fold m.
  rewrite <- (mineNeedles_core m).
  destruct (decide (m = "")) as [->|Hm]; [by split|].
  destruct (ghclient.containsAny m ghclient.mineNeedles) eqn:Emine; [by split|].
  destruct (ghclient.containsAny m ghclient.reviewNeedles) eqn:Erev.
  - simpl. split; [done|]. intros _. split; [done|by apply reviewNeedles_review].
  - simpl. destruct (strings.Contains m "review"); simpl.
    + destruct (strings.Contains m "pr"); simpl; by split.
    + by split.
Qed.
